(** * A model of BaseImage/proxy/proxy.go

    The session-aware reverse proxy of AgentGarage: [ensureSession],
    [ProxyChatCompletion], [forwardRequest] and the two relay modes.

    The Go code talks to four collaborators: the process environment, the
    clock, the network and the JSON codec of the standard library.  They
    are gathered in a [World]; the program itself is written in a small
    state monad that threads the global [activeSession], the list of
    network calls issued so far and the number of clock readings.
    Logging ([log.Printf], [fmt.Printf]) changes nothing of this and is
    left out.  The last part of the definitions observes several
    goroutines inside [ensureSession] at once. *)

From Stdlib Require Import ZArith Ascii String List SpecFloat DecimalString.
From stdpp Require Import base option gmap strings list fin_maps.

Open Scope string_scope.
Open Scope Z_scope.

(** ** Bytes and strings *)

Definition dquote : string := String (ascii_of_nat 34) EmptyString.
Definition newline : string := String (ascii_of_nat 10) EmptyString.
Definition LF : ascii := ascii_of_nat 10.
Definition CR : ascii := ascii_of_nat 13.

Fixpoint string_rev_acc (s acc : string) : string :=
  match s with
  | EmptyString => acc
  | String c s' => string_rev_acc s' (String c acc)
  end.

Definition string_rev (s : string) : string := string_rev_acc s EmptyString.

Definition has_suffix (s suffix : string) : bool :=
  String.prefix (string_rev suffix) (string_rev s).

(** [strings.TrimSuffix] *)
Definition TrimSuffix (s suffix : string) : string :=
  if has_suffix s suffix
  then String.substring 0 (String.length s - String.length suffix) s
  else s.

(** ** net/http headers

    [http.Header] is a [map[string][]string] whose keys are kept in the
    canonical form computed by [textproto.CanonicalMIMEHeaderKey]. *)

Definition is_lower (c : ascii) : bool :=
  let n := nat_of_ascii c in (97 <=? n)%nat && (n <=? 122)%nat.
Definition is_upper (c : ascii) : bool :=
  let n := nat_of_ascii c in (65 <=? n)%nat && (n <=? 90)%nat.
Definition is_digit (c : ascii) : bool :=
  let n := nat_of_ascii c in (48 <=? n)%nat && (n <=? 57)%nat.

(** The token bytes of RFC 7230, as in [validHeaderFieldByte]. *)
Definition validHeaderFieldByte (c : ascii) : bool :=
  is_lower c || is_upper c || is_digit c ||
  existsb (Ascii.eqb c)
    (list_ascii_of_string "!#$%&'*+-.^_`|~").

Definition to_upper (c : ascii) : ascii :=
  if is_lower c then ascii_of_nat (nat_of_ascii c - 32) else c.
Definition to_lower (c : ascii) : ascii :=
  if is_upper c then ascii_of_nat (nat_of_ascii c + 32) else c.

Fixpoint all_valid (s : string) : bool :=
  match s with
  | EmptyString => true
  | String c s' => validHeaderFieldByte c && all_valid s'
  end.

Fixpoint capitalise (upper : bool) (s : string) : string :=
  match s with
  | EmptyString => EmptyString
  | String c s' =>
      let c' := if upper then to_upper c else to_lower c in
      String c' (capitalise (Ascii.eqb c' "-"%char) s')
  end.

(** A key holding a byte that is no token byte is returned unchanged;
    otherwise the first letter and every letter after a hyphen is put in
    upper case and the others in lower case. *)
Definition CanonicalMIMEHeaderKey (s : string) : string :=
  if all_valid s then capitalise true s else s.

Abbreviation Header := (gmap string (list string)).

Definition Header_Set (h : Header) (key value : string) : Header :=
  <[CanonicalMIMEHeaderKey key := [value]]> h.

Definition Header_Add (h : Header) (key value : string) : Header :=
  let k := CanonicalMIMEHeaderKey key in
  <[k := (default [] (h !! k) ++ [value])%list]> h.

(** ** JSON values

    The dynamic values [encoding/json] stores in an [interface{}]:
    [nil], [bool], [float64], [string], [[]interface{}] and
    [map[string]interface{}].  A [float64] is kept as the IEEE value
    itself; the proxy never computes with one. *)

#[warnings="-register-all"]
Inductive JValue : Type :=
| JNull
| JBool (b : bool)
| JNumber (f : SpecFloat.spec_float)
| JString (s : string)
| JArray (items : list JValue)
| JObject (fields : gmap string JValue).

(** The request payload, a [map[string]interface{}]. *)
Abbreviation Payload := (gmap string JValue).

(** What [json.NewDecoder(r.Body).Decode(&requestBody)] leaves behind
    for a [map[string]interface{}] target: an error ([inl]), or no error
    and the map ([inr]).  The map is still [nil] ([None]) when the
    document is [null], which decodes without error and leaves the
    target untouched. *)
Abbreviation DecodeResult := (string + option Payload)%type.

(** ** The network *)

Record Response : Type := mkResponse {
  StatusCode : Z;
  RespHeader : Header;
  (** the bytes the body yields before it ends *)
  Body : string;
  (** [Some e] when reading the body ends with the error [e] instead of
      a clean end of stream *)
  BodyErr : option string;
  (** whether the body reports its end together with its last bytes, as
      the body of a response with a [Content-Length] does, or on a read
      of its own, as a [bytes.Buffer] does *)
  EndWithData : bool
}.

(** The four places where the proxy calls the backend. *)
Inductive NetCall : Type :=
| HealthGet (url : string)
    (* ensureSession: http.Get *)
| SessionPost (url contentType body : string)
    (* ensureSession: http.Post *)
| ProbeGet (url : string)
    (* forwardRequest: client.Get *)
| ChatPost (url : string) (header : Header) (body : string).
    (* forwardRequest: client.Do *)

(** A call returns a response or an error, never both. *)
Inductive NetResult : Type :=
| NetError (err : string)
| NetOk (resp : Response).

(** ** The world around the process *)

Record World : Type := mkWorld {
  (** [os.Getenv]; the empty string for an unset variable *)
  Getenv : string -> string;
  (** the [k]-th reading of the clock, in nanoseconds *)
  Now : nat -> Z;
  (** the answer to a call, given the calls issued before it *)
  RoundTrip : list NetCall -> NetCall -> NetResult;
  (** decoding a request body into a [map[string]interface{}] *)
  DecodePayload : string -> DecodeResult;
  (** decoding a session response into [struct{Id string `json:sessionID`}];
      [inl e] is a decoding error, [inr id] the field (the empty string
      when the document has no such field) *)
  DecodeSession : string -> string + string;
  (** [json.Marshal] on a payload *)
  Marshal : Payload -> string + string;
  (** the error of [http.NewRequest] on a URL it rejects *)
  NewRequestErr : string -> option string
}.

(** ** The process state *)

Record MorpheusSession : Type := mkSession {
  SessionID : string;
  ModelID : string;
  LastUsed : Z
}.

Record State : Type := mkState {
  (** the global [activeSession]; [None] is the [nil] pointer *)
  activeSession : option MorpheusSession;
  (** the network calls issued so far, oldest first *)
  calls : list NetCall;
  (** how many times the clock was read *)
  ticks : nat
}.

(** A Go function returns, panics, or ends the process ([log.Fatal]). *)
Inductive Outcome (A : Type) : Type :=
| Ret (a : A)
| Panic (msg : string)
| Fatal (msg : string).
Arguments Ret {A} a.
Arguments Panic {A} msg.
Arguments Fatal {A} msg.

Definition M (A : Type) : Type := State -> Outcome A * State.

Definition ret {A} (a : A) : M A := fun st => (Ret a, st).

Definition bind {A B} (m : M A) (k : A -> M B) : M B :=
  fun st =>
    match m st with
    | (Ret a, st') => k a st'
    | (Panic msg, st') => (Panic msg, st')
    | (Fatal msg, st') => (Fatal msg, st')
    end.

#[global] Instance M_ret : MRet M := @ret.
#[global] Instance M_bind : MBind M := fun A B k m => bind m k.

Definition panic {A} (msg : string) : M A := fun st => (Panic msg, st).
Definition log_Fatal {A} (msg : string) : M A := fun st => (Fatal msg, st).

Definition get_session : M (option MorpheusSession) :=
  fun st => (Ret (activeSession st), st).

Definition set_session (s : option MorpheusSession) : M unit :=
  fun st => (Ret tt, mkState s (calls st) (ticks st)).

(** Go's [error]: [None] is [nil]. *)
Abbreviation error := (option string).
Abbreviation nil_error := (@None string).

(** ** Time

    A [time.Duration] is a signed 64-bit count of nanoseconds, and
    [Time.Sub] saturates at its two ends. *)

Definition minDuration : Z := - 2 ^ 63.
Definition maxDuration : Z := 2 ^ 63 - 1.
Definition Second : Z := 1000000000.
Definition Minute : Z := 60 * Second.

Definition time_Sub (t u : Z) : Z :=
  let d := t - u in
  if d <? minDuration then minDuration
  else if maxDuration <? d then maxDuration
  else d.

(** ** The inbound request and the response writer *)

Record Request : Type := mkRequest {
  ReqHeader : Header;
  (** the bytes of the body *)
  ReqBody : string;
  (** [Some e] when [io.ReadAll(r.Body)] fails with [e] *)
  ReqBodyErr : option string
}.

(** What reaches the client through an [http.ResponseWriter]: the status
    line with the headers as they were when it was written, then the
    writes and flushes in order. *)
Inductive WEvent : Type :=
| WWrite (data : string)
| WFlush
| WInfo (statusCode : Z).  (* the status line of an informational response *)

Record ResponseWriter : Type := mkWriter {
  (** [w.Header()], the header map the handler edits *)
  WHeader : Header;
  (** the status code and headers sent, once they are sent *)
  Sent : option (Z * Header);
  Out : list WEvent;
  (** whether the writer implements [http.Flusher] *)
  IsFlusher : bool
}.

Definition newResponseWriter (flusher : bool) : ResponseWriter :=
  mkWriter ∅ None [] flusher.

Definition w_Header_Set (w : ResponseWriter) (key value : string) : ResponseWriter :=
  mkWriter (Header_Set (WHeader w) key value) (Sent w) (Out w) (IsFlusher w).

Definition w_Header_Add (w : ResponseWriter) (key value : string) : ResponseWriter :=
  mkWriter (Header_Add (WHeader w) key value) (Sent w) (Out w) (IsFlusher w).

(** [strconv.Itoa] *)
Definition itoa (n : Z) : string := NilZero.string_of_int (Z.to_int n).

(** [checkWriteHeaderCode] of [net/http]: a status code has three
    digits, of which the first is not 0. *)
Definition checkWriteHeaderCode (code : Z) : bool :=
  (100 <=? code) && (code <=? 999).

(** The codes of the responses that come before the final one: 1xx
    without [101 Switching Protocols]. *)
Definition informational (code : Z) : bool :=
  (100 <=? code) && (code <=? 199) && negb (code =? 101).

(** The status line of the response goes out once, with the headers as
    they are at that moment; with the status line already out, nothing
    happens. *)
Definition sendHeader (w : ResponseWriter) (statusCode : Z) : ResponseWriter :=
  match Sent w with
  | Some _ => w
  | None => mkWriter (WHeader w) (Some (statusCode, WHeader w)) (Out w) (IsFlusher w)
  end.

(** [w.WriteHeader(statusCode)]: only the first call counts; it panics
    on a code that [checkWriteHeaderCode] refuses, sends an
    informational code at once and leaves the final status open, and
    sends any other code as the status of the response. *)
Definition w_WriteHeader (w : ResponseWriter) (statusCode : Z) : M ResponseWriter :=
  match Sent w with
  | Some _ => mret w
  | None =>
      if negb (checkWriteHeaderCode statusCode)
      then panic ("invalid WriteHeader code " ++ itoa statusCode)
      else if informational statusCode
      then mret (mkWriter (WHeader w) None (Out w ++ [WInfo statusCode]) (IsFlusher w))
      else mret (sendHeader w statusCode)
  end.

(** A write or a flush before [WriteHeader] sends status 200 first. *)
Definition w_Write (w : ResponseWriter) (data : string) : ResponseWriter :=
  let w := sendHeader w 200 in
  mkWriter (WHeader w) (Sent w) (Out w ++ [WWrite data]) (IsFlusher w).

Definition w_Flush (w : ResponseWriter) : ResponseWriter :=
  let w := sendHeader w 200 in
  mkWriter (WHeader w) (Sent w) (Out w ++ [WFlush]) (IsFlusher w).

(** The bytes of the response body, whatever the writes they came in. *)
Fixpoint written (out : list WEvent) : string :=
  match out with
  | [] => ""
  | WWrite data :: out' => data ++ written out'
  | WFlush :: out' | WInfo _ :: out' => written out'
  end.

(** The status code the client receives. *)
Definition status (w : ResponseWriter) : option Z := fst <$> Sent w.

(** [json.NewEncoder(w).Encode(map[string]string{"error": message})]:
    one write of the document and a newline.  Every message the proxy
    passes is a literal without a byte that JSON escapes. *)
Definition encodeError (message : string) : string :=
  "{" ++ dquote ++ "error" ++ dquote ++ ":" ++ dquote ++ message ++ dquote ++ "}"
  ++ newline.

(** The proxy calls [respondWithError] with the literals 400 and 500
    only, codes that [WriteHeader] sends as the status of the
    response. *)
Definition respondWithError (w : ResponseWriter) (statusCode : Z) (message : string)
  : ResponseWriter :=
  let w := w_Header_Set w "Content-Type" "application/json" in
  let w := sendHeader w statusCode in
  w_Write w (encodeError message).

Definition setStreamingHeaders (w : ResponseWriter) : ResponseWriter :=
  let w := w_Header_Set w "Content-Type" "text/event-stream" in
  let w := w_Header_Set w "Cache-Control" "no-cache" in
  w_Header_Set w "Connection" "keep-alive".

(** The order in which Go walks the map is not fixed; the values of one
    key are added in their order. *)
Definition copyHeaders (w : ResponseWriter) (headers : Header) : ResponseWriter :=
  map_fold
    (fun key values w => foldl (fun w value => w_Header_Add w key value) w values)
    w headers.

(** [io.Copy(w, resp.Body)]: the bytes the body yields are written; a
    body without bytes causes no write. *)
Definition io_Copy (w : ResponseWriter) (body : string) : ResponseWriter :=
  if String.eqb body "" then w else w_Write w body.

(** ** bufio.Scanner with the default split function [ScanLines]

    A token is a line without its line feed and without one carriage
    return before it; what is left at the end of the input is a last
    token.  The scanner looks for a line feed in its buffer and reads
    on when it finds none; with the buffer full, 64 KiB without a line
    feed, it gives up with [ErrTooLong] instead of reading on.  A last
    line of exactly 64 KiB is therefore a token when the read that
    fills the buffer also reports the end of the input, and too long
    when the end would show on the next read only. *)

Definition MaxScanTokenSize : Z := 64 * 1024.

Definition dropCR (line_rev : string) : string :=
  match line_rev with
  | String c rest => if Ascii.eqb c CR then string_rev rest else string_rev line_rev
  | EmptyString => EmptyString
  end.

(** [line_rev] holds the bytes of the current line, last one first, and
    [n] is their number; [endWithData] tells whether the input reports
    its end together with its last bytes. *)
Fixpoint scanLines (endWithData : bool) (data : string) (line_rev : string) (n : Z)
  : list string * option string :=
  match data with
  | EmptyString =>
      if n =? 0 then ([], None)
      else if (n <? MaxScanTokenSize) || ((n =? MaxScanTokenSize) && endWithData)
      then ([dropCR line_rev], None)
      else ([], Some "bufio.Scanner: token too long")
  | String c rest =>
      if MaxScanTokenSize <=? n then ([], Some "bufio.Scanner: token too long") else
      if Ascii.eqb c LF
      then let '(tokens, err) := scanLines endWithData rest EmptyString 0 in
           (dropCR line_rev :: tokens, err)
      else scanLines endWithData rest (String c line_rev) (n + 1)
  end.

(** The tokens [scanner.Scan] delivers and the final [scanner.Err()]. *)
Definition Scanner (resp : Response) : list string * option string :=
  let '(tokens, err) := scanLines (EndWithData resp) (Body resp) EmptyString 0 in
  (tokens, match err with Some e => Some e | None => BodyErr resp end).

(** ** The program *)

Section Proxy.

Variable W : World.

Definition time_Now : M Z :=
  fun st => (Ret (Now W (ticks st)),
             mkState (activeSession st) (calls st) (S (ticks st))).

Definition time_Since (t : Z) : M Z :=
  now ← time_Now; mret (time_Sub now t).

(** Every call to the backend goes through here: the world answers and
    the call is recorded. *)
Definition net (c : NetCall) : M NetResult :=
  fun st => (Ret (RoundTrip W (calls st) c),
             mkState (activeSession st) (calls st ++ [c]) (ticks st)).

Definition getModelID : M string :=
  let modelID := Getenv W "MODEL_ID" in
  if String.eqb modelID ""
  then log_Fatal "MODEL_ID environment variable must be set"
  else mret modelID.

(** [json.Marshal] of the constant map
    [{"sessionDuration": 3600, "failover": false}]; maps are written
    with their keys sorted, and marshalling this map cannot fail. *)
Definition sessionRequestBytes : string :=
  "{" ++ dquote ++ "failover" ++ dquote ++ ":false,"
      ++ dquote ++ "sessionDuration" ++ dquote ++ ":3600}".

(** [activeSession != nil && time.Since(activeSession.LastUsed) < 30*time.Minute];
    the clock is read only when there is a session. *)
Definition sessionIsFresh : M bool :=
  s ← get_session;
  match s with
  | None => mret false
  | Some s => d ← time_Since (LastUsed s); mret (d <? 30 * Minute)
  end.

(** [sessionMutex] is held from the first to the last step. *)
Definition ensureSession : M error :=
  fresh ← sessionIsFresh;
  if fresh : bool then mret nil_error else
  modelID ← getModelID;
  let reqBytes := sessionRequestBytes in
  (* the outcome of the health check is only printed *)
  _ ← net (HealthGet "http://marketplace:9000/healthcheck");
  let sessionURL :=
    "http://marketplace:9000/blockchain/models/" ++ modelID ++ "/session" in
  r ← net (SessionPost sessionURL "application/json" reqBytes);
  match r with
  | NetError err => mret (Some ("failed to establish session: " ++ err))
  | NetOk resp =>
      (* bodyBytes, _ := io.ReadAll(resp.Body) *)
      let bodyBytes := Body resp in
      match DecodeSession W bodyBytes with
      | inl err => mret (Some err)
      | inr id =>
          now ← time_Now;
          set_session (Some (mkSession id modelID now));;
          s ← get_session;
          match s with
          | None => mret (Some "failed to get valid session ID from response")
          | Some s =>
              if String.eqb (SessionID s) ""
              then mret (Some "failed to get valid session ID from response")
              else mret nil_error
          end
      end
  end.

(** [forwardRequest] returns a response or an error, as a call does. *)
Definition forwardRequest (requestBody : Payload) : M NetResult :=
  let marketplaceURL := Getenv W "MARKETPLACE_URL" in
  if String.eqb marketplaceURL ""
  then mret (NetError "MARKETPLACE_URL environment variable is not set") else
  probe ← net (ProbeGet (TrimSuffix marketplaceURL "/v1/chat/completions"));
  match probe with
  | NetError err => mret (NetError ("marketplace is not accessible: " ++ err))
  | NetOk _ =>
  match Marshal W requestBody with
  | inl err => mret (NetError ("failed to marshal request body: " ++ err))
  | inr reqBodyBytes =>
  match NewRequestErr W marketplaceURL with
  | Some err => mret (NetError ("failed to create request: " ++ err))
  | None =>
  let header := Header_Set ∅ "Content-Type" "application/json" in
  s ← get_session;
  match s with
  | None => mret (NetError "no active session")
  | Some s =>
  if String.eqb (SessionID s) "" then mret (NetError "no active session") else
  let header := Header_Set header "Session_id" (SessionID s) in
  r ← net (ChatPost marketplaceURL header reqBodyBytes);
  match r with
  | NetError err => mret (NetError ("failed to forward request: " ++ err))
  | NetOk resp =>
      if StatusCode resp =? 200 then mret (NetOk resp)
      else
        (* body, _ := io.ReadAll(resp.Body); the body is put back as a
           bytes.Buffer of the bytes that were read, the read error is
           dropped *)
        mret (NetOk (mkResponse (StatusCode resp) (RespHeader resp) (Body resp)
                                None false))
  end end end end end.

Definition handleStreamingRequest (w : ResponseWriter) (requestBody : Payload)
  : M ResponseWriter :=
  r ← forwardRequest requestBody;
  match r with
  | NetError _ => mret (respondWithError w 500 "Failed to forward streaming request")
  | NetOk resp =>
      let w := setStreamingHeaders w in
      if negb (IsFlusher w)
      then mret (respondWithError w 500 "Streaming unsupported") else
      let '(lines, err) := Scanner resp in
      let w := foldl (fun w text => w_Flush (w_Write w (text ++ newline))) w lines in
      match err with
      | Some _ => mret (respondWithError w 500 "Error reading streaming response")
      | None => mret w
      end
  end.

Definition handleNonStreamingRequest (w : ResponseWriter) (requestBody : Payload)
  : M ResponseWriter :=
  r ← forwardRequest requestBody;
  match r with
  | NetError _ => mret (respondWithError w 500 "Failed to forward request")
  | NetOk resp =>
      let w := copyHeaders w (RespHeader resp) in
      w ← w_WriteHeader w (StatusCode resp);
      mret (io_Copy w (Body resp))
  end.

(** The handler leaves the response writer and the inbound request, whose
    header it edits.  After [ensureSession] the handler reads
    [activeSession] twice without holding [sessionMutex], here and inside
    [forwardRequest]; the definition is the handler of a request during
    which no other request replaces the session. *)
Definition ProxyChatCompletion (w : ResponseWriter) (r : Request)
  : M (ResponseWriter * Request) :=
  match ReqBodyErr r with
  | Some _ => mret (respondWithError w 500 "Failed to read request body", r)
  | None =>
  let bodyBytes := ReqBody r in
  err ← ensureSession;
  match err with
  | Some _ => mret (respondWithError w 500 "Failed to establish session", r)
  | None =>
  match DecodePayload W bodyBytes with
  | inl _ => mret (respondWithError w 400 "Invalid request body", r)
  | inr requestBody =>
  let modelID := Getenv W "MODEL_ID" in
  if String.eqb modelID ""
  then mret (respondWithError w 500 "MODEL_ID environment variable not set", r) else
  match requestBody with
  | None => panic "assignment to entry in nil map"
  | Some requestBody =>
  let requestBody := <["model" := JString modelID]> requestBody in
  s ← get_session;
  match s with
  | None => panic "invalid memory address or nil pointer dereference"
  | Some s =>
  let r := mkRequest (Header_Set (ReqHeader r) "session_id" (SessionID s))
                     (ReqBody r) (ReqBodyErr r) in
  let stream :=
    match requestBody !! "stream" with
    | Some (JBool b) => b
    | _ => false
    end in
  w ← (if stream
       then handleStreamingRequest w requestBody
       else handleNonStreamingRequest w requestBody);
  mret (w, r)
  end end end end end.

End Proxy.

(** ** Vocabulary of the properties *)

(** Whether [ensureSession] takes its fast path in a state. *)
Definition isFresh (W : World) (st : State) : bool :=
  match activeSession st with
  | None => false
  | Some s => Now W (ticks st) - LastUsed s <? 30 * Minute
  end.

Definition healthURL : string := "http://marketplace:9000/healthcheck".

Definition sessionCall (modelID : string) : NetCall :=
  SessionPost ("http://marketplace:9000/blockchain/models/" ++ modelID ++ "/session")
              "application/json" sessionRequestBytes.

(** Whether [forwardRequest] finds a session it accepts:
    [activeSession != nil && activeSession.SessionID != ""]. *)
Definition hasSessionID (st : State) : bool :=
  match activeSession st with
  | Some s => negb (String.eqb (SessionID s) "")
  | None => false
  end.

(** The reachability probe of [forwardRequest]. *)
Definition probeCall (W : World) : NetCall :=
  ProbeGet (TrimSuffix (Getenv W "MARKETPLACE_URL") "/v1/chat/completions").

(** The calls issued between two states. *)
Definition issued (st st' : State) : list NetCall :=
  drop (length (calls st)) (calls st').

Definition isChatPost (c : NetCall) : bool :=
  match c with ChatPost _ _ _ => true | _ => false end.

Definition isSessionPost (c : NetCall) : bool :=
  match c with SessionPost _ _ _ => true | _ => false end.

Definition isForwardCall (c : NetCall) : bool :=
  match c with ChatPost _ _ _ | ProbeGet _ => true | _ => false end.

(** The chat POST of [forwardRequest] for a session and a marshalled
    payload. *)
Definition chatCall (W : World) (s : MorpheusSession) (bytes : string) : NetCall :=
  ChatPost (Getenv W "MARKETPLACE_URL")
           (Header_Set (Header_Set ∅ "Content-Type" "application/json")
                       "Session_id" (SessionID s))
           bytes.

(** A header map as [net/http] hands it out: every key is canonical. *)
Definition canonicalHeader (h : Header) : Prop :=
  forall key values, h !! key = Some values -> CanonicalMIMEHeaderKey key = key.

(** The world in which the health check of [ensureSession] has a given
    outcome and everything else is as in [W]. *)
Definition withHealthCheck (W : World) (outcome : NetResult) : World :=
  mkWorld (Getenv W) (Now W)
          (fun hist c =>
             match c with
             | HealthGet _ => outcome
             | _ => RoundTrip W hist c
             end)
          (DecodePayload W) (DecodeSession W) (Marshal W) (NewRequestErr W).

(** The number of clock readings after the test of [ensureSession]: the
    clock is read when there is a session. *)
Definition ticksAfterCheck (st : State) : nat :=
  match activeSession st with
  | Some _ => S (ticks st)
  | None => ticks st
  end.

(** The session [ensureSession] stores when it leaves the state [st] to
    establish one and the session endpoint issues [id]. *)
Definition storedSession (W : World) (st : State) (id : string) : MorpheusSession :=
  mkSession id (Getenv W "MODEL_ID") (Now W (ticksAfterCheck st)).

(** A line of an event stream as the scanner hands it back unchanged: no
    line feed inside, no carriage return at its end, and short enough
    for the buffer. *)
Fixpoint hasLF (s : string) : bool :=
  match s with
  | EmptyString => false
  | String c s' => Ascii.eqb c LF || hasLF s'
  end.

Definition endsWithCR (s : string) : bool :=
  match string_rev s with
  | String c _ => Ascii.eqb c CR
  | EmptyString => false
  end.

Definition plainLine (s : string) : Prop :=
  hasLF s = false /\ endsWithCR s = false /\
  Z.of_nat (String.length s) < MaxScanTokenSize.

(** The body made of the given lines, each ended by a line feed. *)
Fixpoint joinLines (lines : list string) : string :=
  match lines with
  | [] => EmptyString
  | l :: lines' => l ++ String LF (joinLines lines')
  end.

(** ** Goroutines in [ensureSession]

    Several requests are served at once, each by a goroutine of its own,
    and all of them share [activeSession] and [sessionMutex].  A run is
    an interleaving of their steps.  A goroutine is observed at the
    points where another one may move in between: before
    [sessionMutex.Lock()] and before each call to the backend. *)

Inductive Pc : Type :=
| BeforeLock                      (* about to call sessionMutex.Lock() *)
| Locked                          (* holds the mutex, about to test activeSession *)
| BeforeHealth (modelID : string) (* about to call http.Get *)
| BeforePost (modelID : string)   (* about to call http.Post *)
| Returned (e : error)            (* has returned; the deferred Unlock has run *)
| Exited (msg : string).          (* log.Fatal ended the process *)

(** The three stretches of [ensureSession] between these points. *)
Section Stretches.

Variable W : World.

(** From the lock to the health check: the test, and the model id. *)
Definition stretchTest : M (error + string) :=
  fresh ← sessionIsFresh W;
  if fresh : bool then mret (inl nil_error) else
  modelID ← getModelID W;
  mret (inr modelID).

Definition stretchHealth : M unit :=
  _ ← net W (HealthGet "http://marketplace:9000/healthcheck");
  mret tt.

(** From the session POST to the return. *)
Definition stretchPost (modelID : string) : M error :=
  let reqBytes := sessionRequestBytes in
  let sessionURL :=
    "http://marketplace:9000/blockchain/models/" ++ modelID ++ "/session" in
  r ← net W (SessionPost sessionURL "application/json" reqBytes);
  match r with
  | NetError err => mret (Some ("failed to establish session: " ++ err))
  | NetOk resp =>
      let bodyBytes := Body resp in
      match DecodeSession W bodyBytes with
      | inl err => mret (Some err)
      | inr id =>
          now ← time_Now W;
          set_session (Some (mkSession id modelID now));;
          s ← get_session;
          match s with
          | None => mret (Some "failed to get valid session ID from response")
          | Some s =>
              if String.eqb (SessionID s) ""
              then mret (Some "failed to get valid session ID from response")
              else mret nil_error
          end
      end
  end.

End Stretches.

Record System : Type := mkSystem {
  (** the memory the goroutines share *)
  mem : State;
  (** whether [sessionMutex] is locked *)
  mutex : bool;
  (** where each goroutine stands *)
  pcs : list Pc
}.

Definition message {A} (o : Outcome A) : string :=
  match o with
  | Ret _ => ""
  | Panic msg | Fatal msg => msg
  end.

(** One step of goroutine [i].  A goroutine that waits for the mutex, or
    has returned, does not move; after [log.Fatal] the process is gone
    and the mutex is never released.  (No stretch panics; the last case
    of each match is there for [log.Fatal].) *)
Definition step (W : World) (i : nat) (sys : System) : System :=
  match pcs sys !! i with
  | Some BeforeLock =>
      if mutex sys then sys
      else mkSystem (mem sys) true (<[i := Locked]> (pcs sys))
  | Some Locked =>
      match stretchTest W (mem sys) with
      | (Ret (inl e), m) => mkSystem m false (<[i := Returned e]> (pcs sys))
      | (Ret (inr modelID), m) => mkSystem m true (<[i := BeforeHealth modelID]> (pcs sys))
      | (o, m) => mkSystem m true (<[i := Exited (message o)]> (pcs sys))
      end
  | Some (BeforeHealth modelID) =>
      match stretchHealth W (mem sys) with
      | (Ret _, m) => mkSystem m true (<[i := BeforePost modelID]> (pcs sys))
      | (o, m) => mkSystem m true (<[i := Exited (message o)]> (pcs sys))
      end
  | Some (BeforePost modelID) =>
      match stretchPost W modelID (mem sys) with
      | (Ret e, m) => mkSystem m false (<[i := Returned e]> (pcs sys))
      | (o, m) => mkSystem m true (<[i := Exited (message o)]> (pcs sys))
      end
  | Some (Returned _) | Some (Exited _) | None => sys
  end.

(** A run under a schedule, the list of the goroutines that move. *)
Definition run (W : World) (schedule : list nat) (sys : System) : System :=
  foldl (fun sys i => step W i sys) sys schedule.

(** [n] requests arrive together. *)
Definition burst (n : nat) (st : State) : System :=
  mkSystem st false (replicate n BeforeLock).

(** Between [Lock] and [Unlock]. *)
Definition inEstablishment (pc : Pc) : bool :=
  match pc with
  | Locked | BeforeHealth _ | BeforePost _ | Exited _ => true
  | BeforeLock | Returned _ => false
  end.

(** The number of session-creation calls in a list of calls. *)
Fixpoint sessionPosts (cs : list NetCall) : nat :=
  match cs with
  | [] => O
  | c :: cs' => ((if isSessionPost c then 1 else 0) + sessionPosts cs')%nat
  end.

(** The mutex and the goroutines agree: with the mutex free no goroutine
    is between [Lock] and [Unlock], and with the mutex locked exactly one
    is. *)
Definition mutexAgrees (sys : System) : Prop :=
  exists base : list Pc,
    Forall (fun pc => inEstablishment pc = false) base /\
    ((mutex sys = false /\ pcs sys = base) \/
     (mutex sys = true /\
      exists i pc, (i < length base)%nat /\ inEstablishment pc = true /\
                   pcs sys = <[i := pc]> base)).

(** A goroutine that waits for the mutex or has returned [nil]. *)
Definition waitingOrDone (pc : Pc) : Prop :=
  pc = BeforeLock \/ pc = Returned nil_error.

(** How many goroutines have returned. *)
Fixpoint returned (l : list Pc) : nat :=
  match l with
  | [] => O
  | Returned _ :: l' => S (returned l')
  | _ :: l' => returned l'
  end.

(** The course of a burst of [n] requests that find no fresh session in
    [st], when the session endpoint issues the session [s]: one goroutine
    passes the test, checks the health endpoint, posts and stores [s]
    while the others wait; from then on every goroutine that takes the
    mutex finds [s] and returns [nil]. *)
Inductive BurstCourse (st : State) (n : nat) (s : MorpheusSession)
  : System -> Prop :=
| AllWaiting :
    BurstCourse st n s (mkSystem st false (replicate n BeforeLock))
| FirstLocked i :
    (i < n)%nat ->
    BurstCourse st n s
      (mkSystem st true (<[i := Locked]> (replicate n BeforeLock)))
| FirstBeforeHealth i :
    (i < n)%nat ->
    BurstCourse st n s
      (mkSystem (mkState (activeSession st) (calls st) (ticksAfterCheck st)) true
                (<[i := BeforeHealth (ModelID s)]> (replicate n BeforeLock)))
| FirstBeforePost i :
    (i < n)%nat ->
    BurstCourse st n s
      (mkSystem (mkState (activeSession st) (calls st ++ [HealthGet healthURL])
                         (ticksAfterCheck st)) true
                (<[i := BeforePost (ModelID s)]> (replicate n BeforeLock)))
| Established base k :
    Forall waitingOrDone base -> length base = n ->
    (k <= ticksAfterCheck st + returned base)%nat ->
    BurstCourse st n s
      (mkSystem (mkState (Some s)
                   (calls st ++ [HealthGet healthURL; sessionCall (ModelID s)]) k)
                false base)
| EstablishedLocked base k i :
    Forall waitingOrDone base -> length base = n ->
    base !! i = Some BeforeLock ->
    (k <= ticksAfterCheck st + returned base)%nat ->
    BurstCourse st n s
      (mkSystem (mkState (Some s)
                   (calls st ++ [HealthGet healthURL; sessionCall (ModelID s)]) k)
                true (<[i := Locked]> base)).

(** ** Sample worlds

    A codec that follows [encoding/json] on the documents of the
    examples: session responses with a single field, and payloads whose
    values are [null], booleans, strings without escapes and arrays of
    those. *)

Definition quoted (s : string) : string := dquote ++ s ++ dquote.

(** [{"sessionID":"<id>"}] *)
Definition sessionDoc (id : string) : string :=
  "{" ++ quoted "sessionID" ++ ":" ++ quoted id ++ "}".

Definition sampleDecodeSession (body : string) : string + string :=
  if String.eqb body (sessionDoc "") then inr ""
  else if String.eqb body (sessionDoc "abc") then inr "abc"
  else if String.eqb body "{}" then inr ""
  else inl "invalid character".

(** [{"messages":[],"stream":<b>}] and
    [{"model":"<model>","messages":[],"stream":<b>}] *)
Definition chatDoc (model : option string) (stream : bool) : string :=
  "{" ++ match model with
         | Some m => quoted "model" ++ ":" ++ quoted m ++ ","
         | None => ""
         end
      ++ quoted "messages" ++ ":[]," ++ quoted "stream" ++ ":"
      ++ (if stream then "true" else "false") ++ "}".

Definition chatPayload (model : option string) (stream : bool) : Payload :=
  let m : Payload := <["messages" := JArray []]> (<["stream" := JBool stream]> ∅) in
  match model with
  | Some name => <["model" := JString name]> m
  | None => m
  end.

Definition sampleDecodePayload (body : string) : DecodeResult :=
  if String.eqb body "null" then inr None
  else if String.eqb body (chatDoc None false) then inr (Some (chatPayload None false))
  else if String.eqb body (chatDoc None true) then inr (Some (chatPayload None true))
  else if String.eqb body (chatDoc (Some "gpt-4") false)
       then inr (Some (chatPayload (Some "gpt-4") false))
  else inl "invalid character".

Fixpoint sampleMarshalValue (v : JValue) : option string :=
  match v with
  | JNull => Some "null"
  | JBool b => Some (if b then "true" else "false")
  | JString s => Some (quoted s)
  | JArray items =>
      let fix go (l : list JValue) : option (list string) :=
        match l with
        | [] => Some []
        | x :: l' =>
            match sampleMarshalValue x, go l' with
            | Some s, Some r => Some (s :: r)
            | _, _ => None
            end
        end in
      match go items with
      | Some parts => Some ("[" ++ String.concat "," parts ++ "]")
      | None => None
      end
  | JNumber _ | JObject _ => None
  end.

Fixpoint insertSorted (kv : string * JValue) (l : list (string * JValue))
  : list (string * JValue) :=
  match l with
  | [] => [kv]
  | kv' :: l' =>
      if String.leb (fst kv) (fst kv') then kv :: l else kv' :: insertSorted kv l'
  end.

Fixpoint sampleMarshalFields (l : list (string * JValue)) : option (list string) :=
  match l with
  | [] => Some []
  | (k, v) :: l' =>
      match sampleMarshalValue v, sampleMarshalFields l' with
      | Some s, Some r => Some ((quoted k ++ ":" ++ s) :: r)
      | _, _ => None
      end
  end.

(** Keys are written in sorted order. *)
Definition sampleMarshal (m : Payload) : string + string :=
  match sampleMarshalFields (foldr insertSorted [] (map_to_list m)) with
  | Some parts => inr ("{" ++ String.concat "," parts ++ "}")
  | None => inl "json: unsupported value"
  end.

Definition sampleGetenv (key : string) : string :=
  if String.eqb key "MODEL_ID" then "model-1"
  else if String.eqb key "MARKETPLACE_URL"
       then "http://marketplace:9000/v1/chat/completions"
  else "".

(** The clock advances one second between two readings. *)
Definition sampleNow (k : nat) : Z := Z.of_nat k * Second.

Definition sampleWorld (roundTrip : list NetCall -> NetCall -> NetResult) : World :=
  mkWorld sampleGetenv sampleNow roundTrip
          sampleDecodePayload sampleDecodeSession sampleMarshal (fun _ => None).

(** The same with [MARKETPLACE_URL] unset. *)
Definition worldWithoutMarketplaceURL
    (roundTrip : list NetCall -> NetCall -> NetResult) : World :=
  mkWorld (fun key => if String.eqb key "MODEL_ID" then "model-1" else "")
          sampleNow roundTrip
          sampleDecodePayload sampleDecodeSession sampleMarshal (fun _ => None).

Definition okResponse (statusCode : Z) (body : string) : Response :=
  mkResponse statusCode {["Content-Type" := ["application/json"]]} body None true.

(** A backend that issues the session [abc] and answers a chat request
    with status 201 and the body [{"id":"abc"}]. *)
Definition backendHealthy (hist : list NetCall) (c : NetCall) : NetResult :=
  match c with
  | HealthGet _ | ProbeGet _ => NetOk (okResponse 200 "OK")
  | SessionPost _ _ _ => NetOk (okResponse 200 (sessionDoc "abc"))
  | ChatPost _ _ _ => NetOk (okResponse 201 ("{" ++ quoted "id" ++ ":" ++ quoted "abc" ++ "}"))
  end.

(** A backend whose session endpoint answers [{"sessionID":""}]. *)
Definition backendEmptySessionID (hist : list NetCall) (c : NetCall) : NetResult :=
  match c with
  | SessionPost _ _ _ => NetOk (okResponse 200 (sessionDoc ""))
  | _ => backendHealthy hist c
  end.

(** A backend that cannot be reached. *)
Definition backendDown (hist : list NetCall) (c : NetCall) : NetResult :=
  NetError "connection refused".

(** A backend that streams three events. *)
Definition sseBody : string :=
  "data: A" ++ newline ++ "data: B" ++ newline ++ "data: [DONE]" ++ newline.

Definition backendStreaming (hist : list NetCall) (c : NetCall) : NetResult :=
  match c with
  | ChatPost _ _ _ =>
      NetOk (mkResponse 200 {["Content-Type" := ["text/event-stream"]]} sseBody None
                        true)
  | _ => backendHealthy hist c
  end.

Definition initialState : State := mkState None [] 0.

(** A process that established the session [abc] at time 0. *)
Definition establishedState : State :=
  mkState (Some (mkSession "abc" "model-1" 0)) [] 1.

Definition chatRequest (body : string) : Request :=
  mkRequest {["Content-Type" := ["application/json"]]} body None.

(** ** Startup and the health endpoint *)

Definition zeroAddress : string := "0x0000000000000000000000000000000000000000".

Section Startup.

Variable W : World.

(** [StartProxyServer] up to its last line: the address it hands to
    [http.ListenAndServe], with the two handlers registered. *)
Definition StartProxyServer : M string :=
  let walletAddress := Getenv W "WALLET_ADDRESS" in
  if String.eqb walletAddress "" || String.eqb walletAddress zeroAddress
  then log_Fatal "WALLET_ADDRESS environment variable must be set to a valid address"
  else
  modelID ← getModelID W;
  let port := Getenv W "PORT" in
  let port := if String.eqb port "" then "8080" else port in
  mret (":" ++ port).

End Startup.

(** The handler of [/health]:
    [w.WriteHeader(http.StatusOK)], then
    [json.NewEncoder(w).Encode(map[string]string{"status": "healthy"})]. *)
Definition healthHandler (w : ResponseWriter) : ResponseWriter :=
  let w := sendHeader w 200 in
  w_Write w ("{" ++ dquote ++ "status" ++ dquote ++ ":" ++ dquote ++ "healthy"
             ++ dquote ++ "}" ++ newline).

(** ** More vocabulary *)

(** The world in which the session endpoint gives a chosen answer and
    everything else is as in [W]. *)
Definition withSessionAnswer (W : World) (answer : NetResult) : World :=
  mkWorld (Getenv W) (Now W)
          (fun hist c =>
             match c with
             | SessionPost _ _ _ => answer
             | _ => RoundTrip W hist c
             end)
          (DecodePayload W) (DecodeSession W) (Marshal W) (NewRequestErr W).

(** The body made of the given lines, each ended by a carriage return
    and a line feed. *)
Fixpoint joinLinesCRLF (lines : list string) : string :=
  match lines with
  | [] => EmptyString
  | l :: lines' => l ++ String CR (String LF (joinLinesCRLF lines'))
  end.

(** What the loop of [handleStreamingRequest] sends for a list of
    lines. *)
Definition relayed (lines : list string) : list WEvent :=
  flat_map (fun text => [WWrite (text ++ newline); WFlush]) lines.

(** An environment with every variable of the proxy set. *)
Definition servingGetenv (key : string) : string :=
  if String.eqb key "WALLET_ADDRESS" then "0x1111111111111111111111111111111111111111"
  else if String.eqb key "PORT" then "9090"
  else sampleGetenv key.

Definition servingWorld (roundTrip : list NetCall -> NetCall -> NetResult) : World :=
  mkWorld servingGetenv sampleNow roundTrip
          sampleDecodePayload sampleDecodeSession sampleMarshal (fun _ => None).

(** The session [abc] established at time 0, read 30 minutes later to
    the nanosecond. *)
Definition expiredState : State :=
  mkState (Some (mkSession "abc" "model-1" 0)) [] 1800.

(** A backend whose chat endpoint answers with a given status code,
    body and end of body. *)
Definition backendAnswering (statusCode : Z) (body : string) (bodyErr : option string)
    (hist : list NetCall) (c : NetCall) : NetResult :=
  match c with
  | ChatPost _ _ _ =>
      NetOk (mkResponse statusCode {["Content-Type" := ["text/event-stream"]]}
                        body bodyErr true)
  | _ => backendHealthy hist c
  end.

(** A line of 64 KiB without a line feed. *)
Definition longLine : string :=
  N.iter 65536 (String "a"%char) EmptyString.

(** A line that fits the scanner's buffer together with a carriage
    return. *)
Definition crlfLine (s : string) : Prop :=
  hasLF s = false /\ Z.of_nat (String.length s) + 1 < MaxScanTokenSize.

(** ** Calls one after the other

    [k] calls of [ensureSession] in a row, with the results they return;
    a call that ends the process ends the row. *)
Fixpoint inSequence (W : World) (k : nat) : M (list error) :=
  match k with
  | O => mret []
  | S k' =>
      e ← ensureSession W;
      es ← inSequence W k';
      mret (e :: es)
  end.

(** The results of the goroutines that have returned. *)
Fixpoint returnedErrors (l : list Pc) : list error :=
  match l with
  | [] => []
  | Returned e :: l' => e :: returnedErrors l'
  | _ :: l' => returnedErrors l'
  end.

(** Where the holder of the mutex stands in its call, when the call
    started in the memory [start] and the memory is now [m]. *)
Definition Holding (W : World) (start : State) (pc : Pc) (m : State) : Prop :=
  match pc with
  | Locked => m = start
  | BeforeHealth modelID => stretchTest W start = (Ret (inr modelID), m)
  | BeforePost modelID =>
      exists m1, stretchTest W start = (Ret (inr modelID), m1) /\
                 stretchHealth W m1 = (Ret tt, m)
  | Exited _ => True
  | BeforeLock | Returned _ => False
  end.

(** The goroutines that have returned have made their calls one after
    the other, in the order [es] of their results; the holder of the
    mutex, if there is one, is in the middle of the next call. *)
Definition Serial (W : World) (st : State) (sys : System) : Prop :=
  exists (base : list Pc) (es : list error) (start : State),
    Forall (fun pc => inEstablishment pc = false) base /\
    inSequence W (length es) st = (Ret es, start) /\
    returnedErrors base ≡ₚ es /\
    ((mutex sys = false /\ pcs sys = base /\ mem sys = start) \/
     (mutex sys = true /\
      exists i pc, base !! i = Some BeforeLock /\
                   pcs sys = <[i := pc]> base /\
                   Holding W start pc (mem sys))).
(** * Properties *)

(** ** Strings and header keys *)

Example canonical_session_id :
  CanonicalMIMEHeaderKey "session_id" = "Session_id".
Proof. reflexivity. Qed.

Example canonical_content_type :
  CanonicalMIMEHeaderKey "content-type" = "Content-Type".
Proof. reflexivity. Qed.

Example trim_suffix_chat :
  TrimSuffix "http://m:8082/v1/chat/completions" "/v1/chat/completions"
  = "http://m:8082".
Proof. reflexivity. Qed.

(** ** Unfolding the monad *)

Lemma bind_Ret {A B} (m : M A) (k : A -> M B) st a st' :
  m st = (Ret a, st') -> (m ≫= k) st = k a st'.
Proof. intros H. unfold mbind, M_bind, bind. by rewrite H. Qed.

Ltac run :=
  unfold mbind, M_bind, bind, mret, M_ret, ret, get_session, set_session,
    panic, log_Fatal; simpl.

(** ** Time *)

Lemma time_Sub_lt_30min t u :
  (time_Sub t u <? 30 * Minute) = (t - u <? 30 * Minute).
Proof.
  unfold time_Sub, minDuration, maxDuration, Minute, Second.
  repeat case_match; lia.
Qed.

Lemma sessionIsFresh_spec W st :
  sessionIsFresh W st
  = (Ret (isFresh W st), mkState (activeSession st) (calls st) (ticksAfterCheck st)).
Proof.
  unfold sessionIsFresh, isFresh, time_Since, time_Now, ticksAfterCheck. run.
  destruct st as [[s|] cs n]; simpl.
  - by rewrite time_Sub_lt_30min.
  - done.
Qed.

Lemma ensureSession_fresh W st :
  isFresh W st = true ->
  ensureSession W st
  = (Ret nil_error, mkState (activeSession st) (calls st) (ticksAfterCheck st)).
Proof.
  intros Hf. unfold ensureSession.
  rewrite (bind_Ret _ _ _ _ _ (sessionIsFresh_spec W st)). by rewrite Hf.
Qed.

(** ** Session establishment *)

(** The slow path, step by step: the two calls are issued in this order
    whatever the health check returns, and only a decoded response
    changes the stored session. *)
Lemma ensureSession_slow W st :
  isFresh W st = false ->
  Getenv W "MODEL_ID" ≠ "" ->
  let modelID := Getenv W "MODEL_ID" in
  let hist := (calls st ++ [HealthGet healthURL])%list in
  let cs := (hist ++ [sessionCall modelID])%list in
  let n := ticksAfterCheck st in
  ensureSession W st =
  match RoundTrip W hist (sessionCall modelID) with
  | NetError err =>
      (Ret (Some ("failed to establish session: " ++ err)),
       mkState (activeSession st) cs n)
  | NetOk resp =>
      match DecodeSession W (Body resp) with
      | inl err => (Ret (Some err), mkState (activeSession st) cs n)
      | inr id =>
          (Ret (if String.eqb id ""
                then Some "failed to get valid session ID from response"
                else None),
           mkState (Some (mkSession id modelID (Now W n))) cs (S n))
      end
  end.
Proof.
  intros Hf Hm modelID hist cs n.
  unfold ensureSession.
  rewrite (bind_Ret _ _ _ _ _ (sessionIsFresh_spec W st)), Hf.
  unfold getModelID. fold modelID.
  destruct (String.eqb_spec modelID "") as [E|_]; [done|].
  unfold net, time_Now. run. fold healthURL. fold (sessionCall modelID).
  fold hist. destruct (RoundTrip W hist (sessionCall modelID)) as [err|resp]; [done|].
  destruct (DecodeSession W (Body resp)) as [err|id]; [done|]. simpl.
  by destruct (String.eqb id "").
Qed.

(** C3. Whenever [ensureSession] is called while a session exists whose
    [LastUsed] is less than 30 minutes before the current time, it
    returns [nil] at once: no call to the backend is issued and the
    stored session is left as it is. *)
Theorem C3_fresh_session_is_reused (W : World) (st : State) (s : MorpheusSession) :
  activeSession st = Some s ->
  Now W (ticks st) - LastUsed s < 30 * Minute ->
  exists st',
    ensureSession W st = (Ret nil_error, st') /\
    calls st' = calls st /\
    activeSession st' = Some s.
Proof.
  intros Hs Hlt.
  assert (Hf : isFresh W st = true).
  { unfold isFresh. rewrite Hs. by apply Z.ltb_lt. }
  eexists. split; [exact (ensureSession_fresh W st Hf)|]. by simpl.
Qed.

Lemma C3_fresh_session_is_reused_witness :
  exists st',
    ensureSession (sampleWorld backendDown) establishedState = (Ret nil_error, st') /\
    calls st' = calls establishedState /\
    activeSession st' = Some (mkSession "abc" "model-1" 0).
Proof.
  apply (C3_fresh_session_is_reused (sampleWorld backendDown) establishedState
           (mkSession "abc" "model-1" 0)).
  - reflexivity.
  - vm_compute. reflexivity.
Defined.

(** A decoded response stores a session before its id is looked at: with
    the empty id [ensureSession] returns an error and leaves a session
    that its own test accepts as long as it is less than 30 minutes
    old. *)
Lemma empty_session_id_is_stored W st resp :
  isFresh W st = false ->
  Getenv W "MODEL_ID" ≠ "" ->
  RoundTrip W (calls st ++ [HealthGet healthURL])
            (sessionCall (Getenv W "MODEL_ID")) = NetOk resp ->
  DecodeSession W (Body resp) = inr "" ->
  exists st',
    ensureSession W st
      = (Ret (Some "failed to get valid session ID from response"), st') /\
    activeSession st'
      = Some (mkSession "" (Getenv W "MODEL_ID") (Now W (ticksAfterCheck st))) /\
    (Now W (ticks st') - Now W (ticksAfterCheck st) < 30 * Minute ->
     exists st'', ensureSession W st' = (Ret nil_error, st'') /\
                  calls st'' = calls st').
Proof.
  intros Hf Hm Hrt Hd.
  pose proof (ensureSession_slow W st Hf Hm) as Hrun.
  cbv zeta in Hrun. rewrite Hrt, Hd in Hrun.
  eexists. split; [exact Hrun|]. split; [reflexivity|].
  intros Hlt. eexists. split.
  - apply ensureSession_fresh. unfold isFresh. cbn [activeSession ticks LastUsed].
    by apply Z.ltb_lt.
  - reflexivity.
Qed.

(** C1 (the code departs from it). The session endpoint answers
    [{"sessionID":""}] to a process without a session.  [ensureSession]
    returns an error, yet it has stored a session with the empty id
    before checking it: the next call, one second later, takes the fast
    path, returns [nil] and issues no session-creation call. *)
Theorem C1_empty_session_id_is_stored_and_reused :
  let W := sampleWorld backendEmptySessionID in
  let '(r1, st1) := ensureSession W initialState in
  let '(r2, st2) := ensureSession W st1 in
  r1 = Ret (Some "failed to get valid session ID from response") /\
  calls st1 = [HealthGet healthURL; sessionCall "model-1"] /\
  activeSession st1 = Some (mkSession "" "model-1" 0) /\
  r2 = Ret nil_error /\
  calls st2 = calls st1 /\
  activeSession st2 = Some (mkSession "" "model-1" 0).
Proof. vm_compute. repeat split; reflexivity. Qed.

(** ** The response writer *)

Lemma append_empty_r (s : string) : s ++ "" = s.
Proof.
  induction s as [|c s IH]; [done|].
  change (String c (s ++ "") = String c s). by rewrite IH.
Qed.

Lemma respondWithError_status w code message :
  Sent w = None -> status (respondWithError w code message) = Some code.
Proof.
  intros Hs. unfold respondWithError, w_Write, sendHeader, w_Header_Set, status.
  simpl. rewrite Hs. simpl. reflexivity.
Qed.

Lemma respondWithError_written w code message :
  Out w = [] -> written (Out (respondWithError w code message)) = encodeError message.
Proof.
  intros Ho. unfold respondWithError, w_Write, sendHeader, w_Header_Set.
  simpl. destruct (Sent w); simpl; rewrite Ho; simpl; by rewrite append_empty_r.
Qed.

(** ** Forwarding *)

(** C7. With [MARKETPLACE_URL] unset, [forwardRequest] fails before any
    call to the backend: the state, and with it the list of calls, is
    unchanged (no reachability probe, no chat POST), and both relay modes
    answer the client with status 500. *)
Theorem C7_missing_marketplace_url (W : World) (st : State) (w : ResponseWriter)
    (requestBody : Payload) :
  Getenv W "MARKETPLACE_URL" = "" ->
  forwardRequest W requestBody st
    = (Ret (NetError "MARKETPLACE_URL environment variable is not set"), st) /\
  handleNonStreamingRequest W w requestBody st
    = (Ret (respondWithError w 500 "Failed to forward request"), st) /\
  handleStreamingRequest W w requestBody st
    = (Ret (respondWithError w 500 "Failed to forward streaming request"), st) /\
  (Sent w = None ->
   forall message, status (respondWithError w 500 message) = Some 500).
Proof.
  intros Hurl.
  assert (Hfwd : forwardRequest W requestBody st
    = (Ret (NetError "MARKETPLACE_URL environment variable is not set"), st)).
  { unfold forwardRequest. by rewrite Hurl. }
  split; [exact Hfwd|]. split; [|split].
  - unfold handleNonStreamingRequest. by rewrite (bind_Ret _ _ _ _ _ Hfwd).
  - unfold handleStreamingRequest. by rewrite (bind_Ret _ _ _ _ _ Hfwd).
  - intros Hs message. by apply respondWithError_status.
Qed.

Lemma C7_missing_marketplace_url_witness :
  let W := worldWithoutMarketplaceURL backendHealthy in
  let w := newResponseWriter true in
  let requestBody := chatPayload None false in
  forwardRequest W requestBody establishedState
    = (Ret (NetError "MARKETPLACE_URL environment variable is not set"),
       establishedState) /\
  handleNonStreamingRequest W w requestBody establishedState
    = (Ret (respondWithError w 500 "Failed to forward request"), establishedState) /\
  handleStreamingRequest W w requestBody establishedState
    = (Ret (respondWithError w 500 "Failed to forward streaming request"),
       establishedState) /\
  (Sent w = None ->
   forall message, status (respondWithError w 500 message) = Some 500).
Proof.
  apply (C7_missing_marketplace_url (worldWithoutMarketplaceURL backendHealthy)
           establishedState (newResponseWriter true) (chatPayload None false)).
  reflexivity.
Defined.

(** C10. [forwardRequest] checks the stored session itself, after the
    reachability probe: when there is no session, or its id is empty, it
    returns an error and the chat POST is not issued (the only call it
    may have made is the probe).  When the earlier steps pass (the URL is
    set, the probe is answered, the payload is marshalled and the request
    is built) the error is "no active session" and the probe is the only
    call.  Either relay mode answers the client with status 500. *)
Theorem C10_forward_rechecks_session (W : World) (st : State) (w : ResponseWriter)
    (requestBody : Payload) :
  hasSessionID st = false ->
  exists err st',
    forwardRequest W requestBody st = (Ret (NetError err), st') /\
    (calls st' = calls st \/ calls st' = (calls st ++ [probeCall W])%list) /\
    (forall probeResp bytes,
       Getenv W "MARKETPLACE_URL" ≠ "" ->
       RoundTrip W (calls st) (probeCall W) = NetOk probeResp ->
       Marshal W requestBody = inr bytes ->
       NewRequestErr W (Getenv W "MARKETPLACE_URL") = None ->
       err = "no active session" /\
       calls st' = (calls st ++ [probeCall W])%list) /\
    handleNonStreamingRequest W w requestBody st
      = (Ret (respondWithError w 500 "Failed to forward request"), st') /\
    handleStreamingRequest W w requestBody st
      = (Ret (respondWithError w 500 "Failed to forward streaming request"), st') /\
    (Sent w = None ->
     forall message, status (respondWithError w 500 message) = Some 500).
Proof.
  intros Hno.
  assert (Hfwd : exists err st',
    forwardRequest W requestBody st = (Ret (NetError err), st') /\
    (calls st' = calls st \/ calls st' = (calls st ++ [probeCall W])%list) /\
    (forall probeResp bytes,
       Getenv W "MARKETPLACE_URL" ≠ "" ->
       RoundTrip W (calls st) (probeCall W) = NetOk probeResp ->
       Marshal W requestBody = inr bytes ->
       NewRequestErr W (Getenv W "MARKETPLACE_URL") = None ->
       err = "no active session" /\
       calls st' = (calls st ++ [probeCall W])%list)).
  { unfold forwardRequest, net, probeCall. run.
    destruct (String.eqb_spec (Getenv W "MARKETPLACE_URL") "") as [E|E].
    { eexists _, _. split; [reflexivity|]. split; [by left|]. intros; done. }
    destruct (RoundTrip W (calls st) _) as [e|pr] eqn:Hp.
    { eexists _, _. split; [reflexivity|]. split; [by right|]. intros; done. }
    destruct (Marshal W requestBody) as [e|bytes] eqn:Hm.
    { eexists _, _. split; [reflexivity|]. split; [by right|]. intros; done. }
    destruct (NewRequestErr W _) as [e|] eqn:Hr.
    { eexists _, _. split; [reflexivity|]. split; [by right|]. intros; done. }
    unfold hasSessionID in Hno. simpl.
    destruct (activeSession st) as [s|] eqn:Hs.
    - apply negb_false_iff in Hno. rewrite Hno.
      eexists _, _. split; [reflexivity|]. split; [by right|]. intros; done.
    - eexists _, _. split; [reflexivity|]. split; [by right|]. intros; done. }
  destruct Hfwd as (err & st' & Hf & Hc & Hmsg).
  exists err, st'.
  split; [exact Hf|]. split; [exact Hc|]. split; [exact Hmsg|].
  split; [|split].
  - unfold handleNonStreamingRequest. by rewrite (bind_Ret _ _ _ _ _ Hf).
  - unfold handleStreamingRequest. by rewrite (bind_Ret _ _ _ _ _ Hf).
  - intros Hs message. by apply respondWithError_status.
Qed.

Lemma C10_forward_rechecks_session_witness :
  exists err st',
    forwardRequest (sampleWorld backendHealthy) (chatPayload None false) initialState
      = (Ret (NetError err), st') /\
    err = "no active session" /\
    calls st' = [probeCall (sampleWorld backendHealthy)].
Proof.
  destruct (C10_forward_rechecks_session (sampleWorld backendHealthy) initialState
              (newResponseWriter true) (chatPayload None false) eq_refl)
    as (err & st' & Hf & _ & Hmsg & _).
  exists err, st'. split; [exact Hf|].
  eapply Hmsg.
  - vm_compute. discriminate.
  - reflexivity.
  - vm_compute. reflexivity.
  - reflexivity.
Defined.

(** What [forwardRequest] can have done when it returns a response: the
    probe, then the chat POST with the marshalled payload and the stored
    session id, answered by the backend with this status code, these
    headers and these body bytes. *)
Lemma forwardRequest_ok_inv W requestBody st resp st' :
  forwardRequest W requestBody st = (Ret (NetOk resp), st') ->
  exists s bytes backend,
    activeSession st = Some s /\
    SessionID s ≠ "" /\
    Marshal W requestBody = inr bytes /\
    RoundTrip W (calls st ++ [probeCall W]) (chatCall W s bytes) = NetOk backend /\
    st' = mkState (activeSession st)
                  ((calls st ++ [probeCall W]) ++ [chatCall W s bytes]) (ticks st) /\
    StatusCode resp = StatusCode backend /\
    RespHeader resp = RespHeader backend /\
    Body resp = Body backend /\
    (StatusCode backend = 200 -> resp = backend).
Proof.
  unfold forwardRequest, net. run. fold (probeCall W).
  destruct (String.eqb_spec (Getenv W "MARKETPLACE_URL") "") as [E|E]; [done|].
  destruct (RoundTrip W (calls st) _) as [e|pr]; [done|].
  destruct (Marshal W requestBody) as [e|bytes]; [done|].
  destruct (NewRequestErr W _) as [e|]; [done|]. simpl.
  destruct (activeSession st) as [s|] eqn:Hs; [|done].
  destruct (String.eqb_spec (SessionID s) "") as [E'|E']; [done|]. simpl.
  fold (chatCall W s bytes).
  destruct (RoundTrip W _ (chatCall W s bytes)) as [e|backend] eqn:Hb; [done|].
  destruct (Z.eqb_spec (StatusCode backend) 200) as [E2|E2]; intros [= <- <-].
  - exists s, bytes, backend. by rewrite Hb.
  - exists s, bytes, backend. rewrite Hb. repeat split; try done.
Qed.

(** The calls of [forwardRequest], whatever it returns. *)
Lemma forwardRequest_trace W requestBody st o st' :
  forwardRequest W requestBody st = (o, st') ->
  activeSession st' = activeSession st /\
  (calls st' = calls st \/
   calls st' = (calls st ++ [probeCall W])%list \/
   exists s bytes,
     activeSession st = Some s /\ SessionID s ≠ "" /\
     Marshal W requestBody = inr bytes /\
     calls st' = (calls st ++ [probeCall W; chatCall W s bytes])%list).
Proof.
  unfold forwardRequest, net. run. fold (probeCall W).
  destruct (String.eqb_spec (Getenv W "MARKETPLACE_URL") "") as [E|E].
  { intros [= <- <-]. auto. }
  destruct (RoundTrip W (calls st) _) as [e|pr].
  { intros [= <- <-]. simpl. auto. }
  destruct (Marshal W requestBody) as [e|bytes].
  { intros [= <- <-]. simpl. auto. }
  destruct (NewRequestErr W _) as [e|].
  { intros [= <- <-]. simpl. auto. }
  simpl. destruct (activeSession st) as [s|] eqn:Hs.
  2:{ intros [= <- <-]. simpl. auto. }
  destruct (String.eqb_spec (SessionID s) "") as [E'|E'].
  { intros [= <- <-]. simpl. auto. }
  simpl. fold (chatCall W s bytes).
  assert (Hcs : ((calls st ++ [probeCall W]) ++ [chatCall W s bytes])%list
                = (calls st ++ [probeCall W; chatCall W s bytes])%list).
  { by rewrite <- app_assoc. }
  destruct (RoundTrip W _ (chatCall W s bytes)) as [e|backend].
  { intros [= <- <-]. simpl. split; [done|]. right. right.
    exists s, bytes. by rewrite Hcs. }
  destruct (StatusCode backend =? 200); intros [= <- <-]; simpl;
    (split; [done|]; right; right; exists s, bytes; by rewrite Hcs).
Qed.

(** The calls of [ensureSession], whatever it returns. *)
Lemma ensureSession_trace W st o st' :
  ensureSession W st = (o, st') ->
  calls st' = calls st \/
  calls st' = (calls st ++ [HealthGet healthURL; sessionCall (Getenv W "MODEL_ID")])%list.
Proof.
  destruct (isFresh W st) eqn:Hf.
  { rewrite (ensureSession_fresh W st Hf). intros [= <- <-]. by left. }
  destruct (String.eqb_spec (Getenv W "MODEL_ID") "") as [E|E].
  { unfold ensureSession.
    rewrite (bind_Ret _ _ _ _ _ (sessionIsFresh_spec W st)), Hf.
    unfold getModelID. rewrite E. simpl. run. intros [= <- <-]. by left. }
  rewrite (ensureSession_slow W st Hf E).
  rewrite <- app_assoc. simpl.
  destruct (RoundTrip W _ _) as [e|resp].
  { intros [= <- <-]. by right. }
  destruct (DecodeSession W (Body resp)); intros [= <- <-]; by right.
Qed.

(** ** Buffered relay *)

Lemma add_values w key values :
  CanonicalMIMEHeaderKey key = key ->
  let w' := foldl (fun w value => w_Header_Add w key value) w values in
  Sent w' = Sent w /\ Out w' = Out w /\ IsFlusher w' = IsFlusher w /\
  forall k, default [] (WHeader w' !! k)
            = if decide (k = key)
              then (default [] (WHeader w !! key) ++ values)%list
              else default [] (WHeader w !! k).
Proof.
  intros Hk. revert w. induction values as [|v values IH]; intros w; simpl.
  - repeat split; try done. intros k. case_decide; subst; by rewrite ?app_nil_r.
  - destruct (IH (w_Header_Add w key v)) as (Hs & Ho & Hfl & Hv).
    rewrite Hs, Ho, Hfl. repeat split; try done.
    intros k. rewrite Hv. unfold w_Header_Add, Header_Add. simpl. rewrite Hk.
    case_decide; subst.
    + rewrite lookup_insert_eq. simpl. by rewrite <- app_assoc.
    + by rewrite lookup_insert_ne.
Qed.

(** Copying canonical headers into an empty header map gives every key
    the values it had, in their order. *)
Lemma copyHeaders_values w headers :
  WHeader w = ∅ ->
  canonicalHeader headers ->
  let w' := copyHeaders w headers in
  Sent w' = Sent w /\ Out w' = Out w /\ IsFlusher w' = IsFlusher w /\
  forall k, default [] (WHeader w' !! k) = default [] (headers !! k).
Proof.
  intros Hempty. unfold copyHeaders.
  apply (map_fold_weak_ind (fun r (m : Header) =>
    canonicalHeader m ->
    Sent r = Sent w /\ Out r = Out w /\ IsFlusher r = IsFlusher w /\
    forall k, default [] (WHeader r !! k) = default [] (m !! k))).
  - intros _. repeat split; try done. intros k. by rewrite Hempty.
  - intros key values m r Hnone IH Hcan.
    assert (Hcm : canonicalHeader m).
    { intros k vs Hk. apply (Hcan k vs). rewrite lookup_insert_ne; [done|].
      intros ->. by rewrite Hnone in Hk. }
    destruct (IH Hcm) as (Hs & Ho & Hfl & Hv).
    assert (Hkey : CanonicalMIMEHeaderKey key = key).
    { apply (Hcan key values). by rewrite lookup_insert_eq. }
    destruct (add_values r key values Hkey) as (Hs' & Ho' & Hfl' & Hv').
    rewrite Hs', Ho', Hfl'. repeat split; try done.
    intros k. rewrite Hv'. case_decide; subst.
    + rewrite lookup_insert_eq, Hv, Hnone. done.
    + rewrite lookup_insert_ne by done. apply Hv.
Qed.

Lemma io_Copy_written w body :
  Out w = [] -> written (Out (io_Copy w body)) = body /\
  (forall sent, Sent w = Some sent -> Sent (io_Copy w body) = Some sent).
Proof.
  intros Ho. unfold io_Copy.
  destruct (String.eqb_spec body "") as [->|Hne].
  - by rewrite Ho.
  - unfold w_Write, sendHeader. split.
    + destruct (Sent w); simpl; rewrite Ho; simpl; apply append_empty_r.
    + intros sent Hs. rewrite Hs. by simpl.
Qed.

(** [WriteHeader] with the code of a final response. *)
Lemma w_WriteHeader_final w code st :
  200 <= code <= 999 -> w_WriteHeader w code st = (Ret (sendHeader w code), st).
Proof.
  intros Hcode. unfold w_WriteHeader, sendHeader.
  destruct (Sent w) as [sent|]; [done|].
  unfold checkWriteHeaderCode, informational.
  destruct (Z.leb_spec 100 code); [|lia].
  destruct (Z.leb_spec code 999); [|lia].
  destruct (Z.leb_spec code 199); [lia|]. reflexivity.
Qed.

(** [respondWithError] and the implicit status of a first write go
    through [WriteHeader] with codes it accepts. *)
Lemma respondWithError_WriteHeader w code message st :
  200 <= code <= 999 ->
  (w1 ← w_WriteHeader (w_Header_Set w "Content-Type" "application/json") code;
   mret (w_Write w1 (encodeError message))) st
  = (Ret (respondWithError w code message), st).
Proof.
  intros Hcode. by rewrite (bind_Ret _ _ _ _ _ (w_WriteHeader_final _ _ _ Hcode)).
Qed.

Lemma w_Write_WriteHeader w data st :
  (w1 ← w_WriteHeader w 200;
   mret (mkWriter (WHeader w1) (Sent w1) (Out w1 ++ [WWrite data]) (IsFlusher w1))) st
  = (Ret (w_Write w data), st).
Proof.
  by rewrite (bind_Ret _ _ _ _ _ (w_WriteHeader_final w 200 st ltac:(lia))).
Qed.

(** [WriteHeader] with a code that is no status code. *)
Lemma w_WriteHeader_invalid w code st :
  Sent w = None -> checkWriteHeaderCode code = false ->
  w_WriteHeader w code st = (Panic ("invalid WriteHeader code " ++ itoa code), st).
Proof. intros Hs Hc. unfold w_WriteHeader. by rewrite Hs, Hc. Qed.

(** [WriteHeader] returns or panics, and touches nothing of the state
    of the process. *)
Lemma w_WriteHeader_outcome w code st :
  (exists w', w_WriteHeader w code st = (Ret w', st)) \/
  (Sent w = None /\ checkWriteHeaderCode code = false /\
   w_WriteHeader w code st = (Panic ("invalid WriteHeader code " ++ itoa code), st)).
Proof.
  unfold w_WriteHeader. destruct (Sent w) as [sent|]; [left; by eexists|].
  destruct (checkWriteHeaderCode code); [|by right].
  left. cbn [negb]. destruct (informational code); by eexists.
Qed.

(** C4, amended. In buffered mode the response of the backend reaches
    the client as it is, for every status code from 200 to 999, the
    statuses other than 2xx included: when [forwardRequest] returns the
    response the backend gave to the chat POST, the handler sends the
    backend's status code, for every header key the backend's values in
    their order, and the backend's body bytes.  (Header keys are
    canonical, as [net/http] delivers them, and the writer is the fresh
    one of the request.) *)
Theorem C4_buffered_relay_is_verbatim (W : World) (st st' : State)
    (w : ResponseWriter) (requestBody : Payload) (resp : Response) :
  forwardRequest W requestBody st = (Ret (NetOk resp), st') ->
  200 <= StatusCode resp <= 999 ->
  WHeader w = ∅ -> Sent w = None -> Out w = [] ->
  canonicalHeader (RespHeader resp) ->
  exists hist call backend w' sentHeader,
    calls st' = (hist ++ [call])%list /\ isChatPost call = true /\
    RoundTrip W hist call = NetOk backend /\
    handleNonStreamingRequest W w requestBody st = (Ret w', st') /\
    Sent w' = Some (StatusCode backend, sentHeader) /\
    (forall key, default [] (sentHeader !! key)
                 = default [] (RespHeader backend !! key)) /\
    written (Out w') = Body backend.
Proof.
  intros Hf Hcode Hh Hs Ho Hcan.
  destruct (forwardRequest_ok_inv W requestBody st resp st' Hf)
    as (s & bytes & backend & _ & _ & _ & Hrt & -> & Hst & Hhd & Hbd & _).
  destruct (copyHeaders_values w (RespHeader resp) Hh Hcan) as (Hs' & Ho' & _ & Hv).
  exists (calls st ++ [probeCall W])%list, (chatCall W s bytes), backend.
  eexists _, (WHeader (copyHeaders w (RespHeader resp))).
  split; [done|]. split; [done|]. split; [exact Hrt|].
  split.
  { unfold handleNonStreamingRequest. rewrite (bind_Ret _ _ _ _ _ Hf).
    cbv zeta. by rewrite (bind_Ret _ _ _ _ _ (w_WriteHeader_final _ _ _ Hcode)). }
  set (w1 := sendHeader (copyHeaders w (RespHeader resp)) (StatusCode resp)).
  assert (Hsent : Sent w1 = Some (StatusCode backend,
                                  WHeader (copyHeaders w (RespHeader resp)))).
  { unfold w1, sendHeader. rewrite Hs', Hs. simpl. by rewrite Hst. }
  assert (Hout : Out w1 = []).
  { unfold w1, sendHeader. rewrite Hs', Hs. simpl. by rewrite Ho'. }
  destruct (io_Copy_written w1 (Body resp) Hout) as [Hw Hk].
  split; [by apply Hk|]. split.
  - intros key. rewrite Hv. by rewrite Hhd.
  - by rewrite Hw.
Qed.

Lemma C4_buffered_relay_is_verbatim_witness :
  exists w' st',
    handleNonStreamingRequest (sampleWorld backendHealthy) (newResponseWriter true)
      (<["model" := JString "model-1"]> (chatPayload None false)) establishedState
      = (Ret w', st') /\
    status w' = Some 201 /\
    written (Out w') = "{" ++ quoted "id" ++ ":" ++ quoted "abc" ++ "}".
Proof.
  destruct (C4_buffered_relay_is_verbatim (sampleWorld backendHealthy)
              establishedState
              (mkState (activeSession establishedState)
                 [probeCall (sampleWorld backendHealthy);
                  chatCall (sampleWorld backendHealthy) (mkSession "abc" "model-1" 0)
                    ("{" ++ quoted "messages" ++ ":[]," ++ quoted "model" ++ ":"
                     ++ quoted "model-1" ++ "," ++ quoted "stream" ++ ":false}")]
                 1)
              (newResponseWriter true)
              (<["model" := JString "model-1"]> (chatPayload None false))
              (mkResponse 201 {["Content-Type" := ["application/json"]]}
                          ("{" ++ quoted "id" ++ ":" ++ quoted "abc" ++ "}") None false))
    as (hist & call & backend & w' & sentHeader & _ & Hchat & Hrt & Hh & Hsent & _ & Hw).
  - vm_compute. reflexivity.
  - cbn [StatusCode]. lia.
  - reflexivity.
  - reflexivity.
  - reflexivity.
  - intros key values. cbn [RespHeader].
    intros [<- _]%lookup_singleton_Some. reflexivity.
  - assert (Hb : backend = okResponse 201 ("{" ++ quoted "id" ++ ":" ++ quoted "abc" ++ "}")).
    { destruct call as [u|u c b|u|u h b]; try discriminate Hchat.
      cbv [RoundTrip sampleWorld backendHealthy] in Hrt. by injection Hrt as <-. }
    exists w'. eexists. split; [exact Hh|]. subst backend.
    split; [|exact Hw]. unfold status. by rewrite Hsent.
Defined.

(** The claim C4 as it is written fails for the status codes below
    100, which the HTTP client hands on as it does any other: with a
    backend that answers the chat POST with status 99, [WriteHeader]
    panics and the client receives neither the status nor the body. *)
Lemma C4_status_below_100_is_not_relayed :
  let W := sampleWorld (backendAnswering 99 "oops" None) in
  let requestBody := <["model" := JString "model-1"]> (chatPayload None false) in
  exists resp st',
    forwardRequest W requestBody establishedState = (Ret (NetOk resp), st') /\
    StatusCode resp = 99 /\ Body resp = "oops" /\
    handleNonStreamingRequest W (newResponseWriter true) requestBody establishedState
      = (Panic "invalid WriteHeader code 99", st') /\
    ~ (exists w',
         handleNonStreamingRequest W (newResponseWriter true) requestBody
                                   establishedState = (Ret w', st') /\
         status w' = Some 99).
Proof.
  intros W requestBody.
  assert (Hrun : handleNonStreamingRequest W (newResponseWriter true) requestBody
                   establishedState
                 = (Panic "invalid WriteHeader code 99",
                    snd (forwardRequest W requestBody establishedState)))
    by (vm_compute; reflexivity).
  eexists _, _. split; [vm_compute; reflexivity|].
  split; [reflexivity|]. split; [reflexivity|]. split; [exact Hrun|].
  intros (w' & Hret & _). rewrite Hrun in Hret. discriminate Hret.
Qed.

(** ** Streaming relay *)

Example scan_sse_body :
  forall f, scanLines f sseBody EmptyString 0
            = (["data: A"; "data: B"; "data: [DONE]"], None).
Proof. intros f. vm_compute. reflexivity. Qed.

(** A carriage return before the line feed is not part of the token. *)
Example scan_crlf :
  scanLines true ("a" ++ String CR (String LF "b")) EmptyString 0 = (["a"; "b"], None).
Proof. vm_compute. reflexivity. Qed.

Lemma streaming_headers w :
  let h := WHeader (setStreamingHeaders w) in
  h !! "Content-Type" = Some ["text/event-stream"] /\
  h !! "Cache-Control" = Some ["no-cache"] /\
  h !! "Connection" = Some ["keep-alive"].
Proof.
  unfold setStreamingHeaders, w_Header_Set, Header_Set. cbn [WHeader].
  change (CanonicalMIMEHeaderKey "Content-Type") with "Content-Type".
  change (CanonicalMIMEHeaderKey "Cache-Control") with "Cache-Control".
  change (CanonicalMIMEHeaderKey "Connection") with "Connection".
  repeat split.
  - rewrite !lookup_insert_ne by done. by rewrite lookup_insert_eq.
  - rewrite lookup_insert_ne by done. by rewrite lookup_insert_eq.
  - by rewrite lookup_insert_eq.
Qed.

Lemma write_flush_first w text :
  Sent w = None ->
  let w' := w_Flush (w_Write w text) in
  Sent w' = Some (200, WHeader w) /\ WHeader w' = WHeader w /\
  Out w' = (Out w ++ [WWrite text; WFlush])%list.
Proof.
  destruct w as [h s o f]. cbn [Sent WHeader Out]. intros ->.
  unfold w_Flush, w_Write, sendHeader. cbn [Sent WHeader Out IsFlusher].
  by rewrite <- app_assoc.
Qed.

Lemma write_flush_next w text sent :
  Sent w = Some sent ->
  let w' := w_Flush (w_Write w text) in
  Sent w' = Some sent /\ WHeader w' = WHeader w /\
  Out w' = (Out w ++ [WWrite text; WFlush])%list.
Proof.
  destruct w as [h s o f]. cbn [Sent WHeader Out]. intros ->.
  unfold w_Flush, w_Write, sendHeader. cbn [Sent WHeader Out IsFlusher].
  by rewrite <- app_assoc.
Qed.

(** The loop of [handleStreamingRequest]: one write and one flush per
    line, in the order of the lines. *)
Lemma stream_lines_next w lines sent :
  Sent w = Some sent ->
  let w' := foldl (fun w text => w_Flush (w_Write w (text ++ newline))) w lines in
  Sent w' = Some sent /\
  Out w' = (Out w ++ flat_map (fun text => [WWrite (text ++ newline); WFlush]) lines)%list.
Proof.
  revert w. induction lines as [|text lines IH]; intros w Hs.
  - cbn [foldl flat_map]. by rewrite app_nil_r.
  - cbn [foldl flat_map].
    destruct (write_flush_next w (text ++ newline) sent Hs) as (Hs1 & _ & Ho1).
    destruct (IH _ Hs1) as (Hs2 & Ho2). split; [exact Hs2|].
    rewrite Ho2, Ho1. by rewrite <- !app_assoc.
Qed.

Lemma stream_lines_first w text lines :
  Sent w = None ->
  let w' := foldl (fun w text => w_Flush (w_Write w (text ++ newline))) w (text :: lines) in
  Sent w' = Some (200, WHeader w) /\
  Out w' = (Out w ++ flat_map (fun text => [WWrite (text ++ newline); WFlush])
                              (text :: lines))%list.
Proof.
  intros Hs. cbn [foldl flat_map].
  destruct (write_flush_first w (text ++ newline) Hs) as (Hs1 & _ & Ho1).
  destruct (stream_lines_next _ lines _ Hs1) as (Hs2 & Ho2). split; [exact Hs2|].
  rewrite Ho2, Ho1. by rewrite <- !app_assoc.
Qed.

(** C6. In streaming mode, when the backend answers the chat POST with
    the three lines [data: A], [data: B] and [data: [DONE]], each ended
    by a line feed, the client receives these three lines in this order
    with a flush after each one, and the headers sent ahead of the first
    byte carry [Content-Type: text/event-stream], [Cache-Control:
    no-cache] and [Connection: keep-alive]. *)
Theorem C6_streaming_relays_lines (W : World) (st st' : State)
    (w : ResponseWriter) (requestBody : Payload) (resp : Response) :
  forwardRequest W requestBody st = (Ret (NetOk resp), st') ->
  Body resp = sseBody -> BodyErr resp = None ->
  IsFlusher w = true -> Sent w = None -> Out w = [] ->
  exists w' sentHeader,
    handleStreamingRequest W w requestBody st = (Ret w', st') /\
    Out w' = [WWrite ("data: A" ++ newline); WFlush;
              WWrite ("data: B" ++ newline); WFlush;
              WWrite ("data: [DONE]" ++ newline); WFlush] /\
    Sent w' = Some (200, sentHeader) /\
    sentHeader !! "Content-Type" = Some ["text/event-stream"] /\
    sentHeader !! "Cache-Control" = Some ["no-cache"] /\
    sentHeader !! "Connection" = Some ["keep-alive"].
Proof.
  intros Hf Hb He Hfl Hs Ho.
  exists (foldl (fun w text => w_Flush (w_Write w (text ++ newline)))
                (setStreamingHeaders w) ["data: A"; "data: B"; "data: [DONE]"]).
  exists (WHeader (setStreamingHeaders w)).
  assert (Hfl' : IsFlusher (setStreamingHeaders w) = true) by exact Hfl.
  assert (Hs' : Sent (setStreamingHeaders w) = None) by exact Hs.
  assert (Ho' : Out (setStreamingHeaders w) = []) by exact Ho.
  split.
  { unfold handleStreamingRequest. rewrite (bind_Ret _ _ _ _ _ Hf).
    cbv zeta. rewrite Hfl'. cbn [negb]. unfold Scanner.
    rewrite Hb, scan_sse_body, He. reflexivity. }
  destruct (streaming_headers w) as (H1 & H2 & H3).
  destruct (stream_lines_first (setStreamingHeaders w) "data: A"
              ["data: B"; "data: [DONE]"] Hs') as (Hsent & Hout).
  rewrite Ho' in Hout. split; [exact Hout|]. split; [exact Hsent|]. done.
Qed.

Lemma C6_streaming_relays_lines_witness :
  exists st' w' sentHeader,
    handleStreamingRequest (sampleWorld backendStreaming) (newResponseWriter true)
      (<["model" := JString "model-1"]> (chatPayload None true)) establishedState
      = (Ret w', st') /\
    Out w' = [WWrite ("data: A" ++ newline); WFlush;
              WWrite ("data: B" ++ newline); WFlush;
              WWrite ("data: [DONE]" ++ newline); WFlush] /\
    Sent w' = Some (200, sentHeader) /\
    sentHeader !! "Content-Type" = Some ["text/event-stream"] /\
    sentHeader !! "Cache-Control" = Some ["no-cache"] /\
    sentHeader !! "Connection" = Some ["keep-alive"].
Proof.
  eexists.
  eapply (C6_streaming_relays_lines (sampleWorld backendStreaming) establishedState _
            (newResponseWriter true)
            (<["model" := JString "model-1"]> (chatPayload None true))
            (mkResponse 200 {["Content-Type" := ["text/event-stream"]]} sseBody None
                        true)).
  - vm_compute. reflexivity.
  - reflexivity.
  - reflexivity.
  - reflexivity.
  - reflexivity.
  - reflexivity.
Defined.

(** ** The health check *)

(** C8. The health check of session establishment is advisory.  When
    there is no fresh session (and [MODEL_ID] is set), then for every
    outcome of the health check, a transport error or a response with
    any status code, [ensureSession] issues the health check and then the
    session-creation call, and returns (it neither panics nor exits).
    What it returns and the state it leaves are the same for every
    outcome of the health check; in particular, when the session endpoint
    answers with a non-empty session id, it returns [nil]. *)
Theorem C8_health_check_is_advisory (W : World) (st : State) (outcome : NetResult) :
  isFresh W st = false ->
  Getenv W "MODEL_ID" ≠ "" ->
  exists e st',
    ensureSession (withHealthCheck W outcome) st = (Ret e, st') /\
    calls st' = (calls st ++ [HealthGet healthURL;
                              sessionCall (Getenv W "MODEL_ID")])%list /\
    (forall outcome2, ensureSession (withHealthCheck W outcome2) st = (Ret e, st')) /\
    (forall resp id,
       RoundTrip W (calls st ++ [HealthGet healthURL])
                 (sessionCall (Getenv W "MODEL_ID")) = NetOk resp ->
       DecodeSession W (Body resp) = inr id -> id ≠ "" ->
       e = nil_error).
Proof.
  intros Hf Hm.
  assert (Hstep : forall o,
    ensureSession (withHealthCheck W o) st = ensureSession (withHealthCheck W outcome) st).
  { intros o.
    rewrite (ensureSession_slow (withHealthCheck W o) st Hf Hm).
    rewrite (ensureSession_slow (withHealthCheck W outcome) st Hf Hm).
    reflexivity. }
  pose proof (ensureSession_slow (withHealthCheck W outcome) st Hf Hm) as Hrun.
  simpl in Hrun. unfold sessionCall in Hrun at 1. fold (sessionCall (Getenv W "MODEL_ID")) in Hrun.
  destruct (RoundTrip W (calls st ++ [HealthGet healthURL])
              (sessionCall (Getenv W "MODEL_ID"))) as [err|resp] eqn:Hrt.
  { eexists _, _. split; [exact Hrun|]. split; [by rewrite <- app_assoc|].
    split; [intros o; by rewrite Hstep|]. intros; discriminate. }
  destruct (DecodeSession W (Body resp)) as [err|id] eqn:Hd.
  { eexists _, _. split; [exact Hrun|]. split; [by rewrite <- app_assoc|].
    split; [intros o; by rewrite Hstep|]. intros resp' id' [= <-]. by rewrite Hd. }
  eexists _, _. split; [exact Hrun|]. split; [by rewrite <- app_assoc|].
  split; [intros o; by rewrite Hstep|].
  intros resp' id' [= <-]. rewrite Hd. intros [= <-] Hne.
  by destruct (String.eqb_spec id "").
Qed.

Lemma C8_health_check_is_advisory_witness :
  exists st',
    ensureSession (withHealthCheck (sampleWorld backendHealthy)
                     (NetError "connection refused")) initialState
      = (Ret nil_error, st') /\
    calls st' = [HealthGet healthURL; sessionCall "model-1"].
Proof.
  destruct (C8_health_check_is_advisory (sampleWorld backendHealthy) initialState
              (NetError "connection refused") eq_refl)
    as (e & st' & Hrun & Hcalls & _ & Hnil).
  - intros H. vm_compute in H. discriminate H.
  - exists st'.
    assert (He : e = nil_error).
    { apply (Hnil (okResponse 200 (sessionDoc "abc")) "abc").
      - reflexivity.
      - vm_compute. reflexivity.
      - discriminate. }
    rewrite He in Hrun. split; [exact Hrun|exact Hcalls].
Defined.

(** ** The handler *)

Lemma handleNonStreamingRequest_state W w requestBody st o st' :
  handleNonStreamingRequest W w requestBody st = (o, st') ->
  exists o2, forwardRequest W requestBody st = (o2, st').
Proof.
  unfold handleNonStreamingRequest. run.
  destruct (forwardRequest W requestBody st) as [[[e|resp]|msg|msg] st2];
    try (intros [= <- <-]; by eexists).
  destruct (w_WriteHeader_outcome (copyHeaders w (RespHeader resp))
              (StatusCode resp) st2) as [[w' ->]|(_ & _ & ->)];
    intros [= <- <-]; by eexists.
Qed.

Lemma handleStreamingRequest_state W w requestBody st o st' :
  handleStreamingRequest W w requestBody st = (o, st') ->
  exists o2, forwardRequest W requestBody st = (o2, st').
Proof.
  unfold handleStreamingRequest. run.
  destruct (forwardRequest W requestBody st) as [[[e|resp]|msg|msg] st2];
    try (intros [= <- <-]; by eexists).
  destruct (negb (IsFlusher w)); [intros [= <- <-]; by eexists|].
  destruct (Scanner resp) as [lines [err|]]; intros [= <- <-]; by eexists.
Qed.

Lemma issued_app st st' new :
  calls st' = (calls st ++ new)%list -> issued st st' = new.
Proof. intros H. unfold issued. rewrite H. apply drop_app_length. Qed.

Lemma issued_same st st' :
  calls st' = calls st -> issued st st' = [].
Proof. intros H. apply issued_app. by rewrite app_nil_r. Qed.

(** The session calls are no forward calls. *)
Lemma ensureSession_no_forward_call W st o st' c :
  ensureSession W st = (o, st') ->
  c ∈ issued st st' -> isForwardCall c = false.
Proof.
  intros [H|H]%ensureSession_trace.
  - rewrite (issued_same _ _ H). by intros ?%elem_of_nil.
  - rewrite (issued_app _ _ _ H).
    intros [->|[->|?%elem_of_nil]%elem_of_cons]%elem_of_cons; done.
Qed.

Lemma ensureSession_extends W st o st' :
  ensureSession W st = (o, st') ->
  exists new, calls st' = (calls st ++ new)%list /\
              forall c, c ∈ new -> isForwardCall c = false.
Proof.
  intros [H|H]%ensureSession_trace.
  - exists []. rewrite app_nil_r. split; [done|]. by intros c ?%elem_of_nil.
  - eexists. split; [exact H|].
    intros c [->|[->|?%elem_of_nil]%elem_of_cons]%elem_of_cons; done.
Qed.

Lemma forwardRequest_extends W requestBody st o st' :
  forwardRequest W requestBody st = (o, st') ->
  exists new, calls st' = (calls st ++ new)%list /\
              forall c, c ∈ new -> isChatPost c = true ->
                exists s bytes, Marshal W requestBody = inr bytes /\
                                c = chatCall W s bytes.
Proof.
  intros [_ [H|[H|(s & bytes & _ & _ & Hm & H)]]]%forwardRequest_trace.
  - exists []. rewrite app_nil_r. split; [done|]. by intros c ?%elem_of_nil.
  - eexists. split; [exact H|].
    intros c ->%list_elem_of_singleton. done.
  - eexists. split; [exact H|].
    intros c [-> | ->%list_elem_of_singleton]%elem_of_cons; [done|].
    intros _. by exists s, bytes.
Qed.

(** Every chat POST of the handler carries the decoded payload with its
    [model] entry replaced. *)
Lemma ProxyChatCompletion_chat_post W w r st o st' c :
  ProxyChatCompletion W w r st = (o, st') ->
  c ∈ issued st st' -> isChatPost c = true ->
  exists m s bytes,
    DecodePayload W (ReqBody r) = inr (Some m) /\
    Marshal W (<["model" := JString (Getenv W "MODEL_ID")]> m) = inr bytes /\
    c = chatCall W s bytes.
Proof.
  unfold ProxyChatCompletion.
  destruct (ReqBodyErr r) as [e|].
  { intros [= <- <-]. rewrite (issued_same st st eq_refl). by intros ?%elem_of_nil. }
  unfold mbind at 1, M_bind, bind.
  destruct (ensureSession W st) as [o1 st1] eqn:He.
  destruct (ensureSession_extends W st o1 st1 He) as (a & Ha & Hna).
  assert (Hsess : c ∈ issued st st1 -> isChatPost c = true -> False).
  { rewrite (issued_app _ _ _ Ha). intros Hx Hc. specialize (Hna c Hx).
    destruct c; done. }
  destruct o1 as [[e|]|msg|msg]; try (intros [= <- <-] Hin Hc; by destruct Hsess).
  destruct (DecodePayload W (ReqBody r)) as [e|[m|]] eqn:Hd;
    try (intros [= <- <-] Hin Hc; by destruct Hsess).
  - destruct (String.eqb (Getenv W "MODEL_ID") "");
      try (intros [= <- <-] Hin Hc; by destruct Hsess).
    run. destruct (activeSession st1) as [s|] eqn:Hs;
      try (intros [= <- <-] Hin Hc; by destruct Hsess).
    set (rb := <["model" := JString (Getenv W "MODEL_ID")]> m).
    intros Hrun Hin Hc.
    assert (Hfwd : exists o2, forwardRequest W rb st1 = (o2, st')).
    { destruct (match rb !! "stream" with Some (JBool b) => b | _ => false end).
      - destruct (handleStreamingRequest W w rb st1) as [o3 st3] eqn:H3.
        apply handleStreamingRequest_state in H3 as [o2 H2]. exists o2.
        rewrite H2. f_equal. destruct o3; by injection Hrun.
      - destruct (handleNonStreamingRequest W w rb st1) as [o3 st3] eqn:H3.
        apply handleNonStreamingRequest_state in H3 as [o2 H2]. exists o2.
        rewrite H2. f_equal. destruct o3; by injection Hrun. }
    destruct Hfwd as [o2 Hfwd].
    destruct (forwardRequest_extends W rb st1 o2 st' Hfwd) as (b & Hb & Hpost).
    assert (Hall : issued st st' = (a ++ b)%list).
    { apply issued_app. by rewrite Hb, Ha, <- app_assoc. }
    rewrite Hall in Hin. apply elem_of_app in Hin as [Hin|Hin].
    + specialize (Hna c Hin). destruct c; done.
    + destruct (Hpost c Hin Hc) as (s' & bytes & Hm & ->). by exists m, s', bytes.
  - destruct (String.eqb (Getenv W "MODEL_ID") "");
      run; intros [= <- <-] Hin Hc; by destruct Hsess.
Qed.

(** C5. Every payload the handler forwards to the backend is the client
    payload with its [model] entry set to the configured [MODEL_ID],
    whether or not the client sent a [model] and whatever it held; every
    other entry is forwarded as it was received.  The body of the chat
    POST is the marshalled form of that map. *)
Theorem C5_model_is_overwritten (W : World) (w : ResponseWriter) (r : Request)
    (st st' : State) (o : Outcome (ResponseWriter * Request))
    (url : string) (header : Header) (body : string) :
  ProxyChatCompletion W w r st = (o, st') ->
  ChatPost url header body ∈ issued st st' ->
  exists received forwarded : Payload,
    DecodePayload W (ReqBody r) = inr (Some received) /\
    Marshal W forwarded = inr body /\
    forwarded !! "model" = Some (JString (Getenv W "MODEL_ID")) /\
    (forall key, key ≠ "model" -> forwarded !! key = received !! key).
Proof.
  intros Hrun Hin.
  destruct (ProxyChatCompletion_chat_post W w r st o st' _ Hrun Hin eq_refl)
    as (m & s & bytes & Hd & Hm & Hc).
  exists m, (<["model" := JString (Getenv W "MODEL_ID")]> m).
  injection Hc as _ _ ->.
  split; [exact Hd|]. split; [exact Hm|]. split.
  - apply lookup_insert_eq.
  - intros key Hne. by apply lookup_insert_ne.
Qed.

Example sample_marshal :
  sampleMarshal (<["model" := JString "model-1"]> (chatPayload None false))
  = inr ("{" ++ quoted "messages" ++ ":[]," ++ quoted "model" ++ ":"
         ++ quoted "model-1" ++ "," ++ quoted "stream" ++ ":false}").
Proof. vm_compute. reflexivity. Qed.

Lemma C5_model_is_overwritten_witness :
  exists received forwarded : Payload,
    DecodePayload (sampleWorld backendHealthy) (chatDoc (Some "gpt-4") false)
      = inr (Some received) /\
    Marshal (sampleWorld backendHealthy) forwarded
      = inr ("{" ++ quoted "messages" ++ ":[]," ++ quoted "model" ++ ":"
             ++ quoted "model-1" ++ "," ++ quoted "stream" ++ ":false}") /\
    forwarded !! "model" = Some (JString "model-1") /\
    (forall key, key ≠ "model" -> forwarded !! key = received !! key).
Proof.
  pose (W := sampleWorld backendHealthy).
  pose (run := ProxyChatCompletion W (newResponseWriter true)
                 (chatRequest (chatDoc (Some "gpt-4") false)) initialState).
  apply (C5_model_is_overwritten W (newResponseWriter true)
           (chatRequest (chatDoc (Some "gpt-4") false)) initialState
           (snd run) (fst run)
           "http://marketplace:9000/v1/chat/completions"
           (Header_Set (Header_Set ∅ "Content-Type" "application/json")
                       "Session_id" "abc")).
  - apply surjective_pairing.
  - assert (Hcalls : issued initialState (snd run)
      = [HealthGet healthURL; sessionCall "model-1"; probeCall W;
         chatCall W (mkSession "abc" "model-1" 0)
           ("{" ++ quoted "messages" ++ ":[]," ++ quoted "model" ++ ":"
            ++ quoted "model-1" ++ "," ++ quoted "stream" ++ ":false}")]).
    { vm_compute. reflexivity. }
    rewrite Hcalls. unfold chatCall.
    change (Getenv W "MARKETPLACE_URL")
      with "http://marketplace:9000/v1/chat/completions".
    do 3 apply list_elem_of_further. apply list_elem_of_here.
Defined.

(** ** Malformed bodies *)

(** The claim C2 as it is written fails: with no session stored and a
    backend that cannot be reached, the body [not-json] is answered with
    status 500, after a health check and a session-creation call; with a
    backend that works it is answered with status 400, after the same two
    calls. *)
Lemma C2_backend_is_called_before_parsing :
  let r := chatRequest "not-json" in
  let w := newResponseWriter true in
  DecodePayload (sampleWorld backendDown) (ReqBody r) = inl "invalid character" /\
  ~ (exists w' r' st',
       ProxyChatCompletion (sampleWorld backendDown) w r initialState
         = (Ret (w', r'), st') /\
       status w' = Some 400 /\ issued initialState st' = []) /\
  (exists w' st',
     ProxyChatCompletion (sampleWorld backendDown) w r initialState
       = (Ret (w', r), st') /\
     status w' = Some 500 /\
     written (Out w') = encodeError "Failed to establish session" /\
     issued initialState st' = [HealthGet healthURL; sessionCall "model-1"]) /\
  (exists w' st',
     ProxyChatCompletion (sampleWorld backendHealthy) w r initialState
       = (Ret (w', r), st') /\
     status w' = Some 400 /\
     issued initialState st' = [HealthGet healthURL; sessionCall "model-1"]).
Proof.
  split; [reflexivity|]. split; [|split].
  - intros (w' & r' & st' & Hrun & Hst & Hcalls).
    vm_compute in Hrun. injection Hrun as <- <- <-.
    vm_compute in Hst. discriminate Hst.
  - eexists _, _. split; [vm_compute; reflexivity|].
    split; [reflexivity|]. split; vm_compute; reflexivity.
  - eexists _, _. split; [vm_compute; reflexivity|].
    split; vm_compute; reflexivity.
Qed.

(** C2, amended. The session is ensured before the body is parsed.  For
    a request whose body the decoder rejects, the handler makes no
    forward call (no reachability probe, no chat POST), whatever the
    session step does; once [ensureSession] has returned [nil] it answers
    with status 400 and the body [{"error":"Invalid request body"}]
    (followed by a line feed); and when a session less than 30 minutes
    old is stored it does so without any call to the backend. *)
Theorem C2_malformed_body_is_rejected (W : World) (w : ResponseWriter)
    (r : Request) (st : State) (e : string) :
  ReqBodyErr r = None ->
  DecodePayload W (ReqBody r) = inl e ->
  Sent w = None -> Out w = [] ->
  exists o st',
    ProxyChatCompletion W w r st = (o, st') /\
    (forall c, c ∈ issued st st' -> isForwardCall c = false) /\
    (forall st1, ensureSession W st = (Ret nil_error, st1) ->
       st' = st1 /\
       exists w', o = Ret (w', r) /\ status w' = Some 400 /\
                  written (Out w') = encodeError "Invalid request body") /\
    (isFresh W st = true ->
       calls st' = calls st /\
       exists w', o = Ret (w', r) /\ status w' = Some 400 /\
                  written (Out w') = encodeError "Invalid request body").
Proof.
  intros Hr Hd Hs Ho.
  destruct (ensureSession W st) as [o1 st1] eqn:He.
  destruct (ensureSession_extends W st o1 st1 He) as (a & Ha & Hna).
  assert (Hbad : status (respondWithError w 400 "Invalid request body") = Some 400 /\
                 written (Out (respondWithError w 400 "Invalid request body"))
                 = encodeError "Invalid request body").
  { split; [by apply respondWithError_status|by apply respondWithError_written]. }
  assert (Hrun : exists o,
    ProxyChatCompletion W w r st = (o, st1) /\
    (o1 = Ret nil_error ->
     o = Ret (respondWithError w 400 "Invalid request body", r))).
  { unfold ProxyChatCompletion. rewrite Hr.
    unfold mbind at 1, M_bind, bind. rewrite He.
    destruct o1 as [[e1|]|msg|msg]; try (eexists; split; [reflexivity|done]).
    rewrite Hd. eexists; split; [reflexivity|done]. }
  destruct Hrun as (o & Hrun & Hok).
  exists o, st1. split; [exact Hrun|]. split; [|split].
  - intros c. rewrite (issued_app _ _ _ Ha). apply Hna.
  - intros st2 [= -> <-]. split; [done|].
    exists (respondWithError w 400 "Invalid request body").
    split; [by apply Hok|exact Hbad].
  - intros Hf. rewrite (ensureSession_fresh W st Hf) in He.
    injection He as <- <-. split; [done|].
    exists (respondWithError w 400 "Invalid request body").
    split; [by apply Hok|exact Hbad].
Qed.

Lemma C2_malformed_body_is_rejected_witness :
  exists w',
    ProxyChatCompletion (sampleWorld backendDown) (newResponseWriter true)
      (chatRequest "not-json") establishedState
    = (Ret (w', chatRequest "not-json"),
       mkState (activeSession establishedState) [] 2) /\
    status w' = Some 400 /\
    written (Out w') = encodeError "Invalid request body".
Proof.
  destruct (C2_malformed_body_is_rejected (sampleWorld backendDown)
              (newResponseWriter true) (chatRequest "not-json") establishedState
              "invalid character" eq_refl eq_refl eq_refl eq_refl)
    as (o & st' & Hrun & _ & Hok & _).
  destruct (Hok (mkState (activeSession establishedState) [] 2) eq_refl)
    as (-> & w' & -> & Hst & Hw).
  exists w'. split; [exact Hrun|]. split; [exact Hst|exact Hw].
Defined.

(** The document [null] decodes without error into the [nil] map; the
    handler then panics on the assignment of [model]. *)
Example null_body_panics :
  fst (ProxyChatCompletion (sampleWorld backendDown) (newResponseWriter true)
         (chatRequest "null") establishedState)
  = Panic "assignment to entry in nil map".
Proof. vm_compute. reflexivity. Qed.

(** The second request after an empty session id: the session step
    passes, the forward step refuses, and no session is requested. *)
Example empty_session_id_second_request :
  let W := sampleWorld backendEmptySessionID in
  let w := newResponseWriter true in
  let r := chatRequest (chatDoc None false) in
  let '(o1, st1) := ProxyChatCompletion W w r initialState in
  let '(o2, st2) := ProxyChatCompletion W w r st1 in
  o1 = Ret (respondWithError w 500 "Failed to establish session", r) /\
  (exists r', o2 = Ret (respondWithError w 500 "Failed to forward request", r')) /\
  issued st1 st2 = [probeCall W].
Proof. vm_compute. split; [reflexivity|]. split; [eexists|]; reflexivity. Qed.

(** ** The scanner on whole lines *)

Lemma append_cons c s t : String c s ++ t = String c (s ++ t).
Proof. reflexivity. Qed.

Lemma string_rev_acc_twice s a b :
  string_rev_acc (string_rev_acc s a) b = string_rev_acc a (s ++ b).
Proof.
  revert a b. induction s as [|c s IH]; intros a b; [done|].
  rewrite append_cons. cbn [string_rev_acc]. by rewrite IH.
Qed.

Lemma string_rev_involutive s : string_rev (string_rev s) = s.
Proof.
  unfold string_rev. rewrite string_rev_acc_twice. cbn [string_rev_acc].
  apply append_empty_r.
Qed.

Lemma dropCR_plain s :
  endsWithCR s = false -> dropCR (string_rev s) = s.
Proof.
  unfold endsWithCR, dropCR. intros H.
  destruct (string_rev s) as [|c rest] eqn:E.
  - by rewrite <- (string_rev_involutive s), E.
  - rewrite H. by rewrite <- E, string_rev_involutive.
Qed.

(** Scanning up to the end of the current line. *)
Lemma scanLines_line f s rest line_rev n :
  hasLF s = false ->
  0 <= n -> n + Z.of_nat (String.length s) < MaxScanTokenSize ->
  scanLines f (s ++ String LF rest) line_rev n =
  let '(tokens, err) := scanLines f rest EmptyString 0 in
  (dropCR (string_rev_acc s line_rev) :: tokens, err).
Proof.
  revert line_rev n. induction s as [|c s IH]; intros line_rev n Hlf Hn Hlen.
  - change (EmptyString ++ String LF rest) with (String LF rest).
    cbn [scanLines].
    cbn [String.length] in Hlen.
    destruct (Z.leb_spec MaxScanTokenSize n); [lia|].
    by change (Ascii.eqb LF LF) with true.
  - rewrite append_cons. cbn [scanLines].
    cbn [hasLF] in Hlf. apply orb_false_iff in Hlf as [Hc Hlf].
    cbn [String.length] in Hlen.
    destruct (Z.leb_spec MaxScanTokenSize n); [lia|].
    rewrite Hc. rewrite IH; [done|done|lia|lia].
Qed.

Lemma scanLines_joinLines f lines :
  Forall plainLine lines ->
  scanLines f (joinLines lines) EmptyString 0 = (lines, None).
Proof.
  induction 1 as [|l lines (Hlf & Hcr & Hlen) _ IH].
  - reflexivity.
  - cbn [joinLines]. rewrite scanLines_line; [|done|lia|lia].
    rewrite IH. fold (string_rev l). by rewrite dropCR_plain.
Qed.

Example sse_body_lines : sseBody = joinLines ["data: A"; "data: B"; "data: [DONE]"].
Proof. reflexivity. Qed.

(** Streaming relays every line: for a backend body made of plain lines,
    the client receives each line and its line feed in one write,
    followed by one flush, in the order of the lines. *)
Lemma streaming_relays_every_line W st st' w requestBody resp lines :
  forwardRequest W requestBody st = (Ret (NetOk resp), st') ->
  Body resp = joinLines lines -> BodyErr resp = None ->
  Forall plainLine lines ->
  IsFlusher w = true -> Sent w = None -> Out w = [] ->
  exists w',
    handleStreamingRequest W w requestBody st = (Ret w', st') /\
    Out w' = flat_map (fun text => [WWrite (text ++ newline); WFlush]) lines /\
    (lines ≠ [] -> Sent w' = Some (200, WHeader (setStreamingHeaders w))).
Proof.
  intros Hf Hb He Hlines Hfl Hs Ho.
  assert (Hfl' : IsFlusher (setStreamingHeaders w) = true) by exact Hfl.
  assert (Hs' : Sent (setStreamingHeaders w) = None) by exact Hs.
  assert (Ho' : Out (setStreamingHeaders w) = []) by exact Ho.
  eexists. split.
  { unfold handleStreamingRequest. rewrite (bind_Ret _ _ _ _ _ Hf).
    cbv zeta. rewrite Hfl'. cbn [negb]. unfold Scanner.
    rewrite Hb, (scanLines_joinLines _ lines Hlines), He. reflexivity. }
  destruct lines as [|text lines].
  - split; [exact Ho'|done].
  - destruct (stream_lines_first (setStreamingHeaders w) text lines Hs')
      as (Hsent & Hout).
    rewrite Ho' in Hout. split; [exact Hout|]. intros _. exact Hsent.
Qed.

(** ** Concurrent requests *)

(** The three stretches, one after the other, are [ensureSession]. *)
Lemma ensureSession_stretches W st :
  ensureSession W st =
  (r ← stretchTest W;
   match r with
   | inl e => mret e
   | inr modelID => stretchHealth W;; stretchPost W modelID
   end) st.
Proof.
  unfold ensureSession, stretchTest, stretchHealth, stretchPost.
  unfold mbind, M_bind, bind, mret, M_ret, ret.
  destruct (sessionIsFresh W st) as [[[|]|msg|msg] st1]; try reflexivity.
  destruct (getModelID W st1) as [[modelID|msg|msg] st2]; try reflexivity.
Qed.

(** A goroutine on its own runs [ensureSession]: it ends with the
    result and the memory of the function, the mutex released. *)
Lemma solo_run W st :
  let sys := run W [0; 0; 0; 0]%nat (burst 1 st) in
  match ensureSession W st with
  | (Ret e, st') => sys = mkSystem st' false [Returned e]
  | (o, st') => sys = mkSystem st' true [Exited (message o)]
  end.
Proof.
  rewrite ensureSession_stretches.
  unfold run, burst. cbn [foldl replicate].
  change (step W 0 (mkSystem st false [BeforeLock])) with (mkSystem st true [Locked]).
  change (step W 0 (mkSystem st true [Locked])) with
    (match stretchTest W st with
     | (Ret (inl e), m) => mkSystem m false [Returned e]
     | (Ret (inr modelID), m) => mkSystem m true [BeforeHealth modelID]
     | (o, m) => mkSystem m true [Exited (message o)]
     end).
  unfold mbind at 1, M_bind, bind.
  destruct (stretchTest W st) as [[[e|modelID]|msg|msg] st1]; try reflexivity.
  change (step W 0 (mkSystem st1 true [BeforeHealth modelID])) with
    (match stretchHealth W st1 with
     | (Ret _, m) => mkSystem m true [BeforePost modelID]
     | (o, m) => mkSystem m true [Exited (message o)]
     end).
  unfold mbind at 1, M_bind, bind.
  destruct (stretchHealth W st1) as [[[]|msg|msg] st2]; try reflexivity.
  change (step W 0 (mkSystem st2 true [BeforePost modelID])) with
    (match stretchPost W modelID st2 with
     | (Ret e, m) => mkSystem m false [Returned e]
     | (o, m) => mkSystem m true [Exited (message o)]
     end).
  destruct (stretchPost W modelID st2) as [[e|msg|msg] st3]; reflexivity.
Qed.

Lemma stretchHealth_run W st :
  stretchHealth W st
  = (Ret tt, mkState (activeSession st) (calls st ++ [HealthGet healthURL]) (ticks st)).
Proof. reflexivity. Qed.

Lemma stretchTest_returns W st :
  exists o, stretchTest W st
            = (o, mkState (activeSession st) (calls st) (ticksAfterCheck st)).
Proof.
  unfold stretchTest. rewrite (bind_Ret _ _ _ _ _ (sessionIsFresh_spec W st)).
  destruct (isFresh W st); [by eexists|].
  unfold getModelID. destruct (String.eqb _ ""); by eexists.
Qed.

(** The holder of the mutex is the only goroutine between [Lock] and
    [Unlock]. *)
Lemma holder_unique base i j (pc pc' : Pc) :
  Forall (fun pc => inEstablishment pc = false) base ->
  (<[i := pc]> base) !! j = Some pc' ->
  inEstablishment pc' = true ->
  i = j /\ pc' = pc /\ (i < length base)%nat.
Proof.
  intros Hbase Hj Hin. rewrite list_lookup_insert in Hj.
  case_decide as Hd.
  - destruct Hd as [-> Hlt]. by injection Hj as ->.
  - rewrite (Forall_lookup_1 _ _ _ _ Hbase Hj) in Hin. discriminate.
Qed.

Lemma step_mutexAgrees W i sys :
  mutexAgrees sys -> mutexAgrees (step W i sys).
Proof.
  intros (base & Hbase & Hsys). unfold step.
  destruct (pcs sys !! i) as [pc|] eqn:Hi; [|by exists base].
  destruct Hsys as [[Hm Hp]|(Hm & j & pcj & Hj & Hin & Hp)].
  - (* the mutex is free *)
    rewrite Hp in Hi. pose proof (Forall_lookup_1 _ _ _ _ Hbase Hi) as Hout.
    destruct pc; try discriminate Hout.
    + rewrite Hm. exists base. split; [done|]. right. cbn [mutex pcs].
      split; [done|]. exists i, Locked. rewrite Hp.
      split; [by eapply lookup_lt_Some|done].
    + exists base. split; [done|]. by left.
  - (* goroutine [j] holds the mutex *)
    assert (Hset : forall pc' m b,
      (inEstablishment pc' = true -> b = true) ->
      (inEstablishment pc' = false -> b = false) ->
      i = j ->
      mutexAgrees (mkSystem m b (<[i := pc']> (pcs sys)))).
    { intros pc' m b Htrue Hfalse ->. rewrite Hp, list_insert_insert_eq.
      destruct (inEstablishment pc') eqn:Hpc'.
      - exists base. split; [done|]. right. cbn [mutex pcs].
        split; [by apply Htrue|]. by exists j, pc'.
      - exists (<[j := pc']> base). split; [by apply Forall_insert|].
        left. cbn [mutex pcs]. split; [by apply Hfalse|done]. }
    assert (Hsame : mutexAgrees sys).
    { exists base. split; [done|]. right. split; [done|]. by exists j, pcj. }
    rewrite Hp in Hi.
    destruct pc as [| |modelID|modelID|e|msg]; try exact Hsame.
    + by rewrite Hm.
    + destruct (holder_unique base j i pcj Locked Hbase Hi eq_refl) as (-> & _ & _).
      destruct (stretchTest W (mem sys)) as [[[e|modelID]|msg|msg] m];
        by apply Hset.
    + destruct (holder_unique base j i pcj _ Hbase Hi eq_refl) as (-> & _ & _).
      destruct (stretchHealth W (mem sys)) as [[[]|msg|msg] m]; by apply Hset.
    + destruct (holder_unique base j i pcj _ Hbase Hi eq_refl) as (-> & _ & _).
      destruct (stretchPost W modelID (mem sys)) as [[e|msg|msg] m]; by apply Hset.
Qed.

Lemma run_mutexAgrees W schedule sys :
  mutexAgrees sys -> mutexAgrees (run W schedule sys).
Proof.
  revert sys. induction schedule as [|i schedule IH]; intros sys H; [done|].
  apply IH, step_mutexAgrees, H.
Qed.

Lemma burst_mutexAgrees n st : mutexAgrees (burst n st).
Proof.
  exists (replicate n BeforeLock). split; [by apply Forall_replicate|]. by left.
Qed.

(** No two goroutines are between [Lock] and [Unlock] at once, under
    every schedule. *)
Lemma mutual_exclusion W n st schedule i j pc pc' :
  let sys := run W schedule (burst n st) in
  pcs sys !! i = Some pc -> pcs sys !! j = Some pc' ->
  inEstablishment pc = true -> inEstablishment pc' = true ->
  i = j.
Proof.
  intros sys Hi Hj Hpc Hpc'.
  destruct (run_mutexAgrees W schedule _ (burst_mutexAgrees n st))
    as (base & Hbase & [[_ Hp]|(_ & k & pck & _ & _ & Hp)]); fold sys in Hp.
  - rewrite Hp in Hi. rewrite (Forall_lookup_1 _ _ _ _ Hbase Hi) in Hpc. discriminate.
  - rewrite Hp in Hi, Hj.
    destruct (holder_unique base k i pck pc Hbase Hi Hpc) as (<- & _ & _).
    by destruct (holder_unique base k j pck pc' Hbase Hj Hpc') as (<- & _ & _).
Qed.

Lemma stretchTest_slow W st :
  isFresh W st = false -> Getenv W "MODEL_ID" ≠ "" ->
  stretchTest W st
  = (Ret (inr (Getenv W "MODEL_ID")),
     mkState (activeSession st) (calls st) (ticksAfterCheck st)).
Proof.
  intros Hf Hm. unfold stretchTest.
  rewrite (bind_Ret _ _ _ _ _ (sessionIsFresh_spec W st)), Hf.
  unfold getModelID. by destruct (String.eqb_spec (Getenv W "MODEL_ID") "").
Qed.

Lemma stretchTest_fresh W st :
  isFresh W st = true ->
  stretchTest W st
  = (Ret (inl nil_error),
     mkState (activeSession st) (calls st) (ticksAfterCheck st)).
Proof.
  intros Hf. unfold stretchTest.
  by rewrite (bind_Ret _ _ _ _ _ (sessionIsFresh_spec W st)), Hf.
Qed.

Lemma stretchPost_ok W modelID st resp id :
  RoundTrip W (calls st) (sessionCall modelID) = NetOk resp ->
  DecodeSession W (Body resp) = inr id -> id ≠ "" ->
  stretchPost W modelID st
  = (Ret nil_error,
     mkState (Some (mkSession id modelID (Now W (ticks st))))
             (calls st ++ [sessionCall modelID]) (S (ticks st))).
Proof.
  intros Hrt Hd Hid. unfold stretchPost, net, time_Now. run.
  fold (sessionCall modelID). rewrite Hrt, Hd. simpl.
  by destruct (String.eqb_spec id "").
Qed.

Lemma waiting_lookup n i (pc : Pc) :
  replicate n BeforeLock !! i = Some pc -> pc = BeforeLock /\ (i < n)%nat.
Proof. by intros [-> ?]%lookup_replicate. Qed.

(** A goroutine other than the holder does not move while the mutex is
    locked. *)
Lemma step_blocked W i j sys base (pc : Pc) :
  mutex sys = true -> pcs sys = <[j := pc]> base ->
  Forall waitingOrDone base -> i ≠ j ->
  step W i sys = sys.
Proof.
  intros Hm Hp Hbase Hne. unfold step. rewrite Hp.
  rewrite list_lookup_insert_ne by done.
  destruct (base !! i) as [pci|] eqn:Hi; [|done].
  destruct (Forall_lookup_1 _ _ _ _ Hbase Hi) as [-> | ->]; [by rewrite Hm|done].
Qed.

Lemma waiting_base n : Forall waitingOrDone (replicate n BeforeLock).
Proof. apply Forall_replicate. by left. Qed.

Lemma returned_le_length l : (returned l <= length l)%nat.
Proof. induction l as [|[] l IH]; cbn [returned length]; lia. Qed.

Lemma returned_waiting n : returned (replicate n BeforeLock) = O.
Proof. induction n as [|n IH]; [done|exact IH]. Qed.

Lemma returned_insert l i e :
  l !! i = Some BeforeLock ->
  returned (<[i := Returned e]> l) = S (returned l).
Proof.
  revert i. induction l as [|pc l IH]; intros [|i] Hi; try done.
  - injection Hi as ->. reflexivity.
  - cbn [lookup list_lookup] in Hi. specialize (IH i Hi).
    change (<[S i := Returned e]> (pc :: l)) with (pc :: <[i := Returned e]> l).
    destruct pc; cbn [returned]; by rewrite IH.
Qed.

Section Burst.

Variables (W : World) (st : State) (n : nat) (resp : Response) (id : string).

Hypothesis no_fresh_session : isFresh W st = false.
Hypothesis model_id_set : Getenv W "MODEL_ID" ≠ "".
Hypothesis session_issued :
  RoundTrip W (calls st ++ [HealthGet healthURL]) (sessionCall (Getenv W "MODEL_ID")) = NetOk resp.
Hypothesis session_decoded : DecodeSession W (Body resp) = inr id.
Hypothesis session_id_given : id ≠ "".
Hypothesis within_30_minutes :
  forall k, (k <= ticksAfterCheck st + n)%nat ->
            Now W k - Now W (ticksAfterCheck st) < 30 * Minute.

Lemma step_BurstCourse i sys :
  BurstCourse st n (storedSession W st id) sys -> BurstCourse st n (storedSession W st id) (step W i sys).
Proof.
  intros [|j Hj|j Hj|j Hj|base k Hbase Hlen Hk|base k j Hbase Hlen Hj Hk].
  - (* nobody has the mutex *)
    unfold step. cbn [pcs mutex mem].
    destruct (replicate n BeforeLock !! i) as [pc|] eqn:Hi; [|constructor].
    apply waiting_lookup in Hi as [-> Hi]. by constructor.
  - (* the first goroutine tests the session *)
    destruct (decide (i = j)) as [->|Hne].
    2:{ rewrite (step_blocked W i j _ (replicate n BeforeLock) Locked);
          [by constructor|done|done|apply waiting_base|done]. }
    unfold step. cbn [pcs mutex mem].
    rewrite list_lookup_insert_eq by (by rewrite length_replicate).
    rewrite (stretchTest_slow W st no_fresh_session model_id_set).
    rewrite list_insert_insert_eq. by apply (FirstBeforeHealth st n (storedSession W st id)).
  - (* it checks the health endpoint *)
    destruct (decide (i = j)) as [->|Hne].
    2:{ rewrite (step_blocked W i j _ (replicate n BeforeLock) (BeforeHealth (ModelID (storedSession W st id))));
          [by constructor|done|done|apply waiting_base|done]. }
    unfold step. cbn [pcs mutex mem].
    rewrite list_lookup_insert_eq by (by rewrite length_replicate).
    rewrite stretchHealth_run. cbn [activeSession calls ticks].
    rewrite list_insert_insert_eq. by apply (FirstBeforePost st n (storedSession W st id)).
  - (* it posts, stores the session and returns *)
    destruct (decide (i = j)) as [->|Hne].
    2:{ rewrite (step_blocked W i j _ (replicate n BeforeLock) (BeforePost (ModelID (storedSession W st id))));
          [by constructor|done|done|apply waiting_base|done]. }
    unfold step. cbn [pcs mutex mem].
    rewrite list_lookup_insert_eq by (by rewrite length_replicate).
    rewrite (stretchPost_ok W (ModelID (storedSession W st id))
               (mkState (activeSession st) (calls st ++ [HealthGet healthURL])
                        (ticksAfterCheck st))
               resp id session_issued session_decoded session_id_given).
    cbn [activeSession calls ticks]. rewrite list_insert_insert_eq, <- app_assoc.
    apply (Established st n (storedSession W st id)).
    + apply Forall_insert; [apply waiting_base|by right].
    + by rewrite length_insert, length_replicate.
    + rewrite returned_insert by (by apply lookup_replicate_2).
      rewrite returned_waiting. lia.
  - (* the session is stored and the mutex is free *)
    unfold step. cbn [pcs mutex mem].
    destruct (base !! i) as [pc|] eqn:Hi; [|by constructor].
    destruct (Forall_lookup_1 _ _ _ _ Hbase Hi) as [-> | ->]; [|by constructor].
    by apply (EstablishedLocked st n (storedSession W st id)).
  - (* a later goroutine tests the session and finds it *)
    pose proof (lookup_lt_Some _ _ _ Hj) as Hlt.
    destruct (decide (i = j)) as [->|Hne].
    2:{ rewrite (step_blocked W i j _ base Locked); [by constructor|done..]. }
    unfold step. cbn [pcs mutex mem].
    rewrite list_lookup_insert_eq by done.
    rewrite stretchTest_fresh.
    2:{ unfold isFresh. cbn [activeSession ticks LastUsed storedSession].
        apply Z.ltb_lt, within_30_minutes.
        pose proof (returned_le_length base). lia. }
    cbn [activeSession calls]. rewrite list_insert_insert_eq.
    apply (Established st n (storedSession W st id)).
    + apply Forall_insert; [done|by right].
    + by rewrite length_insert.
    + rewrite (returned_insert _ _ _ Hj). unfold ticksAfterCheck at 1.
      cbn [activeSession ticks]. lia.
Qed.

Lemma run_BurstCourse schedule sys :
  BurstCourse st n (storedSession W st id) sys -> BurstCourse st n (storedSession W st id) (run W schedule sys).
Proof.
  revert sys. induction schedule as [|i schedule IH]; intros sys H; [done|].
  apply IH, step_BurstCourse, H.
Qed.

Lemma BurstCourse_posts sys :
  BurstCourse st n (storedSession W st id) sys ->
  (sessionPosts (issued st (mem sys)) <= 1)%nat /\
  forall i e, pcs sys !! i = Some (Returned e) ->
    e = nil_error /\
    sessionPosts (issued st (mem sys)) = 1%nat /\
    activeSession (mem sys) = Some (storedSession W st id).
Proof.
  assert (Hnone : forall j pc i e,
    pc ≠ Returned e ->
    (<[j := pc]> (replicate n BeforeLock)) !! i = Some (Returned e) -> False).
  { intros j pc i e Hpc. rewrite list_lookup_insert. case_decide.
    - by intros [= ->].
    - by intros [? _]%waiting_lookup. }
  intros [|j Hj|j Hj|j Hj|base k Hbase Hlen _|base k j Hbase Hlen _ _]; cbn [mem pcs].
  - rewrite (issued_same st st eq_refl). split; [cbn; lia|].
    by intros i e [? _]%waiting_lookup.
  - rewrite (issued_same st st eq_refl). split; [cbn; lia|].
    intros i e Hi. by destruct (Hnone j Locked i e).
  - rewrite (issued_same st (mkState (activeSession st) (calls st) (ticksAfterCheck st))
               eq_refl).
    split; [cbn; lia|].
    intros i e Hi. by destruct (Hnone j (BeforeHealth (ModelID (storedSession W st id))) i e).
  - rewrite (issued_app st (mkState (activeSession st)
                              (calls st ++ [HealthGet healthURL]) (ticksAfterCheck st))
               _ eq_refl).
    split; [cbn; lia|].
    intros i e Hi. by destruct (Hnone j (BeforePost (ModelID (storedSession W st id))) i e).
  - rewrite (issued_app st (mkState (Some (storedSession W st id))
                 (calls st ++ [HealthGet healthURL; sessionCall (ModelID (storedSession W st id))]) k)
               _ eq_refl).
    split; [cbn; lia|].
    intros i e Hi.
    destruct (Forall_lookup_1 _ _ _ _ Hbase Hi) as [? | [= ->]]; done.
  - rewrite (issued_app st (mkState (Some (storedSession W st id))
                 (calls st ++ [HealthGet healthURL; sessionCall (ModelID (storedSession W st id))]) k)
               _ eq_refl).
    split; [cbn; lia|].
    intros i e. rewrite list_lookup_insert. case_decide; [done|].
    intros Hi. destruct (Forall_lookup_1 _ _ _ _ Hbase Hi) as [? | [= ->]]; done.
Qed.

End Burst.

(** C9, amended. Session establishment is mutually exclusive across
    concurrent requests: under every schedule no two goroutines are
    between [Lock] and [Unlock] of [ensureSession] at once, network
    calls included.  For [n] concurrent requests that arrive when the
    stored session is absent or older than 30 minutes, if the
    session-creation call is answered with a response that decodes to a
    non-empty session id, and the requests take the session step within
    30 minutes of it, then at most one session-creation call is issued,
    and once any request has returned exactly one has been issued: every
    request that returns does so with [nil], the freshly stored session
    in place. *)
Theorem C9_burst_establishes_once (W : World) (st : State) (n : nat)
    (schedule : list nat) (resp : Response) (id : string) :
  isFresh W st = false ->
  Getenv W "MODEL_ID" ≠ "" ->
  RoundTrip W (calls st ++ [HealthGet healthURL])
            (sessionCall (Getenv W "MODEL_ID")) = NetOk resp ->
  DecodeSession W (Body resp) = inr id -> id ≠ "" ->
  (forall k, (k <= ticksAfterCheck st + n)%nat ->
             Now W k - Now W (ticksAfterCheck st) < 30 * Minute) ->
  let sys := run W schedule (burst n st) in
  (forall i j pc pc',
     pcs sys !! i = Some pc -> pcs sys !! j = Some pc' ->
     inEstablishment pc = true -> inEstablishment pc' = true -> i = j) /\
  (sessionPosts (issued st (mem sys)) <= 1)%nat /\
  (forall i e,
     pcs sys !! i = Some (Returned e) ->
     e = nil_error /\
     sessionPosts (issued st (mem sys)) = 1%nat /\
     activeSession (mem sys)
       = Some (mkSession id (Getenv W "MODEL_ID") (Now W (ticksAfterCheck st)))).
Proof.
  intros Hf Hm Hrt Hd Hid Hclock sys. split.
  - intros i j pc pc'. apply (mutual_exclusion W n st schedule).
  - apply (BurstCourse_posts W st n id).
    apply (run_BurstCourse W st n resp id Hf Hm Hrt Hd Hid Hclock).
    constructor.
Qed.

Lemma C9_burst_establishes_once_witness :
  let W := sampleWorld backendHealthy in
  let sys := run W [2; 0; 1; 2; 2; 0; 2; 1; 1; 0; 0]%nat (burst 3 initialState) in
  pcs sys = [Returned nil_error; Returned nil_error; Returned nil_error] /\
  issued initialState (mem sys) = [HealthGet healthURL; sessionCall "model-1"] /\
  (forall i j pc pc',
     pcs sys !! i = Some pc -> pcs sys !! j = Some pc' ->
     inEstablishment pc = true -> inEstablishment pc' = true -> i = j) /\
  (sessionPosts (issued initialState (mem sys)) <= 1)%nat /\
  (forall i e,
     pcs sys !! i = Some (Returned e) ->
     e = nil_error /\
     sessionPosts (issued initialState (mem sys)) = 1%nat /\
     activeSession (mem sys) = Some (mkSession "abc" "model-1" 0)).
Proof.
  split; [vm_compute; reflexivity|]. split; [vm_compute; reflexivity|].
  apply (C9_burst_establishes_once (sampleWorld backendHealthy) initialState 3
           [2; 0; 1; 2; 2; 0; 2; 1; 1; 0; 0]%nat
           (okResponse 200 (sessionDoc "abc")) "abc").
  - reflexivity.
  - intros H. vm_compute in H. discriminate H.
  - reflexivity.
  - vm_compute. reflexivity.
  - discriminate.
  - intros k Hk. cbn [ticksAfterCheck initialState activeSession ticks] in *.
    cbn [Now sampleWorld]. unfold sampleNow, Minute, Second. lia.
Defined.

(** The claim C9 as it is written fails when the establishment fails:
    with a backend that cannot be reached, two requests that arrive
    together take the mutex in turn and each issues its own
    session-creation call. *)
Lemma C9_failed_establishment_is_repeated :
  let W := sampleWorld backendDown in
  let sys := run W [0; 1; 0; 0; 0; 1; 1; 1; 1]%nat (burst 2 initialState) in
  isFresh W initialState = false /\
  pcs sys = [Returned (Some "failed to establish session: connection refused");
             Returned (Some "failed to establish session: connection refused")] /\
  issued initialState (mem sys)
    = [HealthGet healthURL; sessionCall "model-1";
       HealthGet healthURL; sessionCall "model-1"] /\
  sessionPosts (issued initialState (mem sys)) = 2%nat.
Proof. vm_compute. repeat split; reflexivity. Qed.

(** * Further properties of the code *)

(** ** The life of a session *)

(** A session that is 30 minutes old or older, to the nanosecond, is
    replaced: [ensureSession] checks the health endpoint, posts, stores
    the session the endpoint issues under the configured model id with
    the time of the store, and returns [nil]. *)
Theorem expired_session_is_replaced (W : World) (st : State) (s : MorpheusSession)
    (resp : Response) (id : string) :
  activeSession st = Some s ->
  30 * Minute <= Now W (ticks st) - LastUsed s ->
  Getenv W "MODEL_ID" ≠ "" ->
  RoundTrip W (calls st ++ [HealthGet healthURL])
            (sessionCall (Getenv W "MODEL_ID")) = NetOk resp ->
  DecodeSession W (Body resp) = inr id -> id ≠ "" ->
  exists st',
    ensureSession W st = (Ret nil_error, st') /\
    calls st' = (calls st ++ [HealthGet healthURL;
                              sessionCall (Getenv W "MODEL_ID")])%list /\
    activeSession st'
      = Some (mkSession id (Getenv W "MODEL_ID") (Now W (S (ticks st)))).
Proof.
  intros Hs Hold Hm Hrt Hd Hid.
  assert (Hf : isFresh W st = false).
  { unfold isFresh. rewrite Hs. apply Z.ltb_ge. lia. }
  pose proof (ensureSession_slow W st Hf Hm) as Hrun.
  cbv zeta in Hrun. rewrite Hrt, Hd in Hrun.
  destruct (String.eqb_spec id "") as [E|_]; [done|].
  eexists. split; [exact Hrun|]. cbn [calls activeSession].
  split; [by rewrite <- app_assoc|].
  unfold ticksAfterCheck. by rewrite Hs.
Qed.

Lemma expired_session_is_replaced_witness :
  exists st',
    ensureSession (sampleWorld backendHealthy) expiredState = (Ret nil_error, st') /\
    calls st' = [HealthGet healthURL; sessionCall "model-1"] /\
    activeSession st' = Some (mkSession "abc" "model-1" (1801 * Second)).
Proof.
  apply (expired_session_is_replaced (sampleWorld backendHealthy) expiredState
           (mkSession "abc" "model-1" 0) (okResponse 200 (sessionDoc "abc")) "abc").
  - reflexivity.
  - vm_compute. discriminate.
  - intros H. vm_compute in H. discriminate H.
  - reflexivity.
  - vm_compute. reflexivity.
  - discriminate.
Defined.

(** An establishment that fails, by a transport error or by a response
    that does not decode, returns the error and leaves [activeSession] as
    it was; nothing records the failure, so a process without a session
    finds none at the next call either. *)
Theorem failed_establishment_keeps_session (W : World) (st : State) :
  isFresh W st = false ->
  Getenv W "MODEL_ID" ≠ "" ->
  match RoundTrip W (calls st ++ [HealthGet healthURL])
                  (sessionCall (Getenv W "MODEL_ID")) with
  | NetError _ => True
  | NetOk resp => exists e, DecodeSession W (Body resp) = inl e
  end ->
  exists e st',
    ensureSession W st = (Ret (Some e), st') /\
    activeSession st' = activeSession st /\
    calls st' = (calls st ++ [HealthGet healthURL;
                              sessionCall (Getenv W "MODEL_ID")])%list /\
    (activeSession st = None -> isFresh W st' = false).
Proof.
  intros Hf Hm Hfail.
  pose proof (ensureSession_slow W st Hf Hm) as Hrun. cbv zeta in Hrun.
  destruct (RoundTrip W _ _) as [err|resp].
  - eexists _, _. split; [exact Hrun|]. cbn [activeSession calls].
    split; [done|]. split; [by rewrite <- app_assoc|].
    intros Hnone. unfold isFresh. cbn [activeSession]. by rewrite Hnone.
  - destruct Hfail as [e He]. rewrite He in Hrun.
    eexists _, _. split; [exact Hrun|]. cbn [activeSession calls].
    split; [done|]. split; [by rewrite <- app_assoc|].
    intros Hnone. unfold isFresh. cbn [activeSession]. by rewrite Hnone.
Qed.

Lemma failed_establishment_keeps_session_witness :
  exists e st',
    ensureSession (sampleWorld backendDown) expiredState = (Ret (Some e), st') /\
    activeSession st' = Some (mkSession "abc" "model-1" 0) /\
    calls st' = [HealthGet healthURL; sessionCall "model-1"].
Proof.
  destruct (failed_establishment_keeps_session (sampleWorld backendDown) expiredState)
    as (e & st' & Hrun & Hs & Hc & _).
  - vm_compute. reflexivity.
  - intros H. vm_compute in H. discriminate H.
  - exact I.
  - exists e, st'. split; [exact Hrun|]. split; [exact Hs|exact Hc].
Defined.

(** Without a fresh session and with [MODEL_ID] unset, [ensureSession]
    ends the process through [log.Fatal] before any call to the backend,
    and so does the handler: no response is written. *)
Theorem missing_model_id_ends_the_process (W : World) (st : State)
    (w : ResponseWriter) (r : Request) :
  isFresh W st = false ->
  Getenv W "MODEL_ID" = "" ->
  exists st',
    ensureSession W st = (Fatal "MODEL_ID environment variable must be set", st') /\
    calls st' = calls st /\ activeSession st' = activeSession st /\
    (ReqBodyErr r = None ->
     ProxyChatCompletion W w r st
       = (Fatal "MODEL_ID environment variable must be set", st')).
Proof.
  intros Hf Hm.
  assert (Hrun : ensureSession W st
    = (Fatal "MODEL_ID environment variable must be set",
       mkState (activeSession st) (calls st) (ticksAfterCheck st))).
  { unfold ensureSession.
    rewrite (bind_Ret _ _ _ _ _ (sessionIsFresh_spec W st)), Hf.
    unfold getModelID. rewrite Hm. reflexivity. }
  eexists. split; [exact Hrun|]. split; [done|]. split; [done|].
  intros Hr. unfold ProxyChatCompletion. rewrite Hr.
  unfold mbind at 1, M_bind, bind. by rewrite Hrun.
Qed.

Lemma missing_model_id_ends_the_process_witness :
  exists st',
    ensureSession (mkWorld (fun _ => "") sampleNow backendHealthy sampleDecodePayload
                     sampleDecodeSession sampleMarshal (fun _ => None)) initialState
      = (Fatal "MODEL_ID environment variable must be set", st') /\
    calls st' = [].
Proof.
  destruct (missing_model_id_ends_the_process
              (mkWorld (fun _ => "") sampleNow backendHealthy sampleDecodePayload
                 sampleDecodeSession sampleMarshal (fun _ => None))
              initialState (newResponseWriter true) (chatRequest "{}")
              eq_refl eq_refl)
    as (st' & Hrun & Hc & _).
  exists st'. split; [exact Hrun|exact Hc].
Defined.

(** [ensureSession] reads nothing of the session response but the bytes
    of its body: two answers of the session endpoint with the same body
    bytes, whatever their status codes, headers and read errors, lead to
    the same result and the same state. *)
Theorem session_response_status_is_ignored (W : World) (st : State)
    (resp1 resp2 : Response) :
  Body resp1 = Body resp2 ->
  ensureSession (withSessionAnswer W (NetOk resp1)) st
  = ensureSession (withSessionAnswer W (NetOk resp2)) st.
Proof.
  intros Hb.
  destruct (isFresh W st) eqn:Hf.
  { rewrite (ensureSession_fresh (withSessionAnswer W (NetOk resp1)) st Hf).
    by rewrite (ensureSession_fresh (withSessionAnswer W (NetOk resp2)) st Hf). }
  destruct (String.eqb_spec (Getenv W "MODEL_ID") "") as [E|E].
  { unfold ensureSession.
    rewrite (bind_Ret _ _ _ _ _ (sessionIsFresh_spec (withSessionAnswer W (NetOk resp1)) st)).
    rewrite (bind_Ret _ _ _ _ _ (sessionIsFresh_spec (withSessionAnswer W (NetOk resp2)) st)).
    change (isFresh (withSessionAnswer W (NetOk resp1)) st) with (isFresh W st).
    change (isFresh (withSessionAnswer W (NetOk resp2)) st) with (isFresh W st).
    rewrite Hf. unfold getModelID. cbn [Getenv withSessionAnswer]. by rewrite E. }
  rewrite (ensureSession_slow (withSessionAnswer W (NetOk resp1)) st Hf E).
  rewrite (ensureSession_slow (withSessionAnswer W (NetOk resp2)) st Hf E).
  cbn [RoundTrip withSessionAnswer sessionCall DecodeSession Getenv Now].
  by rewrite Hb.
Qed.

Lemma session_response_status_is_ignored_witness :
  ensureSession (withSessionAnswer (sampleWorld backendDown)
                   (NetOk (okResponse 500 (sessionDoc "abc")))) initialState
  = ensureSession (withSessionAnswer (sampleWorld backendDown)
                     (NetOk (mkResponse 200 ∅ (sessionDoc "abc") (Some "unexpected EOF")
                                        false)))
                  initialState.
Proof.
  apply (session_response_status_is_ignored (sampleWorld backendDown) initialState).
  reflexivity.
Defined.

(** ** The handler, phase by phase *)

Lemma ensureSession_outcome W st o st' :
  ensureSession W st = (o, st') ->
  (exists e, o = Ret e) \/
  (o = Fatal "MODEL_ID environment variable must be set" /\ Getenv W "MODEL_ID" = "").
Proof.
  destruct (isFresh W st) eqn:Hf.
  { rewrite (ensureSession_fresh W st Hf). intros [= <- <-]. left. by eexists. }
  destruct (String.eqb_spec (Getenv W "MODEL_ID") "") as [E|E].
  { unfold ensureSession.
    rewrite (bind_Ret _ _ _ _ _ (sessionIsFresh_spec W st)), Hf.
    unfold getModelID. rewrite E. intros [= <- <-]. by right. }
  rewrite (ensureSession_slow W st Hf E).
  destruct (RoundTrip W _ _) as [e|resp]; [intros [= <- <-]; left; by eexists|].
  destruct (DecodeSession W (Body resp)); intros [= <- <-]; left; by eexists.
Qed.

(** After [ensureSession] has returned [nil] there is a session. *)
Lemma ensureSession_nil_has_session W st st' :
  ensureSession W st = (Ret nil_error, st') ->
  exists s, activeSession st' = Some s.
Proof.
  destruct (isFresh W st) eqn:Hf.
  { rewrite (ensureSession_fresh W st Hf). intros [= <-]. cbn [activeSession].
    unfold isFresh in Hf. destruct (activeSession st); [by eexists|done]. }
  destruct (String.eqb_spec (Getenv W "MODEL_ID") "") as [E|E].
  { intros H. destruct (ensureSession_outcome W st _ _ H) as [_|[? _]]; [|done].
    revert H. unfold ensureSession.
    rewrite (bind_Ret _ _ _ _ _ (sessionIsFresh_spec W st)), Hf.
    unfold getModelID. by rewrite E. }
  rewrite (ensureSession_slow W st Hf E).
  destruct (RoundTrip W _ _) as [e|resp]; [done|].
  destruct (DecodeSession W (Body resp)) as [e|id]; [done|].
  intros [= _ <-]. by eexists.
Qed.

Lemma forwardRequest_returns W requestBody st :
  exists res st', forwardRequest W requestBody st = (Ret res, st').
Proof.
  unfold forwardRequest, net. run.
  destruct (String.eqb _ ""); [by eexists _, _|].
  destruct (RoundTrip W (calls st) _) as [e0|probe]; [by eexists _, _|].
  destruct (Marshal W requestBody) as [e1|bytes]; [by eexists _, _|].
  destruct (NewRequestErr W _) as [e2|]; [by eexists _, _|]. simpl.
  destruct (activeSession st) as [ses|]; [|by eexists _, _].
  destruct (String.eqb (SessionID ses) ""); [by eexists _, _|]. simpl.
  destruct (RoundTrip W _ _) as [e3|backend]; [by eexists _, _|].
  destruct (StatusCode backend =? 200); by eexists _, _.
Qed.

(** [copyHeaders] sends nothing. *)
Lemma copyHeaders_Sent w headers : Sent (copyHeaders w headers) = Sent w.
Proof.
  unfold copyHeaders.
  apply (map_fold_weak_ind (fun r (m : Header) => Sent r = Sent w)); [done|].
  intros key values m r _ IH. rewrite <- IH. clear IH.
  revert r. induction values as [|v values IHv]; intros r; [done|].
  cbn [foldl]. by rewrite IHv.
Qed.

(** The buffered relay panics when the backend's status code is none
    that [WriteHeader] accepts. *)
Lemma handleNonStreamingRequest_panics W w requestBody st resp st' :
  forwardRequest W requestBody st = (Ret (NetOk resp), st') ->
  Sent w = None -> checkWriteHeaderCode (StatusCode resp) = false ->
  handleNonStreamingRequest W w requestBody st
  = (Panic ("invalid WriteHeader code " ++ itoa (StatusCode resp)), st').
Proof.
  intros Hf Hs Hc. unfold handleNonStreamingRequest.
  rewrite (bind_Ret _ _ _ _ _ Hf). cbv zeta.
  unfold mbind, M_bind, bind.
  by rewrite (w_WriteHeader_invalid _ _ st'
                ltac:(by rewrite copyHeaders_Sent) Hc).
Qed.

(** It returns in every other case. *)
Lemma handleNonStreamingRequest_outcome W w requestBody st :
  (exists w' st', handleNonStreamingRequest W w requestBody st = (Ret w', st')) \/
  (exists resp st',
     forwardRequest W requestBody st = (Ret (NetOk resp), st') /\
     Sent w = None /\ checkWriteHeaderCode (StatusCode resp) = false /\
     handleNonStreamingRequest W w requestBody st
     = (Panic ("invalid WriteHeader code " ++ itoa (StatusCode resp)), st')).
Proof.
  destruct (forwardRequest_returns W requestBody st) as (res & st' & Hf).
  destruct res as [e|resp].
  { left. unfold handleNonStreamingRequest. rewrite (bind_Ret _ _ _ _ _ Hf).
    by eexists _, _. }
  destruct (w_WriteHeader_outcome (copyHeaders w (RespHeader resp))
              (StatusCode resp) st') as [[w' Hw]|(Hs & Hc & _)].
  - left. unfold handleNonStreamingRequest. rewrite (bind_Ret _ _ _ _ _ Hf).
    cbv zeta. rewrite (bind_Ret _ _ _ _ _ Hw). by eexists _, _.
  - right. rewrite copyHeaders_Sent in Hs. exists resp, st'.
    split; [exact Hf|]. split; [exact Hs|]. split; [exact Hc|].
    by apply handleNonStreamingRequest_panics.
Qed.

(** Which relay the [stream] entry of the decoded body selects. *)
Lemma stream_flag (m : Payload) (v : JValue) :
  match <["model" := v]> m !! "stream" with
  | Some (JBool b) => b
  | _ => false
  end = true <-> m !! "stream" = Some (JBool true).
Proof.
  rewrite lookup_insert_ne by done.
  destruct (m !! "stream") as [[| [|] | | | |]|]; split; congruence.
Qed.

Lemma handleStreamingRequest_returns W w requestBody st :
  exists w' st', handleStreamingRequest W w requestBody st = (Ret w', st').
Proof.
  destruct (forwardRequest_returns W requestBody st) as (res & st' & Hf).
  unfold handleStreamingRequest. rewrite (bind_Ret _ _ _ _ _ Hf).
  destruct res as [e|resp]; [by eexists _, _|]. cbv zeta.
  destruct (negb _); [by eexists _, _|].
  destruct (Scanner resp) as [lines [e|]]; by eexists _, _.
Qed.

(** The handler on its way to the backend: with the body read, the
    session ensured, the body decoded into a map and [MODEL_ID] set, it
    relays the payload in the mode the [stream] entry selects. *)
Lemma ProxyChatCompletion_forwarding W w r st st1 m :
  ReqBodyErr r = None ->
  ensureSession W st = (Ret nil_error, st1) ->
  DecodePayload W (ReqBody r) = inr (Some m) ->
  Getenv W "MODEL_ID" ≠ "" ->
  exists s,
    activeSession st1 = Some s /\
    ProxyChatCompletion W w r st =
    (let requestBody := <["model" := JString (Getenv W "MODEL_ID")]> m in
     let r' := mkRequest (Header_Set (ReqHeader r) "session_id" (SessionID s))
                         (ReqBody r) (ReqBodyErr r) in
     (w' ← (if match requestBody !! "stream" with
               | Some (JBool b) => b
               | _ => false
               end
            then handleStreamingRequest W w requestBody
            else handleNonStreamingRequest W w requestBody);
      mret (w', r')) st1).
Proof.
  intros Hr He Hd Hm.
  destruct (ensureSession_nil_has_session W st st1 He) as [s Hs].
  exists s. split; [exact Hs|].
  unfold ProxyChatCompletion. rewrite Hr.
  unfold mbind at 1, M_bind, bind. rewrite He, Hd.
  destruct (String.eqb_spec (Getenv W "MODEL_ID") "") as [E|_]; [done|].
  unfold mbind at 1, M_bind, bind, get_session. by rewrite Hs.
Qed.

(** The [stream] entry selects the relay mode, and only the boolean
    [true] selects streaming: a payload without the entry, or with any
    other value under it (the string ["true"], a number, [false]), is
    relayed in buffered mode.  The [model] entry the handler writes has
    no part in the choice. *)
Theorem stream_entry_selects_the_mode (W : World) (w : ResponseWriter) (r : Request)
    (st st1 : State) (m : Payload) :
  ReqBodyErr r = None ->
  ensureSession W st = (Ret nil_error, st1) ->
  DecodePayload W (ReqBody r) = inr (Some m) ->
  Getenv W "MODEL_ID" ≠ "" ->
  let requestBody := <["model" := JString (Getenv W "MODEL_ID")]> m in
  exists r',
    (m !! "stream" = Some (JBool true) ->
     ProxyChatCompletion W w r st
     = (w' ← handleStreamingRequest W w requestBody; mret (w', r')) st1) /\
    (m !! "stream" ≠ Some (JBool true) ->
     ProxyChatCompletion W w r st
     = (w' ← handleNonStreamingRequest W w requestBody; mret (w', r')) st1).
Proof.
  intros Hr He Hd Hm requestBody.
  destruct (ProxyChatCompletion_forwarding W w r st st1 m Hr He Hd Hm) as (s & Hs & ->).
  eexists. cbv zeta. fold requestBody.
  assert (Hl : requestBody !! "stream" = m !! "stream").
  { unfold requestBody. by rewrite lookup_insert_ne. }
  rewrite Hl. split.
  - intros ->. reflexivity.
  - intros Hne. destruct (m !! "stream") as [[| [|] | | | |]|]; try reflexivity. done.
Qed.

Lemma stream_entry_selects_the_mode_witness :
  exists r',
    ProxyChatCompletion (sampleWorld backendHealthy) (newResponseWriter true)
      (chatRequest (chatDoc None false)) establishedState
    = (w' ← handleNonStreamingRequest (sampleWorld backendHealthy) (newResponseWriter true)
              (<["model" := JString "model-1"]> (chatPayload None false));
       mret (w', r')) (mkState (activeSession establishedState) [] 2).
Proof.
  destruct (stream_entry_selects_the_mode (sampleWorld backendHealthy)
              (newResponseWriter true) (chatRequest (chatDoc None false))
              establishedState (mkState (activeSession establishedState) [] 2)
              (chatPayload None false))
    as (r' & _ & Hbuf).
  - reflexivity.
  - reflexivity.
  - reflexivity.
  - intros H. vm_compute in H. discriminate H.
  - exists r'. apply Hbuf. vm_compute. discriminate.
Defined.

(** The handler panics in two cases only.  The body is the document
    [null], which decodes without error into the [nil] map, and the
    assignment of [model] then fails.  Or, in buffered mode, the backend
    answers the chat POST with a status code below 100 or above 999,
    which [WriteHeader] refuses: the response is not relayed.  The
    session read after [ensureSession] is never the [nil] pointer, and
    the streaming relay, which sends no status of the backend, does not
    panic. *)
Theorem handler_panics_in_two_cases (W : World) (w : ResponseWriter) (r : Request)
    (st : State) (msg : string) :
  fst (ProxyChatCompletion W w r st) = Panic msg <->
  (ReqBodyErr r = None /\
   Getenv W "MODEL_ID" ≠ "" /\
   exists st1,
     ensureSession W st = (Ret nil_error, st1) /\
     ((DecodePayload W (ReqBody r) = inr None /\
       msg = "assignment to entry in nil map") \/
      (exists m resp st2,
         DecodePayload W (ReqBody r) = inr (Some m) /\
         m !! "stream" ≠ Some (JBool true) /\
         forwardRequest W (<["model" := JString (Getenv W "MODEL_ID")]> m) st1
           = (Ret (NetOk resp), st2) /\
         Sent w = None /\
         (StatusCode resp < 100 \/ 999 < StatusCode resp) /\
         msg = "invalid WriteHeader code " ++ itoa (StatusCode resp)))).
Proof.
  assert (Hcheck : forall code,
             checkWriteHeaderCode code = false <-> (code < 100 \/ 999 < code)).
  { intros code. unfold checkWriteHeaderCode.
    destruct (Z.leb_spec 100 code) as [Hlo|Hlo],
             (Z.leb_spec code 999) as [Hhi|Hhi]; cbn [andb];
      split; intros Hx; try done; lia. }
  split.
  - unfold ProxyChatCompletion.
    destruct (ReqBodyErr r) as [e|] eqn:Hr; [done|].
    unfold mbind at 1, M_bind, bind.
    destruct (ensureSession W st) as [o1 st1] eqn:He.
    destruct (ensureSession_outcome W st o1 st1 He) as [[e ->]|[-> _]]; [|done].
    destruct e as [e|]; [done|].
    destruct (DecodePayload W (ReqBody r)) as [e|[m|]] eqn:Hd; [done| |].
    + destruct (ensureSession_nil_has_session W st st1 He) as [s Hs].
      destruct (String.eqb_spec (Getenv W "MODEL_ID") "") as [E|E]; [done|].
      unfold mbind at 1, M_bind, bind, get_session. rewrite Hs.
      set (rb := <["model" := JString (Getenv W "MODEL_ID")]> m).
      destruct (match rb !! "stream" with Some (JBool b) => b | _ => false end)
        eqn:Hflag.
      * destruct (handleStreamingRequest_returns W w rb st1) as (w' & st' & Hh).
        by rewrite (bind_Ret _ _ _ _ _ Hh).
      * destruct (handleNonStreamingRequest_outcome W w rb st1)
          as [(w' & st' & Hh)|(resp & st' & Hf & Hsent & Hc & Hh)].
        { by rewrite (bind_Ret _ _ _ _ _ Hh). }
        unfold mbind, M_bind, bind. rewrite Hh. cbn [fst]. intros [= <-].
        split; [done|]. split; [done|]. exists st1. split; [done|]. right.
        exists m, resp, st'. split; [done|]. split.
        { intros Hstream. apply (stream_flag m (JString (Getenv W "MODEL_ID"))) in Hstream.
          fold rb in Hstream. congruence. }
        split; [exact Hf|]. split; [exact Hsent|]. split; [by apply Hcheck|done].
    + destruct (String.eqb_spec (Getenv W "MODEL_ID") "") as [E|E]; [done|].
      intros [= <-]. split; [done|]. split; [done|]. exists st1. split; [done|].
      by left.
  - intros (Hr & Hm & st1 & He & [[Hd ->]|(m & resp & st2 & Hd & Hstream & Hf & Hsent & Hcode & ->)]).
    + unfold ProxyChatCompletion. rewrite Hr.
      unfold mbind at 1, M_bind, bind. rewrite He, Hd.
      by destruct (String.eqb_spec (Getenv W "MODEL_ID") "").
    + destruct (ProxyChatCompletion_forwarding W w r st st1 m Hr He Hd Hm)
        as (s & Hs & ->).
      cbv zeta.
      set (rb := <["model" := JString (Getenv W "MODEL_ID")]> m) in *.
      destruct (match rb !! "stream" with Some (JBool b) => b | _ => false end)
        eqn:Hflag.
      { apply (stream_flag m (JString (Getenv W "MODEL_ID"))) in Hflag. done. }
      unfold mbind, M_bind, bind.
      by rewrite (handleNonStreamingRequest_panics W w rb st1 resp st2 Hf Hsent
                    (proj2 (Hcheck _) Hcode)).
Qed.

Lemma handler_panics_in_two_cases_witness :
  fst (ProxyChatCompletion (sampleWorld (backendAnswering 99 "oops" None))
         (newResponseWriter true) (chatRequest (chatDoc None false)) establishedState)
  = Panic "invalid WriteHeader code 99".
Proof.
  pose (W := sampleWorld (backendAnswering 99 "oops" None)).
  pose (rb := <["model" := JString "model-1"]> (chatPayload None false)).
  apply (handler_panics_in_two_cases W (newResponseWriter true)
           (chatRequest (chatDoc None false)) establishedState).
  split; [reflexivity|]. split; [intros H; vm_compute in H; discriminate H|].
  exists (mkState (activeSession establishedState) [] 2).
  split; [vm_compute; reflexivity|]. right.
  exists (chatPayload None false),
         (mkResponse 99 {["Content-Type" := ["text/event-stream"]]} "oops" None false),
         (snd (forwardRequest W rb (mkState (activeSession establishedState) [] 2))).
  split; [reflexivity|]. split; [vm_compute; discriminate|].
  split; [vm_compute; reflexivity|]. split; [reflexivity|].
  split; [left; cbn [StatusCode]; lia|reflexivity].
Defined.

(** A failed session step is reported to the client as status 500 with
    the fixed body [{"error":"Failed to establish session"}], whatever
    the underlying error and whatever the request body holds; the state
    is the one [ensureSession] left and no forward call is made. *)
Theorem session_failure_is_a_generic_500 (W : World) (w : ResponseWriter)
    (r : Request) (st st1 : State) (e : string) :
  ReqBodyErr r = None ->
  ensureSession W st = (Ret (Some e), st1) ->
  Sent w = None -> Out w = [] ->
  exists w',
    ProxyChatCompletion W w r st = (Ret (w', r), st1) /\
    status w' = Some 500 /\
    written (Out w') = encodeError "Failed to establish session" /\
    (forall c, c ∈ issued st st1 -> isForwardCall c = false).
Proof.
  intros Hr He Hs Ho.
  exists (respondWithError w 500 "Failed to establish session").
  split; [|split; [|split]].
  - unfold ProxyChatCompletion. rewrite Hr.
    unfold mbind at 1, M_bind, bind. by rewrite He.
  - by apply respondWithError_status.
  - by apply respondWithError_written.
  - intros c. exact (ensureSession_no_forward_call W st _ st1 c He).
Qed.

Lemma session_failure_is_a_generic_500_witness :
  exists w' st1,
    ProxyChatCompletion (sampleWorld backendDown) (newResponseWriter true)
      (chatRequest (chatDoc None false)) initialState
      = (Ret (w', chatRequest (chatDoc None false)), st1) /\
    status w' = Some 500 /\
    written (Out w') = encodeError "Failed to establish session".
Proof.
  destruct (session_failure_is_a_generic_500 (sampleWorld backendDown)
              (newResponseWriter true) (chatRequest (chatDoc None false))
              initialState
              (mkState None [HealthGet healthURL; sessionCall "model-1"] 0)
              "failed to establish session: connection refused")
    as (w' & Hrun & Hst & Hw & _).
  - reflexivity.
  - vm_compute. reflexivity.
  - reflexivity.
  - reflexivity.
  - exists w'. eexists. split; [exact Hrun|]. split; [exact Hst|exact Hw].
Defined.

(** What a request can have done by the time the handler is left: the
    session step, or nothing of it, then the forward step, or a part of
    it. *)
Lemma ProxyChatCompletion_phases W w r st o st' :
  ProxyChatCompletion W w r st = (o, st') ->
  st' = st \/
  exists o1 st1,
    ensureSession W st = (o1, st1) /\
    (st' = st1 \/ exists requestBody o2, forwardRequest W requestBody st1 = (o2, st')).
Proof.
  unfold ProxyChatCompletion.
  destruct (ReqBodyErr r) as [e|]; [intros [= <- <-]; by left|].
  unfold mbind at 1, M_bind, bind.
  destruct (ensureSession W st) as [o1 st1] eqn:He.
  intros Hrun. right. exists o1, st1. split; [done|]. revert Hrun.
  destruct o1 as [[e|]|msg|msg]; try (intros [= <- <-]; by left).
  destruct (DecodePayload W (ReqBody r)) as [e|[m|]];
    try (intros [= <- <-]; by left).
  - destruct (String.eqb (Getenv W "MODEL_ID") ""); [intros [= <- <-]; by left|].
    unfold mbind at 1, M_bind, bind, get_session.
    destruct (activeSession st1) as [s|]; [|intros [= <- <-]; by left].
    set (rb := <["model" := JString (Getenv W "MODEL_ID")]> m).
    intros Hrun. right. exists rb.
    destruct (match rb !! "stream" with Some (JBool b) => b | _ => false end).
    + unfold mbind, M_bind, bind in Hrun.
      destruct (handleStreamingRequest W w rb st1) as [o3 st3] eqn:H3.
      destruct (handleStreamingRequest_state _ _ _ _ _ _ H3) as [o2 H2]. exists o2.
      rewrite H2. f_equal. destruct o3; by injection Hrun.
    + unfold mbind, M_bind, bind in Hrun.
      destruct (handleNonStreamingRequest W w rb st1) as [o3 st3] eqn:H3.
      destruct (handleNonStreamingRequest_state _ _ _ _ _ _ H3) as [o2 H2]. exists o2.
      rewrite H2. f_equal. destruct o3; by injection Hrun.
  - destruct (String.eqb (Getenv W "MODEL_ID") ""); intros [= <- <-]; by left.
Qed.

(** One request costs the backend at most four calls, in this order and
    each at most once: the health check and the session POST together,
    or neither, then the reachability probe, then the chat POST.
    Nothing is retried. *)
Theorem handler_calls_in_order (W : World) (w : ResponseWriter) (r : Request)
    (st : State) :
  exists sessionCalls forwardCalls : list NetCall,
    issued st (snd (ProxyChatCompletion W w r st))
      = (sessionCalls ++ forwardCalls)%list /\
    (sessionCalls = [] \/
     sessionCalls = [HealthGet healthURL; sessionCall (Getenv W "MODEL_ID")]) /\
    (forwardCalls = [] \/ forwardCalls = [probeCall W] \/
     exists s bytes, forwardCalls = [probeCall W; chatCall W s bytes]).
Proof.
  destruct (ProxyChatCompletion W w r st) as [o st'] eqn:Hrun. cbn [snd].
  apply ProxyChatCompletion_phases in Hrun
    as [->|(o1 & st1 & He & [->|(rb & o2 & Hf)])].
  - exists [], []. rewrite (issued_same st st eq_refl). auto.
  - apply ensureSession_trace in He as [E|E].
    + exists [], []. rewrite (issued_same _ _ E). auto.
    + eexists _, []. rewrite app_nil_r, (issued_app _ _ _ E). auto.
  - apply ensureSession_trace in He as He'.
    apply forwardRequest_trace in Hf as [_ Hf'].
    assert (Hcases : exists a b,
      calls st1 = (calls st ++ a)%list /\ calls st' = (calls st1 ++ b)%list /\
      (a = [] \/ a = [HealthGet healthURL; sessionCall (Getenv W "MODEL_ID")]) /\
      (b = [] \/ b = [probeCall W] \/
       exists s bytes, b = [probeCall W; chatCall W s bytes])).
    { assert (Ha : exists a, calls st1 = (calls st ++ a)%list /\
        (a = [] \/ a = [HealthGet healthURL; sessionCall (Getenv W "MODEL_ID")])).
      { destruct He' as [E|E].
        - exists []. rewrite app_nil_r. split; [exact E|by left].
        - eexists. split; [exact E|by right]. }
      assert (Hb : exists b, calls st' = (calls st1 ++ b)%list /\
        (b = [] \/ b = [probeCall W] \/
         exists s bytes, b = [probeCall W; chatCall W s bytes])).
      { destruct Hf' as [F|[F|(s & bytes & _ & _ & _ & F)]].
        - exists []. rewrite app_nil_r. split; [exact F|by left].
        - eexists. split; [exact F|]. right. by left.
        - eexists. split; [exact F|]. right. right. by exists s, bytes. }
      destruct Ha as (a & Ha & Hca). destruct Hb as (b & Hb & Hcb).
      by exists a, b. }
    destruct Hcases as (a & b & Ha & Hb & Hca & Hcb).
    exists a, b. split; [|done].
    apply issued_app. by rewrite Hb, Ha, <- app_assoc.
Qed.

(** The session id travels with the request: every chat POST of
    [forwardRequest] goes to [MARKETPLACE_URL] with the marshalled
    payload as its body, the header [Content-Type: application/json]
    and, under the key [Session_id], the id of the session that
    [forwardRequest] finds stored, which is not empty.  This holds in
    whatever state [forwardRequest] is entered: it does not rest on what
    the handler read of [activeSession] before, outside the mutex. *)
Theorem session_id_travels_with_the_request (W : World) (requestBody : Payload)
    (st st' : State) (o : Outcome NetResult)
    (url : string) (header : Header) (body : string) :
  forwardRequest W requestBody st = (o, st') ->
  ChatPost url header body ∈ issued st st' ->
  exists s,
    activeSession st = Some s /\ SessionID s ≠ "" /\
    url = Getenv W "MARKETPLACE_URL" /\
    Marshal W requestBody = inr body /\
    header !! "Content-Type" = Some ["application/json"] /\
    header !! "Session_id" = Some [SessionID s].
Proof.
  intros Hrun Hin.
  destruct (forwardRequest_trace _ _ _ _ _ Hrun)
    as [_ [F|[F|(s & bytes & Hs & Hid & Hm & F)]]].
  - rewrite (issued_same st st' F) in Hin. by apply elem_of_nil in Hin.
  - rewrite (issued_app st st' [probeCall W] F) in Hin.
    by apply list_elem_of_singleton in Hin.
  - rewrite (issued_app st st' _ F) in Hin.
    apply elem_of_cons in Hin as [Hin|Hin]; [done|].
    apply list_elem_of_singleton in Hin. injection Hin as -> -> ->.
    exists s. split; [done|]. split; [done|]. split; [done|]. split; [done|].
    unfold Header_Set.
    change (CanonicalMIMEHeaderKey "Content-Type") with "Content-Type".
    change (CanonicalMIMEHeaderKey "Session_id") with "Session_id".
    split; [by rewrite lookup_insert_ne, lookup_insert_eq|].
    by rewrite lookup_insert_eq.
Qed.

Lemma session_id_travels_with_the_request_witness :
  exists s,
    activeSession establishedState = Some s /\
    SessionID s = "abc" /\
    Header_Set (Header_Set ∅ "Content-Type" "application/json") "Session_id" "abc"
      !! "Session_id" = Some [SessionID s].
Proof.
  pose (W := sampleWorld backendHealthy).
  pose (rb := <["model" := JString "model-1"]> (chatPayload None false)).
  pose (run := forwardRequest W rb establishedState).
  destruct (session_id_travels_with_the_request W rb establishedState (snd run)
              (fst run)
              "http://marketplace:9000/v1/chat/completions"
              (Header_Set (Header_Set ∅ "Content-Type" "application/json")
                          "Session_id" "abc")
              ("{" ++ quoted "messages" ++ ":[]," ++ quoted "model" ++ ":"
               ++ quoted "model-1" ++ "," ++ quoted "stream" ++ ":false}"))
    as (s & Hs & _ & _ & _ & _ & Hh).
  - apply surjective_pairing.
  - assert (Hcalls : issued establishedState (snd run)
      = [probeCall W;
         chatCall W (mkSession "abc" "model-1" 0)
           ("{" ++ quoted "messages" ++ ":[]," ++ quoted "model" ++ ":"
            ++ quoted "model-1" ++ "," ++ quoted "stream" ++ ":false}")]).
    { vm_compute. reflexivity. }
    rewrite Hcalls. unfold chatCall.
    change (Getenv W "MARKETPLACE_URL")
      with "http://marketplace:9000/v1/chat/completions".
    apply list_elem_of_further. apply list_elem_of_here.
  - exists s. split; [exact Hs|]. split; [|exact Hh].
    injection Hs as <-. reflexivity.
Defined.

(** ** Startup *)

(** [StartProxyServer] reaches [http.ListenAndServe] exactly when
    [WALLET_ADDRESS] is set and is not the zero address and [MODEL_ID] is
    set; it then listens on [":" ++ PORT], on [":8080"] when [PORT] is
    unset, and it has touched neither the session nor the backend. *)
Theorem startup_validates_the_environment (W : World) (st st' : State)
    (addr : string) :
  StartProxyServer W st = (Ret addr, st') <->
  (Getenv W "WALLET_ADDRESS" ≠ "" /\
   Getenv W "WALLET_ADDRESS" ≠ zeroAddress /\
   Getenv W "MODEL_ID" ≠ "" /\
   st' = st /\
   addr = ":" ++ (if String.eqb (Getenv W "PORT") "" then "8080" else Getenv W "PORT")).
Proof.
  unfold StartProxyServer, getModelID. run.
  destruct (String.eqb_spec (Getenv W "WALLET_ADDRESS") "") as [E1|E1]; simpl.
  { split; [done|]. by intros (? & _). }
  destruct (String.eqb_spec (Getenv W "WALLET_ADDRESS") zeroAddress) as [E2|E2]; simpl.
  { split; [done|]. by intros (_ & ? & _). }
  destruct (String.eqb_spec (Getenv W "MODEL_ID") "") as [E3|E3]; simpl.
  { split; [done|]. by intros (_ & _ & ? & _). }
  split.
  - by intros [= <- <-].
  - by intros (_ & _ & _ & -> & ->).
Qed.

Lemma startup_validates_the_environment_witness :
  StartProxyServer (servingWorld backendDown) initialState = (Ret ":9090", initialState).
Proof.
  apply (startup_validates_the_environment (servingWorld backendDown)
           initialState initialState ":9090").
  split; [|split; [|split; [|split]]].
  - intros H. vm_compute in H. discriminate H.
  - intros H. vm_compute in H. discriminate H.
  - intros H. vm_compute in H. discriminate H.
  - reflexivity.
  - reflexivity.
Defined.

Lemma ProxyChatCompletion_fatal W w r st msg st' :
  ProxyChatCompletion W w r st = (Fatal msg, st') -> Getenv W "MODEL_ID" = "".
Proof.
  unfold ProxyChatCompletion.
  destruct (ReqBodyErr r) as [e|]; [done|].
  unfold mbind at 1, M_bind, bind.
  destruct (ensureSession W st) as [o1 st1] eqn:He.
  destruct (ensureSession_outcome W st o1 st1 He) as [[e ->]|[-> Hm]]; [|done].
  destruct e as [e|]; [done|].
  destruct (DecodePayload W (ReqBody r)) as [e|[m|]]; [done| |].
  - destruct (String.eqb_spec (Getenv W "MODEL_ID") "") as [E|E]; [done|].
    unfold mbind at 1, M_bind, bind, get_session.
    destruct (activeSession st1) as [s|]; [|done].
    set (rb := <["model" := JString (Getenv W "MODEL_ID")]> m).
    destruct (match rb !! "stream" with Some (JBool b) => b | _ => false end).
    + destruct (handleStreamingRequest_returns W w rb st1) as (w' & st3 & Hh).
      by rewrite (bind_Ret _ _ _ _ _ Hh).
    + destruct (handleNonStreamingRequest_outcome W w rb st1)
        as [(w' & st3 & Hh)|(resp & st3 & _ & _ & _ & Hh)].
      * by rewrite (bind_Ret _ _ _ _ _ Hh).
      * unfold mbind, M_bind, bind. by rewrite Hh.
  - by destruct (String.eqb_spec (Getenv W "MODEL_ID") "").
Qed.

(** Once the server has started, no request ends the process: the
    [log.Fatal] of [getModelID] inside [ensureSession] cannot be reached
    by a handler, whatever the state, the request and the backend. *)
Theorem started_server_survives_every_request (W : World) (st0 st0' : State)
    (addr : string) (w : ResponseWriter) (r : Request) (st : State) :
  StartProxyServer W st0 = (Ret addr, st0') ->
  forall msg, fst (ProxyChatCompletion W w r st) ≠ Fatal msg.
Proof.
  intros (_ & _ & Hm & _)%startup_validates_the_environment msg Hfatal.
  destruct (ProxyChatCompletion W w r st) as [o st'] eqn:Hrun.
  cbn [fst] in Hfatal. subst o.
  by apply ProxyChatCompletion_fatal in Hrun.
Qed.

Lemma started_server_survives_every_request_witness :
  StartProxyServer (servingWorld backendDown) initialState
    = (Ret ":9090", initialState) /\
  forall msg,
    fst (ProxyChatCompletion (servingWorld backendDown) (newResponseWriter true)
           (chatRequest "null") initialState) ≠ Fatal msg.
Proof.
  assert (Hstart : StartProxyServer (servingWorld backendDown) initialState
                   = (Ret ":9090", initialState)) by reflexivity.
  split; [exact Hstart|].
  exact (started_server_survives_every_request (servingWorld backendDown)
           initialState initialState ":9090" (newResponseWriter true)
           (chatRequest "null") initialState Hstart).
Defined.

(** ** The forward step *)

(** Unlike the health check of the session step, the reachability probe
    of [forwardRequest] decides: when it fails, the forward is given up
    with the probe as its only call, the chat POST is not issued even
    though a session is stored, and either relay mode answers 500. *)
Theorem unreachable_marketplace_aborts_the_forward (W : World) (st : State)
    (w : ResponseWriter) (requestBody : Payload) (e : string) :
  Getenv W "MARKETPLACE_URL" ≠ "" ->
  RoundTrip W (calls st) (probeCall W) = NetError e ->
  let st' := mkState (activeSession st) (calls st ++ [probeCall W]) (ticks st) in
  forwardRequest W requestBody st
    = (Ret (NetError ("marketplace is not accessible: " ++ e)), st') /\
  handleNonStreamingRequest W w requestBody st
    = (Ret (respondWithError w 500 "Failed to forward request"), st') /\
  handleStreamingRequest W w requestBody st
    = (Ret (respondWithError w 500 "Failed to forward streaming request"), st') /\
  (Sent w = None -> Out w = [] ->
   status (respondWithError w 500 "Failed to forward request") = Some 500 /\
   written (Out (respondWithError w 500 "Failed to forward request"))
   = encodeError "Failed to forward request").
Proof.
  intros Hurl Hp st'.
  assert (Hf : forwardRequest W requestBody st
    = (Ret (NetError ("marketplace is not accessible: " ++ e)), st')).
  { unfold forwardRequest, net. run. fold (probeCall W).
    destruct (String.eqb_spec (Getenv W "MARKETPLACE_URL") "") as [E|_]; [done|].
    by rewrite Hp. }
  split; [exact Hf|]. split; [|split].
  - unfold handleNonStreamingRequest. by rewrite (bind_Ret _ _ _ _ _ Hf).
  - unfold handleStreamingRequest. by rewrite (bind_Ret _ _ _ _ _ Hf).
  - intros Hs Ho. split; [by apply respondWithError_status|
                          by apply respondWithError_written].
Qed.

Lemma unreachable_marketplace_aborts_the_forward_witness :
  forwardRequest (sampleWorld backendDown) (chatPayload None false) establishedState
  = (Ret (NetError "marketplace is not accessible: connection refused"),
     mkState (activeSession establishedState)
             [probeCall (sampleWorld backendDown)] 1).
Proof.
  apply (unreachable_marketplace_aborts_the_forward (sampleWorld backendDown)
           establishedState (newResponseWriter true) (chatPayload None false)
           "connection refused").
  - intros H. vm_compute in H. discriminate H.
  - reflexivity.
Defined.

Lemma append_assoc_string (s t u : string) : (s ++ t) ++ u = s ++ (t ++ u).
Proof.
  induction s as [|c s IH]; [done|]. rewrite !append_cons. by rewrite IH.
Qed.

Lemma length_append_string (s t : string) :
  String.length (s ++ t) = (String.length s + String.length t)%nat.
Proof.
  induction s as [|c s IH]; [done|]. rewrite append_cons.
  cbn [String.length]. by rewrite IH.
Qed.

Lemma string_rev_acc_append s acc : string_rev_acc s acc = string_rev s ++ acc.
Proof.
  unfold string_rev. revert acc. induction s as [|c s IH]; intros acc; [done|].
  cbn [string_rev_acc]. rewrite (IH (String c acc)), (IH (String c EmptyString)).
  by rewrite append_assoc_string.
Qed.

Lemma string_rev_acc_of_append s t acc :
  string_rev_acc (s ++ t) acc = string_rev_acc t (string_rev_acc s acc).
Proof.
  revert acc. induction s as [|c s IH]; intros acc; [done|].
  rewrite append_cons. cbn [string_rev_acc]. apply IH.
Qed.

Lemma string_rev_append s t : string_rev (s ++ t) = string_rev t ++ string_rev s.
Proof.
  unfold string_rev at 1. rewrite string_rev_acc_of_append.
  apply string_rev_acc_append.
Qed.

Lemma prefix_append p q : String.prefix p (p ++ q) = true.
Proof.
  induction p as [|c p IH]; [by destruct q|].
  rewrite append_cons. cbn [String.prefix].
  by destruct (ascii_dec c c).
Qed.

Lemma substring_append s t : String.substring 0 (String.length s) (s ++ t) = s.
Proof.
  induction s as [|c s IH]; [by destruct t|].
  rewrite append_cons. cbn [String.length String.substring]. by rewrite IH.
Qed.

(** [strings.TrimSuffix] takes the suffix off. *)
Lemma TrimSuffix_append s suffix : TrimSuffix (s ++ suffix) suffix = s.
Proof.
  unfold TrimSuffix, has_suffix.
  rewrite string_rev_append, prefix_append, length_append_string.
  replace (String.length s + String.length suffix - String.length suffix)%nat
    with (String.length s) by lia.
  apply substring_append.
Qed.

(** With [MARKETPLACE_URL] set, every forward starts with the probe. *)
Lemma forwardRequest_probes_first W requestBody st o st' :
  Getenv W "MARKETPLACE_URL" ≠ "" ->
  forwardRequest W requestBody st = (o, st') ->
  issued st st' = [probeCall W] \/
  exists s bytes, issued st st' = [probeCall W; chatCall W s bytes].
Proof.
  intros Hurl. unfold forwardRequest, net. run. fold (probeCall W).
  destruct (String.eqb_spec (Getenv W "MARKETPLACE_URL") "") as [E|_]; [done|].
  assert (H1 : forall a t, issued st (mkState a (calls st ++ [probeCall W]) t)
                           = [probeCall W]).
  { intros a t. by apply issued_app. }
  assert (H2 : forall a t c,
             issued st (mkState a ((calls st ++ [probeCall W]) ++ [c]) t)
             = [probeCall W; c]).
  { intros a t c. apply issued_app. cbn [calls]. by rewrite <- app_assoc. }
  destruct (RoundTrip W (calls st) _) as [e0|probe].
  { intros [= <- <-]. left. apply H1. }
  destruct (Marshal W requestBody) as [e1|bytes].
  { intros [= <- <-]. left. apply H1. }
  destruct (NewRequestErr W _) as [e2|].
  { intros [= <- <-]. left. apply H1. }
  simpl. destruct (activeSession st) as [ses|] eqn:Hs.
  2:{ intros [= <- <-]. left. apply H1. }
  destruct (String.eqb_spec (SessionID ses) "") as [E'|E'].
  { intros [= <- <-]. left. apply H1. }
  simpl. fold (chatCall W ses bytes).
  destruct (RoundTrip W _ (chatCall W ses bytes)) as [e3|backend].
  { intros [= <- <-]. right. exists ses, bytes. apply H2. }
  destruct (StatusCode backend =? 200); intros [= <- <-];
    right; exists ses, bytes; apply H2.
Qed.

(** The probe does not go where the chat POST goes.  With
    [MARKETPLACE_URL] set, the first call of every forward is a GET: for
    a URL that ends in [/v1/chat/completions] of what comes before that
    path, for any other URL of the URL as it is.  The chat POST, if the
    forward gets that far, goes to the URL itself. *)
Theorem probe_goes_to_the_base_url (W : World) (requestBody : Payload)
    (st st' : State) (o : Outcome NetResult) :
  Getenv W "MARKETPLACE_URL" ≠ "" ->
  forwardRequest W requestBody st = (o, st') ->
  exists target rest,
    issued st st' = ProbeGet target :: rest /\
    (forall base, Getenv W "MARKETPLACE_URL" = base ++ "/v1/chat/completions" ->
                  target = base) /\
    (has_suffix (Getenv W "MARKETPLACE_URL") "/v1/chat/completions" = false ->
     target = Getenv W "MARKETPLACE_URL") /\
    (rest = [] \/
     exists header body, rest = [ChatPost (Getenv W "MARKETPLACE_URL") header body]).
Proof.
  intros Hurl Hf.
  exists (TrimSuffix (Getenv W "MARKETPLACE_URL") "/v1/chat/completions").
  fold (probeCall W).
  destruct (forwardRequest_probes_first _ _ _ _ _ Hurl Hf) as [Hi|(s & bytes & Hi)].
  - exists []. split; [exact Hi|]. split; [|split; [|by left]].
    + intros base Hb. rewrite Hb. apply TrimSuffix_append.
    + intros Hno. unfold TrimSuffix. by rewrite Hno.
  - exists [chatCall W s bytes]. split; [exact Hi|]. split; [|split].
    + intros base Hb. rewrite Hb. apply TrimSuffix_append.
    + intros Hno. unfold TrimSuffix. by rewrite Hno.
    + right. by eexists _, _.
Qed.

Lemma probe_goes_to_the_base_url_witness :
  exists rest,
    issued establishedState
           (snd (forwardRequest (sampleWorld backendHealthy)
                                (chatPayload (Some "model-1") false) establishedState))
    = ProbeGet "http://marketplace:9000" :: rest.
Proof.
  pose (W := sampleWorld backendHealthy).
  pose (rb := chatPayload (Some "model-1") false).
  destruct (probe_goes_to_the_base_url W rb establishedState
              (snd (forwardRequest W rb establishedState))
              (fst (forwardRequest W rb establishedState)))
    as (target & rest & Hi & Hbase & _).
  - discriminate.
  - by destruct (forwardRequest W rb establishedState).
  - exists rest. etransitivity; [exact Hi|]. f_equal. f_equal.
    apply (Hbase "http://marketplace:9000"). reflexivity.
Defined.

(** ** More on the two relay modes *)

(** [copyHeaders] adds and never replaces: after it, every header key
    holds the values the writer had for it followed by the values of the
    backend, each list in its order; nothing is sent yet. *)
Theorem copyHeaders_appends (w : ResponseWriter) (headers : Header) :
  canonicalHeader headers ->
  let w' := copyHeaders w headers in
  Sent w' = Sent w /\ Out w' = Out w /\
  forall key, default [] (WHeader w' !! key)
              = (default [] (WHeader w !! key) ++ default [] (headers !! key))%list.
Proof.
  unfold copyHeaders.
  apply (map_fold_weak_ind (fun r (m : Header) =>
    canonicalHeader m ->
    Sent r = Sent w /\ Out r = Out w /\
    forall k, default [] (WHeader r !! k)
              = (default [] (WHeader w !! k) ++ default [] (m !! k))%list)).
  - intros _. repeat split; try done. intros k.
    rewrite lookup_empty. cbn [default]. by rewrite app_nil_r.
  - intros key values m r Hnone IH Hcan.
    assert (Hcm : canonicalHeader m).
    { intros k vs Hk. apply (Hcan k vs). rewrite lookup_insert_ne; [done|].
      intros ->. by rewrite Hnone in Hk. }
    destruct (IH Hcm) as (Hs & Ho & Hv).
    assert (Hkey : CanonicalMIMEHeaderKey key = key).
    { apply (Hcan key values). by rewrite lookup_insert_eq. }
    destruct (add_values r key values Hkey) as (Hs' & Ho' & _ & Hv').
    rewrite Hs', Ho'. repeat split; try done.
    intros k. rewrite Hv'. case_decide; subst.
    + rewrite lookup_insert_eq, Hv, Hnone. cbn [default]. by rewrite app_nil_r.
    + rewrite lookup_insert_ne by done. apply Hv.
Qed.

Lemma copyHeaders_appends_witness :
  default [] (WHeader (copyHeaders
                         (w_Header_Add (newResponseWriter true) "Set-Cookie" "a=1")
                         {["Set-Cookie" := ["b=2"; "c=3"]]}) !! "Set-Cookie")
  = ["a=1"; "b=2"; "c=3"].
Proof.
  destruct (copyHeaders_appends
              (w_Header_Add (newResponseWriter true) "Set-Cookie" "a=1")
              {["Set-Cookie" := ["b=2"; "c=3"]]}) as (_ & _ & Hv).
  - intros key values [<- _]%lookup_singleton_Some. reflexivity.
  - rewrite Hv. vm_compute. reflexivity.
Defined.

(** The streaming relay once the scanner has split the body. *)
Lemma handleStreamingRequest_scanned W w requestBody st st' resp lines err :
  forwardRequest W requestBody st = (Ret (NetOk resp), st') ->
  Scanner resp = (lines, err) ->
  IsFlusher w = true ->
  handleStreamingRequest W w requestBody st =
  (Ret (let w1 := foldl (fun w text => w_Flush (w_Write w (text ++ newline)))
                        (setStreamingHeaders w) lines in
        match err with
        | Some _ => respondWithError w1 500 "Error reading streaming response"
        | None => w1
        end), st').
Proof.
  intros Hf Hsc Hfl.
  assert (Hfl' : IsFlusher (setStreamingHeaders w) = true) by exact Hfl.
  unfold handleStreamingRequest. rewrite (bind_Ret _ _ _ _ _ Hf).
  cbv zeta. rewrite Hfl'. cbn [negb]. rewrite Hsc. by destruct err.
Qed.

(** An error response after the status line has gone out cannot change
    it: the headers sent stay as they are and the error document follows
    what was written. *)
Lemma respondWithError_after_sent w code message sent :
  Sent w = Some sent ->
  Sent (respondWithError w code message) = Some sent /\
  Out (respondWithError w code message)
  = (Out w ++ [WWrite (encodeError message)])%list.
Proof.
  destruct w as [h s o f]. cbn [Sent]. intros ->.
  unfold respondWithError, w_Write, sendHeader, w_Header_Set.
  by cbn [Sent WHeader Out IsFlusher].
Qed.

Lemma stream_lines (w : ResponseWriter) lines :
  Sent w = None -> Out w = [] ->
  let w1 := foldl (fun w text => w_Flush (w_Write w (text ++ newline)))
                  (setStreamingHeaders w) lines in
  Out w1 = relayed lines /\
  (lines = [] -> Sent w1 = None) /\
  (lines ≠ [] -> Sent w1 = Some (200, WHeader (setStreamingHeaders w))).
Proof.
  intros Hs Ho.
  assert (Hs' : Sent (setStreamingHeaders w) = None) by exact Hs.
  assert (Ho' : Out (setStreamingHeaders w) = []) by exact Ho.
  destruct lines as [|text lines].
  - cbn [foldl]. split; [exact Ho'|]. split; [done|done].
  - destruct (stream_lines_first (setStreamingHeaders w) text lines Hs')
      as (Hsent & Hout).
    rewrite Ho' in Hout. split; [exact Hout|]. split; [done|]. intros _. exact Hsent.
Qed.

Lemma streaming_relays_every_line_witness :
  exists w' st',
    handleStreamingRequest (sampleWorld (backendAnswering 503 sseBody None))
      (newResponseWriter true)
      (<["model" := JString "model-1"]> (chatPayload None true)) establishedState
      = (Ret w', st') /\
    Out w' = relayed ["data: A"; "data: B"; "data: [DONE]"] /\
    status w' = Some 200.
Proof.
  pose (W := sampleWorld (backendAnswering 503 sseBody None)).
  pose (rb := <["model" := JString "model-1"]> (chatPayload None true)).
  destruct (streaming_relays_every_line W establishedState
              (snd (forwardRequest W rb establishedState))
              (newResponseWriter true) rb
              (mkResponse 503 {["Content-Type" := ["text/event-stream"]]} sseBody None
                          false)
              ["data: A"; "data: B"; "data: [DONE]"])
    as (w' & Hrun & Hout & Hsent).
  - vm_compute. reflexivity.
  - reflexivity.
  - reflexivity.
  - repeat constructor.
  - reflexivity.
  - reflexivity.
  - reflexivity.
  - exists w'. eexists. split; [exact Hrun|]. split; [exact Hout|].
    unfold status. by rewrite Hsent.
Defined.

Lemma hasLF_append s t : hasLF (s ++ t) = hasLF s || hasLF t.
Proof.
  induction s as [|c s IH]; [done|]. rewrite append_cons. cbn [hasLF].
  by rewrite IH, orb_assoc.
Qed.

(** Scanning what is left after the last line feed. *)
Lemma scanLines_end f s line_rev n :
  hasLF s = false ->
  0 <= n -> 0 < n + Z.of_nat (String.length s) ->
  n + Z.of_nat (String.length s) < MaxScanTokenSize ->
  scanLines f s line_rev n = ([dropCR (string_rev_acc s line_rev)], None).
Proof.
  revert line_rev n. induction s as [|c s IH]; intros line_rev n Hlf Hn Hpos Hlen.
  - cbn [scanLines]. cbn [String.length] in *.
    destruct (Z.eqb_spec n 0); [lia|].
    destruct (Z.ltb_spec n MaxScanTokenSize); [|lia]. reflexivity.
  - cbn [scanLines].
    cbn [hasLF] in Hlf. apply orb_false_iff in Hlf as [Hc Hlf].
    cbn [String.length] in *.
    destruct (Z.leb_spec MaxScanTokenSize n); [lia|].
    rewrite Hc. rewrite IH; [done|done|lia|lia|lia].
Qed.

(** Scanning a line that does not fit the buffer: 64 KiB without a line
    feed, and either more input behind them or an input that reports
    its end on a read of its own. *)
Lemma scanLines_too_long f s rest line_rev n :
  hasLF s = false ->
  0 <= n -> MaxScanTokenSize <= n + Z.of_nat (String.length s) ->
  rest ≠ "" \/ MaxScanTokenSize < n + Z.of_nat (String.length s) \/ f = false ->
  scanLines f (s ++ rest) line_rev n = ([], Some "bufio.Scanner: token too long").
Proof.
  revert line_rev n. induction s as [|c s IH]; intros line_rev n Hlf Hn Hlen Hmore.
  - change (EmptyString ++ rest) with rest. cbn [String.length] in Hlen, Hmore.
    destruct rest as [|c rest]; cbn [scanLines].
    + destruct (Z.eqb_spec n 0) as [E|_]; [unfold MaxScanTokenSize in Hlen; lia|].
      destruct (Z.ltb_spec n MaxScanTokenSize); [lia|]. cbn [orb].
      destruct (Z.eqb_spec n MaxScanTokenSize) as [E|_]; [|done].
      destruct Hmore as [Hr|[Hn'|Hf]]; [done|lia|by rewrite Hf].
    + destruct (Z.leb_spec MaxScanTokenSize n); [done|lia].
  - rewrite append_cons. cbn [scanLines].
    cbn [hasLF] in Hlf. apply orb_false_iff in Hlf as [Hc Hlf].
    cbn [String.length] in Hlen, Hmore.
    destruct (Z.leb_spec MaxScanTokenSize n); [done|].
    rewrite Hc. apply IH; [done|lia|lia|].
    destruct Hmore as [Hr|[Hn'|Hf]]; [by left|right; left; lia|by right; right].
Qed.

(** A last line of exactly 64 KiB is a token when the input reports its
    end with its last bytes. *)
Lemma scanLines_full_buffer s line_rev n :
  hasLF s = false ->
  0 <= n -> n + Z.of_nat (String.length s) = MaxScanTokenSize ->
  scanLines true s line_rev n = ([dropCR (string_rev_acc s line_rev)], None).
Proof.
  revert line_rev n. induction s as [|c s IH]; intros line_rev n Hlf Hn Hlen.
  - cbn [scanLines]. cbn [String.length] in *.
    destruct (Z.eqb_spec n 0) as [E|_]; [unfold MaxScanTokenSize in Hlen; lia|].
    destruct (Z.ltb_spec n MaxScanTokenSize); [lia|]. cbn [orb].
    destruct (Z.eqb_spec n MaxScanTokenSize) as [_|E]; [done|lia].
  - cbn [scanLines].
    cbn [hasLF] in Hlf. apply orb_false_iff in Hlf as [Hc Hlf].
    cbn [String.length] in *.
    destruct (Z.leb_spec MaxScanTokenSize n); [lia|].
    rewrite Hc. rewrite IH; [done|done|lia|lia].
Qed.

(** The scanner on lines followed by something else. *)
Lemma scanLines_lines_then f lines tail result :
  Forall plainLine lines ->
  scanLines f tail EmptyString 0 = result ->
  scanLines f (joinLines lines ++ tail) EmptyString 0
  = ((lines ++ fst result)%list, snd result).
Proof.
  intros Hlines Htail. induction Hlines as [|l lines (Hlf & Hcr & Hlen) _ IH].
  - change (joinLines [] ++ tail) with tail. rewrite Htail. by destruct result.
  - cbn [joinLines]. rewrite append_assoc_string, append_cons.
    rewrite scanLines_line; [|done|lia|lia].
    rewrite IH. fold (string_rev l). by rewrite dropCR_plain.
Qed.

Lemma scanLines_joinLinesCRLF f lines :
  Forall crlfLine lines ->
  scanLines f (joinLinesCRLF lines) EmptyString 0 = (lines, None).
Proof.
  induction 1 as [|l lines (Hlf & Hlen) _ IH]; [reflexivity|].
  cbn [joinLinesCRLF].
  change (l ++ String CR (String LF (joinLinesCRLF lines)))
    with (l ++ (String CR EmptyString ++ String LF (joinLinesCRLF lines))).
  rewrite <- append_assoc_string.
  rewrite scanLines_line.
  - rewrite IH. fold (string_rev (l ++ String CR EmptyString)).
    rewrite string_rev_append.
    change (string_rev (String CR EmptyString) ++ string_rev l)
      with (String CR (string_rev l)).
    unfold dropCR. change (Ascii.eqb CR CR) with true.
    by rewrite string_rev_involutive.
  - rewrite hasLF_append, Hlf. reflexivity.
  - lia.
  - rewrite length_append_string. cbn [String.length]. lia.
Qed.

(** Line ends are normalised: a backend body whose lines end in a
    carriage return and a line feed reaches the client with each line
    ended by a line feed alone, one write and one flush per line. *)
Theorem streaming_turns_crlf_into_lf (W : World) (st st' : State)
    (w : ResponseWriter) (requestBody : Payload) (resp : Response)
    (lines : list string) :
  forwardRequest W requestBody st = (Ret (NetOk resp), st') ->
  Body resp = joinLinesCRLF lines -> BodyErr resp = None ->
  Forall crlfLine lines ->
  IsFlusher w = true -> Sent w = None -> Out w = [] ->
  exists w',
    handleStreamingRequest W w requestBody st = (Ret w', st') /\
    Out w' = relayed lines /\
    written (Out w') = joinLines lines.
Proof.
  intros Hf Hb He Hlines Hfl Hs Ho.
  assert (Hsc : Scanner resp = (lines, None)).
  { unfold Scanner. by rewrite Hb, (scanLines_joinLinesCRLF _ lines Hlines), He. }
  eexists. split; [exact (handleStreamingRequest_scanned _ _ _ _ _ _ _ _ Hf Hsc Hfl)|].
  cbv zeta. destruct (stream_lines w lines Hs Ho) as (Hout & _).
  split; [exact Hout|]. rewrite Hout. clear.
  induction lines as [|l lines IH]; [done|].
  cbn [relayed flat_map app written joinLines] in *.
  fold (relayed lines). rewrite IH. unfold newline.
  by rewrite append_assoc_string.
Qed.

Lemma streaming_turns_crlf_into_lf_witness :
  exists w' st',
    handleStreamingRequest
      (sampleWorld (backendAnswering 200 (joinLinesCRLF ["data: A"; ""; "data: B"]) None))
      (newResponseWriter true)
      (<["model" := JString "model-1"]> (chatPayload None true)) establishedState
      = (Ret w', st') /\
    Out w' = relayed ["data: A"; ""; "data: B"] /\
    written (Out w') = joinLines ["data: A"; ""; "data: B"].
Proof.
  pose (W := sampleWorld (backendAnswering 200
                            (joinLinesCRLF ["data: A"; ""; "data: B"]) None)).
  pose (rb := <["model" := JString "model-1"]> (chatPayload None true)).
  destruct (streaming_turns_crlf_into_lf W establishedState
              (snd (forwardRequest W rb establishedState))
              (newResponseWriter true) rb
              (mkResponse 200 {["Content-Type" := ["text/event-stream"]]}
                          (joinLinesCRLF ["data: A"; ""; "data: B"]) None true)
              ["data: A"; ""; "data: B"])
    as (w' & Hrun & Hout & Hw).
  - vm_compute. reflexivity.
  - reflexivity.
  - reflexivity.
  - repeat constructor.
  - reflexivity.
  - reflexivity.
  - reflexivity.
  - exists w'. eexists. split; [exact Hrun|]. split; [exact Hout|exact Hw].
Defined.

(** A last line without a line feed is relayed too, and the client
    receives it with a line feed the backend did not send. *)
Theorem unterminated_last_line_is_relayed (W : World) (st st' : State)
    (w : ResponseWriter) (requestBody : Payload) (resp : Response)
    (lines : list string) (last : string) :
  forwardRequest W requestBody st = (Ret (NetOk resp), st') ->
  Body resp = joinLines lines ++ last -> BodyErr resp = None ->
  Forall plainLine lines -> plainLine last -> last ≠ "" ->
  IsFlusher w = true -> Sent w = None -> Out w = [] ->
  exists w',
    handleStreamingRequest W w requestBody st = (Ret w', st') /\
    Out w' = relayed (lines ++ [last]).
Proof.
  intros Hf Hb He Hlines (Hlf & Hcr & Hlen) Hne Hfl Hs Ho.
  assert (Hlast : scanLines (EndWithData resp) last EmptyString 0 = ([last], None)).
  { rewrite scanLines_end; [|done|lia| |lia].
    - fold (string_rev last). by rewrite dropCR_plain.
    - destruct last; [done|]. cbn [String.length]. lia. }
  assert (Hsc : Scanner resp = ((lines ++ [last])%list, None)).
  { unfold Scanner. rewrite Hb, (scanLines_lines_then _ lines last _ Hlines Hlast).
    cbn [fst snd]. by rewrite He. }
  eexists. split; [exact (handleStreamingRequest_scanned _ _ _ _ _ _ _ _ Hf Hsc Hfl)|].
  cbv zeta. by destruct (stream_lines w (lines ++ [last]) Hs Ho) as (Hout & _).
Qed.

Lemma unterminated_last_line_is_relayed_witness :
  exists w' st',
    handleStreamingRequest
      (sampleWorld (backendAnswering 200 (joinLines ["data: A"] ++ "data: B") None))
      (newResponseWriter true)
      (<["model" := JString "model-1"]> (chatPayload None true)) establishedState
      = (Ret w', st') /\
    Out w' = relayed ["data: A"; "data: B"].
Proof.
  pose (W := sampleWorld (backendAnswering 200 (joinLines ["data: A"] ++ "data: B") None)).
  pose (rb := <["model" := JString "model-1"]> (chatPayload None true)).
  destruct (unterminated_last_line_is_relayed W establishedState
              (snd (forwardRequest W rb establishedState))
              (newResponseWriter true) rb
              (mkResponse 200 {["Content-Type" := ["text/event-stream"]]}
                          (joinLines ["data: A"] ++ "data: B") None true)
              ["data: A"] "data: B")
    as (w' & Hrun & Hout).
  - vm_compute. reflexivity.
  - reflexivity.
  - reflexivity.
  - repeat constructor.
  - repeat constructor.
  - discriminate.
  - reflexivity.
  - reflexivity.
  - reflexivity.
  - exists w'. eexists. split; [exact Hrun|exact Hout].
Defined.

(** Whatever was sent before, an error response adds exactly one write:
    the error document. *)
Lemma respondWithError_out w code message :
  Out (respondWithError w code message)
  = (Out w ++ [WWrite (encodeError message)])%list.
Proof.
  destruct w as [h [sent|] o f];
    unfold respondWithError, w_Write, sendHeader, w_Header_Set;
    by cbn [Sent WHeader Out IsFlusher].
Qed.

(** A body that breaks off with a read error after at least one line:
    the lines read are relayed, then the error document is written into
    the stream; the status stays 200 and the headers sent stay those of
    an event stream, since both went out with the first line.  When no
    line was read, the error is a proper response with status 500. *)
Theorem stream_error_after_data_keeps_status (W : World) (st st' : State)
    (w : ResponseWriter) (requestBody : Payload) (resp : Response)
    (lines : list string) (e : string) :
  forwardRequest W requestBody st = (Ret (NetOk resp), st') ->
  Body resp = joinLines lines -> BodyErr resp = Some e ->
  Forall plainLine lines ->
  IsFlusher w = true -> Sent w = None -> Out w = [] ->
  exists w',
    handleStreamingRequest W w requestBody st = (Ret w', st') /\
    Out w' = (relayed lines
              ++ [WWrite (encodeError "Error reading streaming response")])%list /\
    (lines ≠ [] ->
     exists sentHeader,
       Sent w' = Some (200, sentHeader) /\
       sentHeader !! "Content-Type" = Some ["text/event-stream"]) /\
    (lines = [] -> status w' = Some 500).
Proof.
  intros Hf Hb He Hlines Hfl Hs Ho.
  assert (Hsc : Scanner resp = (lines, Some e)).
  { unfold Scanner. by rewrite Hb, (scanLines_joinLines _ lines Hlines), He. }
  eexists. split; [exact (handleStreamingRequest_scanned _ _ _ _ _ _ _ _ Hf Hsc Hfl)|].
  cbv zeta. destruct (stream_lines w lines Hs Ho) as (Hout & Hnone & Hsome).
  split; [|split].
  - by rewrite respondWithError_out, Hout.
  - intros Hne.
    destruct (respondWithError_after_sent _ 500 "Error reading streaming response"
                _ (Hsome Hne)) as [-> _].
    eexists. split; [reflexivity|]. by destruct (streaming_headers w) as (? & _).
  - intros Hnil. apply respondWithError_status. by apply Hnone.
Qed.

Lemma stream_error_after_data_keeps_status_witness :
  exists w' st',
    handleStreamingRequest
      (sampleWorld (backendAnswering 200 (joinLines ["data: A"]) (Some "unexpected EOF")))
      (newResponseWriter true)
      (<["model" := JString "model-1"]> (chatPayload None true)) establishedState
      = (Ret w', st') /\
    Out w' = [WWrite ("data: A" ++ newline); WFlush;
              WWrite (encodeError "Error reading streaming response")] /\
    status w' = Some 200.
Proof.
  pose (W := sampleWorld (backendAnswering 200 (joinLines ["data: A"])
                            (Some "unexpected EOF"))).
  pose (rb := <["model" := JString "model-1"]> (chatPayload None true)).
  destruct (stream_error_after_data_keeps_status W establishedState
              (snd (forwardRequest W rb establishedState))
              (newResponseWriter true) rb
              (mkResponse 200 {["Content-Type" := ["text/event-stream"]]}
                          (joinLines ["data: A"]) (Some "unexpected EOF") true)
              ["data: A"] "unexpected EOF")
    as (w' & Hrun & Hout & Hsent & _).
  - vm_compute. reflexivity.
  - reflexivity.
  - reflexivity.
  - repeat constructor.
  - reflexivity.
  - reflexivity.
  - reflexivity.
  - exists w'. eexists. split; [exact Hrun|]. split; [exact Hout|].
    destruct (Hsent ltac:(discriminate)) as (h & Hh & _). unfold status. by rewrite Hh.
Defined.

(** The line of 64 KiB at the end of the input, with the end reported
    in the two ways. *)
Example scan_last_line_of_64KiB :
  scanLines true longLine EmptyString 0 = ([longLine], None) /\
  scanLines false longLine EmptyString 0
  = ([], Some "bufio.Scanner: token too long").
Proof.
  assert (Hlf : hasLF longLine = false) by (vm_compute; reflexivity).
  assert (Hlen : Z.of_nat (String.length longLine) = MaxScanTokenSize)
    by (vm_compute; reflexivity).
  assert (Hcr : endsWithCR longLine = false) by (vm_compute; reflexivity).
  split.
  - rewrite scanLines_full_buffer; [|done|done|lia].
    fold (string_rev longLine). by rewrite dropCR_plain.
  - rewrite <- (append_empty_r longLine) at 1.
    apply scanLines_too_long; [done|done|lia|by right; right].
Qed.

(** A line that does not fit the scanner's buffer ends the relay: the
    lines before it are relayed, nothing of the long line or of what
    follows it is, and the error document is written in their place.
    The line does not fit when it has 64 KiB or more without a line
    feed and more input follows these 64 KiB, or when it has exactly
    64 KiB at the very end of a body that reports its end on a read of
    its own.  (A last line of exactly 64 KiB whose end is reported with
    its last bytes is a token like any other.) *)
Theorem line_too_long_ends_the_stream (W : World) (st st' : State)
    (w : ResponseWriter) (requestBody : Payload) (resp : Response)
    (lines : list string) (long rest : string) :
  forwardRequest W requestBody st = (Ret (NetOk resp), st') ->
  Body resp = joinLines lines ++ (long ++ rest) ->
  Forall plainLine lines ->
  hasLF long = false -> MaxScanTokenSize <= Z.of_nat (String.length long) ->
  rest ≠ "" \/ MaxScanTokenSize < Z.of_nat (String.length long)
  \/ EndWithData resp = false ->
  IsFlusher w = true -> Sent w = None -> Out w = [] ->
  exists w',
    handleStreamingRequest W w requestBody st = (Ret w', st') /\
    Out w' = (relayed lines
              ++ [WWrite (encodeError "Error reading streaming response")])%list.
Proof.
  intros Hf Hb Hlines Hlf Hlen Hmore Hfl Hs Ho.
  assert (Hlong : scanLines (EndWithData resp) (long ++ rest) EmptyString 0
                  = ([], Some "bufio.Scanner: token too long")).
  { apply scanLines_too_long; [done|lia|lia|].
    destruct Hmore as [Hr|[Hl|He]]; [by left|right; left; lia|by right; right]. }
  assert (Hsc : Scanner resp = (lines, Some "bufio.Scanner: token too long")).
  { unfold Scanner. rewrite Hb, (scanLines_lines_then _ lines _ _ Hlines Hlong).
    cbn [fst snd]. by rewrite app_nil_r. }
  eexists. split; [exact (handleStreamingRequest_scanned _ _ _ _ _ _ _ _ Hf Hsc Hfl)|].
  cbv zeta. destruct (stream_lines w lines Hs Ho) as (Hout & Hnone & Hsome).
  by rewrite respondWithError_out, Hout.
Qed.

Lemma line_too_long_ends_the_stream_witness :
  hasLF longLine = false /\
  MaxScanTokenSize <= Z.of_nat (String.length longLine) /\
  exists w' st',
    handleStreamingRequest
      (sampleWorld (backendAnswering 200
                      (joinLines ["data: A"] ++ (longLine ++ joinLines ["data: B"])) None))
      (newResponseWriter true)
      (<["model" := JString "model-1"]> (chatPayload None true)) establishedState
      = (Ret w', st') /\
    Out w' = [WWrite ("data: A" ++ newline); WFlush;
              WWrite (encodeError "Error reading streaming response")].
Proof.
  assert (H1 : hasLF longLine = false) by (vm_compute; reflexivity).
  assert (H2 : MaxScanTokenSize <= Z.of_nat (String.length longLine))
    by (vm_compute; discriminate).
  split; [exact H1|]. split; [exact H2|].
  pose (rb := <["model" := JString "model-1"]> (chatPayload None true)).
  assert (Hf : forall body,
             forwardRequest (sampleWorld (backendAnswering 200 body None)) rb
                            establishedState
             = (Ret (NetOk (mkResponse 200 {["Content-Type" := ["text/event-stream"]]}
                                       body None true)),
                snd (forwardRequest (sampleWorld (backendAnswering 200 body None)) rb
                                    establishedState)))
    by (intros body; vm_compute; reflexivity).
  pose (body := joinLines ["data: A"] ++ (longLine ++ joinLines ["data: B"])).
  pose (W := sampleWorld (backendAnswering 200 body None)).
  destruct (line_too_long_ends_the_stream W establishedState
              (snd (forwardRequest W rb establishedState))
              (newResponseWriter true) rb
              (mkResponse 200 {["Content-Type" := ["text/event-stream"]]} body None true)
              ["data: A"] longLine (joinLines ["data: B"]))
    as (w' & Hrun & Hout).
  - exact (Hf body).
  - reflexivity.
  - repeat constructor.
  - exact H1.
  - exact H2.
  - left. intros Hrest. vm_compute in Hrest. discriminate Hrest.
  - reflexivity.
  - reflexivity.
  - reflexivity.
  - exists w'. eexists. split; [exact Hrun|exact Hout].
Defined.

(** A response writer that cannot flush is found out only after the
    backend has been called: the chat POST is issued, its response is
    dropped, and the client gets status 500 with the error document,
    under the content type of the error and the caching headers of a
    stream. *)
Theorem streaming_unsupported_after_the_backend_call (W : World) (st st' : State)
    (w : ResponseWriter) (requestBody : Payload) (resp : Response) :
  forwardRequest W requestBody st = (Ret (NetOk resp), st') ->
  IsFlusher w = false -> Sent w = None -> Out w = [] ->
  exists w' sentHeader,
    handleStreamingRequest W w requestBody st = (Ret w', st') /\
    Sent w' = Some (500, sentHeader) /\
    sentHeader !! "Content-Type" = Some ["application/json"] /\
    sentHeader !! "Cache-Control" = Some ["no-cache"] /\
    sentHeader !! "Connection" = Some ["keep-alive"] /\
    Out w' = [WWrite (encodeError "Streaming unsupported")] /\
    exists c, isChatPost c = true /\ c ∈ issued st st'.
Proof.
  intros Hf Hfl Hs Ho.
  assert (Hfl' : IsFlusher (setStreamingHeaders w) = false) by exact Hfl.
  assert (Hs' : Sent (setStreamingHeaders w) = None) by exact Hs.
  assert (Ho' : Out (setStreamingHeaders w) = []) by exact Ho.
  destruct (streaming_headers w) as (_ & Hcache & Hconn). cbv zeta in Hcache, Hconn.
  exists (respondWithError (setStreamingHeaders w) 500 "Streaming unsupported").
  exists (Header_Set (WHeader (setStreamingHeaders w)) "Content-Type" "application/json").
  split.
  { unfold handleStreamingRequest. rewrite (bind_Ret _ _ _ _ _ Hf).
    cbv zeta. by rewrite Hfl'. }
  split.
  { unfold respondWithError, w_Write, sendHeader, w_Header_Set.
    cbn [Sent WHeader Out IsFlusher]. rewrite Hs'. by cbn [Sent WHeader Out IsFlusher]. }
  unfold Header_Set at 1 2 3.
  change (CanonicalMIMEHeaderKey "Content-Type") with "Content-Type".
  split; [by rewrite lookup_insert_eq|].
  split; [by rewrite lookup_insert_ne|].
  split; [by rewrite lookup_insert_ne|].
  split; [by rewrite respondWithError_out, Ho'|].
  destruct (forwardRequest_ok_inv _ _ _ _ _ Hf)
    as (s & bytes & backend & _ & _ & _ & _ & -> & _).
  exists (chatCall W s bytes). split; [done|].
  rewrite (issued_app st _ [probeCall W; chatCall W s bytes]).
  - apply list_elem_of_further, list_elem_of_here.
  - cbn [calls]. by rewrite <- app_assoc.
Qed.

Lemma streaming_unsupported_after_the_backend_call_witness :
  exists w' st',
    handleStreamingRequest (sampleWorld (backendAnswering 200 sseBody None))
      (newResponseWriter false)
      (<["model" := JString "model-1"]> (chatPayload None true)) establishedState
      = (Ret w', st') /\
    status w' = Some 500 /\
    Out w' = [WWrite (encodeError "Streaming unsupported")] /\
    exists c, isChatPost c = true /\ c ∈ issued establishedState st'.
Proof.
  pose (W := sampleWorld (backendAnswering 200 sseBody None)).
  pose (rb := <["model" := JString "model-1"]> (chatPayload None true)).
  destruct (streaming_unsupported_after_the_backend_call W establishedState
              (snd (forwardRequest W rb establishedState))
              (newResponseWriter false) rb
              (mkResponse 200 {["Content-Type" := ["text/event-stream"]]} sseBody None
                          true))
    as (w' & h & Hrun & Hsent & _ & _ & _ & Hout & Hc).
  - vm_compute. reflexivity.
  - reflexivity.
  - reflexivity.
  - reflexivity.
  - exists w'. eexists. split; [exact Hrun|]. split; [|split; [exact Hout|exact Hc]].
    unfold status. by rewrite Hsent.
Defined.

(** What [forwardRequest] does to the body of the backend's response:
    with status 200 it is handed on unread, with any other status it has
    been read to its end and its read error is gone. *)
Lemma forwardRequest_body W requestBody st resp st' :
  forwardRequest W requestBody st = (Ret (NetOk resp), st') ->
  exists hist call backend,
    calls st' = (hist ++ [call])%list /\ isChatPost call = true /\
    RoundTrip W hist call = NetOk backend /\
    StatusCode resp = StatusCode backend /\
    Body resp = Body backend /\
    BodyErr resp = (if StatusCode backend =? 200 then BodyErr backend else None).
Proof.
  unfold forwardRequest, net. run. fold (probeCall W).
  destruct (String.eqb_spec (Getenv W "MARKETPLACE_URL") "") as [E|E]; [done|].
  destruct (RoundTrip W (calls st) _) as [e0|probe]; [done|].
  destruct (Marshal W requestBody) as [e1|bytes]; [done|].
  destruct (NewRequestErr W _) as [e2|]; [done|]. simpl.
  destruct (activeSession st) as [ses|] eqn:Hs; [|done].
  destruct (String.eqb_spec (SessionID ses) "") as [E'|E']; [done|]. simpl.
  fold (chatCall W ses bytes).
  destruct (RoundTrip W _ (chatCall W ses bytes)) as [e3|backend] eqn:Hb; [done|].
  destruct (StatusCode backend =? 200) eqn:Hst; intros [= <- <-];
    exists (calls st ++ [probeCall W])%list, (chatCall W ses bytes), backend;
    cbn [calls StatusCode Body BodyErr]; rewrite ?Hst; by repeat split.
Qed.

(** A backend response with a status other than 200 is read to its end
    inside [forwardRequest], and a body that broke off on the way is
    handed on as if it were complete: the streaming relay sends the lines
    that were read and no error document, whatever the read error was. *)
Theorem error_status_hides_a_broken_body (W : World) (st st' : State)
    (w : ResponseWriter) (requestBody : Payload) (resp : Response)
    (lines : list string) :
  forwardRequest W requestBody st = (Ret (NetOk resp), st') ->
  StatusCode resp ≠ 200 ->
  Body resp = joinLines lines -> Forall plainLine lines ->
  IsFlusher w = true -> Sent w = None -> Out w = [] ->
  exists hist call backend w',
    calls st' = (hist ++ [call])%list /\ isChatPost call = true /\
    RoundTrip W hist call = NetOk backend /\
    Body backend = joinLines lines /\
    BodyErr resp = None /\
    handleStreamingRequest W w requestBody st = (Ret w', st') /\
    Out w' = relayed lines.
Proof.
  intros Hf Hst Hb Hlines Hfl Hs Ho.
  destruct (forwardRequest_body _ _ _ _ _ Hf)
    as (hist & call & backend & Hcalls & Hchat & Hrt & Hcode & Hbody & Herr).
  assert (Hnone : BodyErr resp = None).
  { rewrite Herr. destruct (Z.eqb_spec (StatusCode backend) 200) as [E|_]; [|done].
    by rewrite <- Hcode in E. }
  assert (Hsc : Scanner resp = (lines, None)).
  { unfold Scanner. by rewrite Hb, (scanLines_joinLines _ lines Hlines), Hnone. }
  exists hist, call, backend. eexists.
  split; [exact Hcalls|]. split; [exact Hchat|]. split; [exact Hrt|].
  split; [by rewrite <- Hbody|]. split; [exact Hnone|].
  split; [exact (handleStreamingRequest_scanned _ _ _ _ _ _ _ _ Hf Hsc Hfl)|].
  cbv zeta. by destruct (stream_lines w lines Hs Ho) as (Hout & _).
Qed.

Lemma error_status_hides_a_broken_body_witness :
  exists w' st',
    handleStreamingRequest
      (sampleWorld (backendAnswering 502 (joinLines ["data: A"]) (Some "unexpected EOF")))
      (newResponseWriter true)
      (<["model" := JString "model-1"]> (chatPayload None true)) establishedState
      = (Ret w', st') /\
    Out w' = [WWrite ("data: A" ++ newline); WFlush].
Proof.
  pose (W := sampleWorld (backendAnswering 502 (joinLines ["data: A"])
                            (Some "unexpected EOF"))).
  pose (rb := <["model" := JString "model-1"]> (chatPayload None true)).
  destruct (error_status_hides_a_broken_body W establishedState
              (snd (forwardRequest W rb establishedState))
              (newResponseWriter true) rb
              (mkResponse 502 {["Content-Type" := ["text/event-stream"]]}
                          (joinLines ["data: A"]) None false)
              ["data: A"])
    as (hist & call & backend & w' & _ & _ & _ & _ & _ & Hrun & Hout).
  - vm_compute. reflexivity.
  - discriminate.
  - reflexivity.
  - repeat constructor.
  - reflexivity.
  - reflexivity.
  - reflexivity.
  - exists w'. eexists. split; [exact Hrun|exact Hout].
Defined.

(** ** Concurrent calls, one after the other *)

Lemma inSequence_snoc W k st es st1 e st2 :
  inSequence W k st = (Ret es, st1) ->
  ensureSession W st1 = (Ret e, st2) ->
  inSequence W (S k) st = (Ret (es ++ [e])%list, st2).
Proof.
  revert st es. induction k as [|k IH]; intros st es Hk He.
  - injection Hk as <- <-. cbn [inSequence].
    rewrite (bind_Ret _ _ _ _ _ He). reflexivity.
  - change (inSequence W (S k) st)
      with ((e0 ← ensureSession W; es0 ← inSequence W k; mret (e0 :: es0)) st) in Hk.
    change (inSequence W (S (S k)) st)
      with ((e0 ← ensureSession W; es0 ← inSequence W (S k); mret (e0 :: es0)) st).
    unfold mbind, M_bind, bind in Hk |- *.
    destruct (ensureSession W st) as [[e0|msg|msg] st0]; try discriminate Hk.
    destruct (inSequence W k st0) as [[es0|msg|msg] st0'] eqn:Hk0; try discriminate Hk.
    injection Hk as <- <-.
    by rewrite (IH st0 es0 Hk0 He).
Qed.

Lemma inSequence_length W k st es st1 :
  inSequence W k st = (Ret es, st1) -> length es = k.
Proof.
  revert st es. induction k as [|k IH]; intros st es.
  - by intros [= <- <-].
  - change (inSequence W (S k) st)
      with ((e0 ← ensureSession W; es0 ← inSequence W k; mret (e0 :: es0)) st).
    unfold mbind, M_bind, bind.
    destruct (ensureSession W st) as [[e0|msg|msg] st0]; try discriminate.
    destruct (inSequence W k st0) as [[es0|msg|msg] st0'] eqn:Hk0; try discriminate.
    intros [= <- <-]. cbn [length]. by rewrite (IH _ _ Hk0).
Qed.

Lemma returnedErrors_insert base i e :
  base !! i = Some BeforeLock ->
  returnedErrors (<[i := Returned e]> base) ≡ₚ e :: returnedErrors base.
Proof.
  revert i. induction base as [|pc base IH]; intros [|i] Hi; try discriminate Hi.
  - injection Hi as ->. reflexivity.
  - cbn [lookup list_lookup] in Hi. specialize (IH i Hi).
    change (<[S i := Returned e]> (pc :: base)) with (pc :: <[i := Returned e]> base).
    destruct pc; cbn [returnedErrors]; try exact IH.
    rewrite IH. apply Permutation_swap.
Qed.

Lemma returned_returnedErrors l : returned l = length (returnedErrors l).
Proof.
  induction l as [|[] l IH]; cbn [returned returnedErrors length]; congruence.
Qed.

(** From the lock to the return is one call of [ensureSession]. *)
Lemma stretches_return_early W start e m :
  stretchTest W start = (Ret (inl e), m) -> ensureSession W start = (Ret e, m).
Proof.
  intros H. rewrite ensureSession_stretches.
  unfold mbind, M_bind, bind. by rewrite H.
Qed.

Lemma stretches_return_late W start modelID m1 m2 e m :
  stretchTest W start = (Ret (inr modelID), m1) ->
  stretchHealth W m1 = (Ret tt, m2) ->
  stretchPost W modelID m2 = (Ret e, m) ->
  ensureSession W start = (Ret e, m).
Proof.
  intros H1 H2 H3. rewrite ensureSession_stretches.
  unfold mbind, M_bind, bind. rewrite H1. cbv beta iota.
  unfold mbind, M_bind, bind. by rewrite H2.
Qed.

Lemma step_Serial W st i sys : Serial W st sys -> Serial W st (step W i sys).
Proof.
  intros (base & es & start & Hbase & Hseq & Hperm & Hsys). unfold step.
  destruct (pcs sys !! i) as [pc|] eqn:Hi; [|by exists base, es, start].
  destruct Hsys as [(Hm & Hp & Hmem)|(Hm & j & pcj & Hj & Hp & Hhold)].
  - (* the mutex is free *)
    rewrite Hp in Hi. pose proof (Forall_lookup_1 _ _ _ _ Hbase Hi) as Hout.
    destruct pc; try discriminate Hout.
    + rewrite Hm. exists base, es, start. repeat (split; [done|]). right.
      cbn [mutex pcs mem]. split; [done|]. exists i, Locked.
      rewrite Hp. by repeat split.
    + exists base, es, start. repeat (split; [done|]). by left.
  - (* goroutine [j] holds the mutex *)
    assert (Hstay : Serial W st sys).
    { exists base, es, start. repeat (split; [done|]). right.
      split; [done|]. by exists j, pcj. }
    assert (Hlt : (j < length base)%nat) by (by eapply lookup_lt_Some).
    assert (Hmove : forall pc' m,
               Holding W start pc' m ->
               Serial W st (mkSystem m true (<[j := pc']> (pcs sys)))).
    { intros pc' m H'. exists base, es, start. repeat (split; [done|]). right.
      cbn [mutex pcs mem]. split; [done|]. exists j, pc'.
      rewrite Hp, list_insert_insert_eq. by repeat split. }
    assert (Hdone : forall e m,
               ensureSession W start = (Ret e, m) ->
               Serial W st (mkSystem m false (<[j := Returned e]> (pcs sys)))).
    { intros e m He.
      exists (<[j := Returned e]> base), (es ++ [e])%list, m.
      split.
      { apply Forall_insert; [exact Hbase|done]. }
      split.
      { rewrite length_app, Nat.add_1_r.
        exact (inSequence_snoc W _ st es start e m Hseq He). }
      split.
      { rewrite (returnedErrors_insert base j e Hj), Hperm.
        apply Permutation_cons_append. }
      left. cbn [mutex pcs mem]. rewrite Hp, list_insert_insert_eq. by repeat split. }
    rewrite Hp in Hi. rewrite list_lookup_insert in Hi.
    case_decide as Hd.
    + destruct Hd as [<- _]. injection Hi as <-.
      destruct pcj as [| |modelID|modelID|e|msg]; cbn [Holding] in Hhold;
        try done.
      * (* Locked *)
        subst start.
        destruct (stretchTest W (mem sys)) as [[[e|modelID]|msg|msg] m] eqn:Ht.
        -- apply Hdone. by apply stretches_return_early.
        -- by apply (Hmove (BeforeHealth modelID)).
        -- by apply (Hmove (Exited msg)).
        -- by apply (Hmove (Exited msg)).
      * (* BeforeHealth *)
        destruct (stretchHealth W (mem sys)) as [[[]|msg|msg] m] eqn:Hh.
        -- apply (Hmove (BeforePost modelID)). cbn [Holding]. by exists (mem sys).
        -- by apply (Hmove (Exited msg)).
        -- by apply (Hmove (Exited msg)).
      * (* BeforePost *)
        destruct Hhold as (m1 & Ht & Hh).
        destruct (stretchPost W modelID (mem sys)) as [[e|msg|msg] m] eqn:Hpost.
        -- apply Hdone. by apply (stretches_return_late W start modelID m1 (mem sys)).
        -- by apply (Hmove (Exited msg)).
        -- by apply (Hmove (Exited msg)).
    + pose proof (Forall_lookup_1 _ _ _ _ Hbase Hi) as Hout.
      destruct pc; try discriminate Hout.
      * by rewrite Hm.
      * exact Hstay.
Qed.

Lemma run_Serial W st schedule sys :
  Serial W st sys -> Serial W st (run W schedule sys).
Proof.
  revert sys. induction schedule as [|i schedule IH]; intros sys H; [done|].
  apply IH, step_Serial, H.
Qed.

Lemma returnedErrors_replicate n : returnedErrors (replicate n BeforeLock) = [].
Proof. induction n as [|n IH]; [done|exact IH]. Qed.

Lemma burst_Serial W n st : Serial W st (burst n st).
Proof.
  exists (replicate n BeforeLock), [], st.
  split; [by apply Forall_replicate|]. split; [done|].
  split; [by rewrite returnedErrors_replicate|]. by left.
Qed.

(** Concurrent requests take the session step one after the other: under
    every schedule, whenever the mutex is free, the shared memory (the
    stored session, the calls issued, the clock) is the one that as many
    calls of [ensureSession] in a row as goroutines have returned leave
    behind, and the results of these calls are the results the
    goroutines returned. *)
Theorem concurrent_calls_are_serialised (W : World) (n : nat) (st : State)
    (schedule : list nat) :
  let sys := run W schedule (burst n st) in
  mutex sys = false ->
  exists es,
    inSequence W (returned (pcs sys)) st = (Ret es, mem sys) /\
    returnedErrors (pcs sys) ≡ₚ es.
Proof.
  intros sys Hfree.
  destruct (run_Serial W st schedule _ (burst_Serial W n st))
    as (base & es & start & _ & Hseq & Hperm & Hsys). fold sys in Hsys.
  destruct Hsys as [(_ & Hp & Hmem)|(Hm & _)]; [|congruence].
  exists es. rewrite Hp, Hmem. split; [|exact Hperm].
  by rewrite returned_returnedErrors, Hperm.
Qed.

Lemma concurrent_calls_are_serialised_witness :
  let sys := run (sampleWorld backendHealthy) [0; 1; 0; 0; 1; 0; 1; 1]%nat
                 (burst 2 initialState) in
  mutex sys = false /\
  returned (pcs sys) = 2%nat /\
  exists es,
    inSequence (sampleWorld backendHealthy) (returned (pcs sys)) initialState
      = (Ret es, mem sys) /\
    returnedErrors (pcs sys) ≡ₚ es.
Proof.
  intros sys.
  assert (Hfree : mutex sys = false) by (vm_compute; reflexivity).
  split; [exact Hfree|]. split; [vm_compute; reflexivity|].
  exact (concurrent_calls_are_serialised (sampleWorld backendHealthy) 2 initialState
           [0; 1; 0; 0; 1; 0; 1; 1]%nat Hfree).
Defined.
